(** * Chart recommendation core: a shallow embedding and its properties

    The development follows two source files of the repository:

    - [src/utils/ChartSuggestionEngine.ts]: the field analyser
      ([analyzeField], [determineDataType], [getCardinalityLevel]), the
      rule table ([suggestCharts], [applyTableauRules]) and the validation
      rules ([validateChartSuggestion]);
    - [src/MagicCharts.tsx]: the variant compatibility table
      ([CHART_VARIANTS]), the column search ([getAutoSelectColumns],
      [combinations]), the column selector ([inferColumnType],
      [isColumnAddable], [handleColumnToggle], [getSampleChartBindings]),
      the helpers [aggregateByCategory] and [getUnit], and the aggregation
      code of the renderer (multi-series pivot, histogram binning, grouped
      and proportional stacking).

    JavaScript values are embedded as an inductive type, twice over.

    In [Js] a number is NaN, an infinity or an exact rational, with a
    single zero.  That reading serves the statements that rest on
    comparisons, on counting and on sums of integers below 2^53, where
    double precision is exact as well; such a domain is stated where a
    statement needs it.

    In [Double] a number is an IEEE 754 binary64 value, with the
    operations of the processor as the kernel provides them.  The
    proportional normalisation and the multi-series pivot, whose results
    are rounded quotients, are embedded over it.

    Strings are [String.string], read as the sequence of their code
    units, which are below 256 here, and ordered by them.  The built-in
    conversions of the host ([Number] and [String] on values, date
    parsing, [toLowerCase]) are parameters, gathered in [JsRuntime] and in
    [Host]. *)

From Stdlib Require Import ZArith QArith Qround Lqa String Ascii List Lia Bool.
From Stdlib Require Import Sorting Permutation.
From Stdlib Require Import PrimFloat SpecFloat FloatOps FloatAxioms.
From Stdlib Require Uint63.
From stdpp Require Import base gmap strings list pretty.

Local Open Scope string_scope.
Local Open Scope list_scope.
Local Open Scope nat_scope.

(** ** JavaScript values *)

Module Js.

(** A number: NaN, plus or minus Infinity, or a finite value. *)
Inductive JsNum : Type :=
| NaN
| PosInf
| NegInf
| Fin (q : Q).

(** Finite results are exact, without the rounding, overflow and underflow
    of double precision (for those see [Double]); they are kept in lowest
    terms, so that closed computations print the way one expects. *)
Definition fin (q : Q) : JsNum := Fin (Qred q).

Definition ofZ (z : Z) : JsNum := Fin (inject_Z z).
Definition ofNat (n : nat) : JsNum := ofZ (Z.of_nat n).

(** [isNaN(n)] on a value that already is a number. *)
Definition isNaN (n : JsNum) : bool :=
  match n with NaN => true | _ => false end.

(** [Number.isInteger(n)] *)
Definition isInteger (n : JsNum) : bool :=
  match n with
  | Fin q => Pos.eqb (Qden (Qred q)) 1
  | _ => false
  end.

Definition Qpositive (q : Q) : bool := negb (Qle_bool q 0).
Definition Qnegative (q : Q) : bool := negb (Qle_bool 0 q).

Definition jsNeg (a : JsNum) : JsNum :=
  match a with
  | NaN => NaN
  | PosInf => NegInf
  | NegInf => PosInf
  | Fin q => fin (- q)
  end.

(** [a + b] *)
Definition jsAdd (a b : JsNum) : JsNum :=
  match a, b with
  | NaN, _ | _, NaN => NaN
  | PosInf, NegInf | NegInf, PosInf => NaN
  | PosInf, _ | _, PosInf => PosInf
  | NegInf, _ | _, NegInf => NegInf
  | Fin x, Fin y => fin (x + y)
  end.

(** [a - b] *)
Definition jsSub (a b : JsNum) : JsNum := jsAdd a (jsNeg b).

(** the infinity carrying the sign of the product of an infinity of sign
    [pos] with the finite [q]; NaN when [q] is zero *)
Definition infTimes (pos : bool) (q : Q) : JsNum :=
  if Qeq_bool q 0 then NaN
  else if Bool.eqb pos (Qpositive q) then PosInf else NegInf.

(** [a * b] *)
Definition jsMul (a b : JsNum) : JsNum :=
  match a, b with
  | NaN, _ | _, NaN => NaN
  | PosInf, PosInf | NegInf, NegInf => PosInf
  | PosInf, NegInf | NegInf, PosInf => NegInf
  | PosInf, Fin q | Fin q, PosInf => infTimes true q
  | NegInf, Fin q | Fin q, NegInf => infTimes false q
  | Fin x, Fin y => fin (x * y)
  end.

(** [a / b]; the zero divisor is the positive zero *)
Definition jsDiv (a b : JsNum) : JsNum :=
  match a, b with
  | NaN, _ | _, NaN => NaN
  | (PosInf | NegInf), (PosInf | NegInf) => NaN
  | PosInf, Fin q => if Qnegative q then NegInf else PosInf
  | NegInf, Fin q => if Qnegative q then PosInf else NegInf
  | Fin _, (PosInf | NegInf) => Fin 0
  | Fin x, Fin y =>
      if Qeq_bool y 0 then
        if Qeq_bool x 0 then NaN
        else if Qpositive x then PosInf else NegInf
      else fin (x / y)
  end.

(** [Math.floor(a)] *)
Definition jsFloor (a : JsNum) : JsNum :=
  match a with
  | Fin q => Fin (inject_Z (Qfloor q))
  | other => other
  end.

(** [a < b]; false as soon as one side is NaN *)
Definition jsLt (a b : JsNum) : bool :=
  match a, b with
  | NaN, _ | _, NaN => false
  | _, NegInf => false
  | NegInf, _ => true
  | PosInf, _ => false
  | _, PosInf => true
  | Fin x, Fin y => negb (Qle_bool y x)
  end.

(** [a > b] *)
Definition jsGt (a b : JsNum) : bool := jsLt b a.

(** [Math.min(a, b)] and [Math.max(a, b)] *)
Definition jsMin (a b : JsNum) : JsNum :=
  match a, b with
  | NaN, _ | _, NaN => NaN
  | _, _ => if jsLt b a then b else a
  end.

Definition jsMax (a b : JsNum) : JsNum :=
  match a, b with
  | NaN, _ | _, NaN => NaN
  | _, _ => if jsLt a b then b else a
  end.

(** SameValueZero on numbers: NaN equals itself. *)
Definition numSameValueZero (a b : JsNum) : bool :=
  match a, b with
  | NaN, NaN | PosInf, PosInf | NegInf, NegInf => true
  | Fin x, Fin y => Qeq_bool x y
  | _, _ => false
  end.

(** [a === b] on numbers: NaN differs from itself. *)
Definition numStrictEquals (a b : JsNum) : bool :=
  negb (isNaN a) && numSameValueZero a b.

(** A value.  A [Date] object carries the reference that identifies it and
    its time value; other objects do not occur in table cells. *)
Inductive JsValue : Type :=
| JUndefined
| JNull
| JBool (b : bool)
| JNum (n : JsNum)
| JStr (s : string)
| JDate (ref : nat) (time : JsNum).

Inductive JsType : Type :=
| TUndefined | TObject | TBoolean | TNumber | TString.

(** [typeof v] *)
Definition typeof (v : JsValue) : JsType :=
  match v with
  | JUndefined => TUndefined
  | JNull => TObject
  | JBool _ => TBoolean
  | JNum _ => TNumber
  | JStr _ => TString
  | JDate _ _ => TObject
  end.

(** [v instanceof Date] *)
Definition instanceofDate (v : JsValue) : bool :=
  match v with JDate _ _ => true | _ => false end.

(** [v != null]: neither null nor undefined *)
Definition notNullish (v : JsValue) : bool :=
  match v with JUndefined | JNull => false | _ => true end.

(** truthiness, as [||] and [if] test it *)
Definition truthy (v : JsValue) : bool :=
  match v with
  | JUndefined | JNull => false
  | JBool b => b
  | JNum NaN => false
  | JNum (Fin q) => negb (Qeq_bool q 0)
  | JNum _ => true
  | JStr s => negb (String.eqb s "")
  | JDate _ _ => true
  end.

(** [a || b] *)
Definition jsOr (a b : JsValue) : JsValue := if truthy a then a else b.

(** SameValueZero, the equality of [Set]: objects by reference. *)
Definition sameValueZero (a b : JsValue) : bool :=
  match a, b with
  | JUndefined, JUndefined | JNull, JNull => true
  | JBool x, JBool y => Bool.eqb x y
  | JNum x, JNum y => numSameValueZero x y
  | JStr x, JStr y => String.eqb x y
  | JDate r _, JDate r' _ => Nat.eqb r r'
  | _, _ => false
  end.

(** [a === b] *)
Definition strictEquals (a b : JsValue) : bool :=
  match a, b with
  | JNum x, JNum y => numStrictEquals x y
  | _, _ => sameValueZero a b
  end.

(** What the host supplies: the built-in conversions the source calls and
    whose algorithms lie outside the repository. *)
Record JsRuntime : Type := {
  (** [Number(s)] on a string *)
  StringToNumber : string -> JsNum;
  (** [!isNaN(new Date(s).getTime())] *)
  dateStringValid : string -> bool;
  (** [s.toLowerCase()] *)
  toLowerCase : string -> string;
  (** [String(n)] on a number *)
  NumberToString : JsNum -> string;
  (** [String(d)] on a Date with the given time value *)
  DateToString : JsNum -> string
}.

(** [Number(v)] *)
Definition ToNumber (rt : JsRuntime) (v : JsValue) : JsNum :=
  match v with
  | JUndefined => NaN
  | JNull => Fin 0
  | JBool b => if b then Fin 1 else Fin 0
  | JNum n => n
  | JStr s => StringToNumber rt s
  | JDate _ t => t
  end.

(** [String(v)], also [v.toString()] where that is defined *)
Definition ToString (rt : JsRuntime) (v : JsValue) : string :=
  match v with
  | JUndefined => "undefined"
  | JNull => "null"
  | JBool b => if b then "true" else "false"
  | JNum n => NumberToString rt n
  | JStr s => s
  | JDate _ t => DateToString rt t
  end.

(** [s.includes(sub)] *)
Fixpoint includes (s sub : string) : bool :=
  String.prefix sub s ||
  match s with
  | EmptyString => false
  | String _ rest => includes rest sub
  end.

(** [Array.from(new Set(l))]: the first occurrence of every value, in
    insertion order. *)
Definition setAdd (acc : list JsValue) (x : JsValue) : list JsValue :=
  if existsb (sameValueZero x) acc then acc else acc ++ [x].

Definition setFromList (l : list JsValue) : list JsValue :=
  fold_left setAdd l [].

(** A table row: an object from column names to cells.  A missing
    property reads as [undefined]. *)
Definition getProp (row : gmap string JsValue) (key : string) : JsValue :=
  default JUndefined (row !! key).

End Js.

(** ** The suggestion engine ([ChartSuggestionEngine.ts]) *)

Module Suggestion.

(** [{ type, priority, reason }] *)
Record t : Type := make { type : string; priority : Z; reason : string }.

End Suggestion.

Module Engine.
Import Js.

Inductive DataType : Type := DIMENSION | MEASURE | DATE.
Inductive CardinalityLevel : Type := LOW | MEDIUM | HIGH.

Definition isLOW (c : CardinalityLevel) : bool :=
  match c with LOW => true | _ => false end.
Definition isHIGH (c : CardinalityLevel) : bool :=
  match c with HIGH => true | _ => false end.
Definition isDIMENSION (t : DataType) : bool :=
  match t with DIMENSION => true | _ => false end.
Definition isMEASURE (t : DataType) : bool :=
  match t with MEASURE => true | _ => false end.
Definition isDATE (t : DataType) : bool :=
  match t with DATE => true | _ => false end.

(** [CARDINALITY_THRESHOLDS] *)
Record Thresholds : Type := { T_LOW : nat; T_MEDIUM : nat; T_HIGH : nat }.
Definition CARDINALITY_THRESHOLDS : Thresholds :=
  {| T_LOW := 20; T_MEDIUM := 100; T_HIGH := 1000 |}.

(** The descriptor [analyzeField] returns. *)
Record FieldAnalysis : Type := {
  name : string;
  type : DataType;
  cardinality : nat;
  cardinalityLevel : CardinalityLevel;
  uniqueValues : list JsValue;
  hasNulls : bool;
  sampleValues : list JsValue
}.

(** [getCardinalityLevel] *)
Definition getCardinalityLevel (count : nat) : CardinalityLevel :=
  if count <=? T_LOW CARDINALITY_THRESHOLDS then LOW
  else if count <=? T_MEDIUM CARDINALITY_THRESHOLDS then MEDIUM
  else HIGH.

(** [count > len * 0.8] for two array lengths.  The product is an integer
    exactly when [len] is a multiple of 5, and then the double nearest to
    it is that integer; otherwise it lies at least 0.2 away from every
    integer.  So the test is the integer test [5 * count > 4 * len]. *)
Definition exceeds80 (count len : nat) : bool := 4 * len <? 5 * count.

Section WithRuntime.
Variable rt : JsRuntime.

(** [isDateString] *)
Definition isDateString (value : JsValue) : bool :=
  match value with
  | JStr s => dateStringValid rt s
  | _ => false
  end.

(** [typeof v === 'number' && !isNaN(v)] *)
Definition isNumericValue (v : JsValue) : bool :=
  match v with
  | JNum n => negb (isNaN n)
  | _ => false
  end.

(** [v instanceof Date || this.isDateString(v)] *)
Definition isDateValue (v : JsValue) : bool :=
  instanceofDate v || isDateString v.

(** [Number.isInteger(v)] on an arbitrary value *)
Definition isIntegerValue (v : JsValue) : bool :=
  match v with
  | JNum n => isInteger n
  | _ => false
  end.

(** [determineDataType]; its [stringValues] are computed and never read *)
Definition determineDataType (values : list JsValue) : DataType :=
  let numericValues := List.filter isNumericValue values in
  let dateValues := List.filter isDateValue values in
  if exceeds80 (length dateValues) (length values) then DATE
  else if exceeds80 (length numericValues) (length values) then
    let uniqueCount := length (setFromList numericValues) in
    if (uniqueCount <=? 20) && forallb isIntegerValue numericValues
    then DIMENSION
    else MEASURE
  else DIMENSION.

(** [analyzeField] *)
Definition columnValues (data : list (gmap string JsValue)) (fieldName : string)
  : list JsValue :=
  List.filter notNullish (List.map (fun row => getProp row fieldName) data).

Definition analyzeField (data : list (gmap string JsValue)) (fieldName : string)
  : FieldAnalysis :=
  let values := columnValues data fieldName in
  let unique := setFromList values in
  {| name := fieldName;
     type := determineDataType values;
     cardinality := length unique;
     cardinalityLevel := getCardinalityLevel (length unique);
     uniqueValues := firstn 10 unique;
     hasNulls := length values <? length data;
     sampleValues := firstn 5 values |}.

(** [measuresRepresentPartsOfWhole] *)
Definition partOfWholeKeywords : list string :=
  ["percentage"; "percent"; "share"; "proportion"; "ratio"].

Definition measuresRepresentPartsOfWhole (measures : list FieldAnalysis) : bool :=
  existsb (fun measure =>
    existsb (fun keyword => includes (toLowerCase rt (name measure)) keyword)
            partOfWholeKeywords) measures.

(** [isGeographicField] *)
Definition geoKeywords : list string :=
  ["country"; "state"; "city"; "region"; "location"; "lat"; "lng";
   "longitude"; "latitude"].

Definition isGeographicField (fieldName : string) : bool :=
  existsb (fun keyword => includes (toLowerCase rt fieldName) keyword) geoKeywords.

(** [containsGeographicValues].  The source calls [value.toString()],
    which throws on [null] and [undefined]; [analyzeField] keeps both out
    of [uniqueValues], and they read as their names here. *)
Definition geoValues : list string :=
  ["usa"; "uk"; "canada"; "australia"; "germany"; "france"; "japan"; "china"].

Definition containsGeographicValues (values : list JsValue) : bool :=
  existsb (fun value =>
    existsb (String.eqb (toLowerCase rt (ToString rt value))) geoValues) values.

(** *** The rule table

    Every rule of [applyTableauRules] is the list of suggestions it pushes;
    [suggestions.push] in sequence is concatenation. *)

Definition sug (ty : string) (p : Z) (r : string) : Suggestion.t :=
  Suggestion.make ty p r.

(** [dimensions[0].cardinalityLevel === 'LOW'], read only where the rule
    has checked [dimCount === 1] *)
Definition firstDimIsLow (dimensions : list FieldAnalysis) : bool :=
  match dimensions with
  | dim :: _ => isLOW (cardinalityLevel dim)
  | [] => false
  end.

Definition firstDimCardinality (dimensions : list FieldAnalysis) : nat :=
  match dimensions with
  | dim :: _ => cardinality dim
  | [] => 0
  end.

Definition bothDimsLow (dimensions : list FieldAnalysis) : bool :=
  length (List.filter (fun d => isLOW (cardinalityLevel d)) dimensions) =? 2.

Section Rules.
Variables (dimensions measures dates : list FieldAnalysis) (recordCount : nat).

Let dimCount := length dimensions.
Let measureCount := length measures.
Let dateCount := length dates.

(* Rule 1: Single Measure *)
Definition rule1 : list Suggestion.t :=
  if (measureCount =? 1) && (dimCount =? 0) && (dateCount =? 0)
  then [sug "histogram" 1 "Single continuous measure - show distribution"]
  else [].

(* Rule 2: Single Dimension *)
Definition rule2 : list Suggestion.t :=
  if (dimCount =? 1) && (measureCount =? 0) && (dateCount =? 0) then
    if firstDimIsLow dimensions
    then [sug "bar" 1 "Single categorical dimension - show frequency"]
    else []
  else [].

(* Rule 3: One Dimension + One Measure *)
Definition rule3 : list Suggestion.t :=
  if (dimCount =? 1) && (measureCount =? 1) && (dateCount =? 0) then
    if firstDimIsLow dimensions then
      sug "bar" 1 "Categorical dimension with measure - compare values across categories"
      :: (if firstDimCardinality dimensions <=? 7
          then [sug "pie" 2 "Few categories - can show parts of whole"]
          else [])
    else []
  else [].

(* Rule 4: One Date + One Measure *)
Definition rule4 : list Suggestion.t :=
  if (dateCount =? 1) && (measureCount =? 1) && (dimCount =? 0)
  then [sug "line" 1 "Time series data - show trend over time";
        sug "bar" 2 "Time periods - compare values across time periods"]
  else [].

(* Rule 5: Two Measures *)
Definition rule5 : list Suggestion.t :=
  if (measureCount =? 2) && (dimCount =? 0) && (dateCount =? 0)
  then [sug "scatter" 1 "Two continuous measures - show correlation"]
  else [].

(* Rule 6: Multiple Measures + One Dimension *)
Definition rule6 : list Suggestion.t :=
  if (2 <=? measureCount) && (dimCount =? 1) && (dateCount =? 0) then
    if firstDimIsLow dimensions
    then [sug "grouped_bar" 1 "Multiple measures with categorical dimension - compare measures across categories";
          sug "line" 2 "Multiple measures over categories - show trends for each measure"]
    else []
  else [].

(* Rule 7: Multiple Measures + One Date *)
Definition rule7 : list Suggestion.t :=
  if (2 <=? measureCount) && (dimCount =? 0) && (dateCount =? 1)
  then [sug "line" 1 "Multiple measures over time - show trends for each measure";
        sug "stacked_area" 2 "Multiple measures over time - show cumulative contribution"]
  else [].

(* Rule 8: Two Dimensions + One Measure *)
Definition rule8 : list Suggestion.t :=
  if (dimCount =? 2) && (measureCount =? 1) && (dateCount =? 0) then
    if bothDimsLow dimensions
    then [sug "grouped_bar" 1 "Two categorical dimensions with measure - group by one dimension";
          sug "stacked_bar" 2 "Two categorical dimensions with measure - stack by secondary dimension";
          sug "heatmap" 3 "Two categorical dimensions with measure - show intensity across categories"]
    else []
  else [].

(* Rule 9: One Date + One Dimension + One Measure *)
Definition rule9 : list Suggestion.t :=
  if (dateCount =? 1) && (dimCount =? 1) && (measureCount =? 1) then
    if firstDimIsLow dimensions
    then [sug "line" 1 "Time series by category - show trends for each group";
          sug "stacked_area" 2 "Stacked area - show contribution over time";
          sug "grouped_bar" 3 "Grouped bars over time - compare categories within time periods"]
    else []
  else [].

(* Rule 10: One Date + One Dimension + Multiple Measures *)
Definition rule10 : list Suggestion.t :=
  if (dateCount =? 1) && (dimCount =? 1) && (2 <=? measureCount) then
    if firstDimIsLow dimensions
    then [sug "line" 1 "Multiple time series by category - show trends for each measure and group";
          sug "stacked_area" 2 "Stacked area by category - show measure contributions over time"]
    else []
  else [].

(* Rule 11: Two Dimensions + Multiple Measures *)
Definition rule11 : list Suggestion.t :=
  if (dimCount =? 2) && (2 <=? measureCount) && (dateCount =? 0) then
    if bothDimsLow dimensions
    then [sug "grouped_bar" 1 "Multiple measures with two dimensions - group and compare measures";
          sug "heatmap" 2 "Multiple measures - create separate heatmaps for each measure"]
    else []
  else [].

(* Rule 12: Three or More Measures *)
Definition rule12 : list Suggestion.t :=
  if (3 <=? measureCount) && (dimCount <=? 1) && (dateCount <=? 1) then
    (if dateCount =? 1
     then [sug "line" 1 "Multiple measures over time - parallel time series";
           sug "stacked_area" 2 "Multiple measures over time - show cumulative values"]
     else [])
    ++ (if dimCount =? 1 then
          if firstDimIsLow dimensions
          then [sug "radar" 1 "Multiple measures by category - radar chart shows multidimensional comparison";
                sug "grouped_bar" 2 "Multiple measures by category - grouped bars for detailed comparison"]
          else []
        else [])
    ++ (if (dimCount =? 0) && (dateCount =? 0)
        then [sug "parallel_coordinates" 1 "Multiple measures only - parallel coordinates show relationships"]
        else [])
  else [].

(* Rule 13: Two Measures + One Dimension (Scatter + Grouping) *)
Definition rule13 : list Suggestion.t :=
  if (measureCount =? 2) && (dimCount =? 1) && (dateCount =? 0) then
    if firstDimIsLow dimensions
    then [sug "scatter" 1 "Two measures with categorical dimension - scatter plot colored by category";
          sug "grouped_bar" 2 "Two measures with categorical dimension - grouped bars to compare both measures"]
    else []
  else [].

(* Rule 14: Advanced Stacking Logic *)
Definition stackableScenarios : list (bool * string) :=
  [ ((dateCount =? 1) && (dimCount =? 1) && (measureCount =? 1), "stacked_area");
    ((2 <=? measureCount) && measuresRepresentPartsOfWhole measures, "stacked_bar");
    ((dimCount =? 2) && (measureCount =? 1), "stacked_bar") ].

Definition stackingReason (ty : string) : string :=
  ("Stackable data structure - " ++ ty ++ " shows composition")%string.

Definition rule14 : list Suggestion.t :=
  flat_map (fun scenario : bool * string =>
    if fst scenario
    then [sug (snd scenario) 2 (stackingReason (snd scenario))]
    else []) stackableScenarios.

(* dimensions.forEach: high cardinality dimensions *)
Definition ruleHighCardinality : list Suggestion.t :=
  flat_map (fun dim =>
    if isHIGH (cardinalityLevel dim) then
      if 1 <=? measureCount
      then [sug "treemap" 3 "High cardinality dimension - treemap shows hierarchy"]
      else []
    else []) dimensions.

(* Large Dataset Rules *)
Definition ruleLargeDataset : list Suggestion.t :=
  if (10000 <? Z.of_nat recordCount)%Z then
    if 2 <=? measureCount
    then [sug "density" 2 "Large dataset - density plot shows patterns better than individual points"]
    else []
  else [].

(* Geographic Data Detection *)
Definition geoFields : list FieldAnalysis :=
  List.filter (fun d => isGeographicField (name d)
                        || containsGeographicValues (uniqueValues d)) dimensions.

Definition ruleGeographic : list Suggestion.t :=
  if (0 <? length geoFields) && (1 <=? measureCount)
  then [sug "map" 1 "Geographic dimension detected - map visualization"]
  else [].

(** the suggestions pushed before the fallback test *)
Definition pushedByRules : list Suggestion.t :=
  rule1 ++ rule2 ++ rule3 ++ rule4 ++ rule5 ++ rule6 ++ rule7 ++ rule8
  ++ rule9 ++ rule10 ++ rule11 ++ rule12 ++ rule13 ++ rule14
  ++ ruleHighCardinality ++ ruleLargeDataset ++ ruleGeographic.

(* Fallback rules *)
Definition collected : list Suggestion.t :=
  match pushedByRules with
  | [] => [sug "table" 1 "Complex data structure - tabular view recommended"]
  | pushed => pushed
  end.

End Rules.

(** [suggestions.sort((a, b) => a.priority - b.priority)].  The sort of
    the language is stable; with a comparator that is a total preorder
    its result is the one of any stable sort, here insertion from the
    right. *)
Fixpoint insertByPriority (s : Suggestion.t) (sorted : list Suggestion.t)
  : list Suggestion.t :=
  match sorted with
  | [] => [s]
  | x :: rest =>
      if (Suggestion.priority s <=? Suggestion.priority x)%Z
      then s :: x :: rest
      else x :: insertByPriority s rest
  end.

Definition sortByPriority (l : list Suggestion.t) : list Suggestion.t :=
  fold_right insertByPriority [] l.

(** What [suggestCharts] can produce: the sentinel for an empty
    selection, the result of the rule table, or a [TypeError]. *)
Inductive SuggestResult : Type :=
| NoFields (suggestions : list Suggestion.t) (reason : string)
| Ruled (suggestions : list Suggestion.t)
        (dimensions measures dates : list FieldAnalysis)
| Threw.

(** [applyTableauRules] *)
Definition applyTableauRules (dimensions measures dates : list FieldAnalysis)
  (recordCount : nat) : SuggestResult :=
  Ruled (sortByPriority (collected dimensions measures dates recordCount))
        dimensions measures dates.

(** [suggestCharts].  [None] stands for an argument that is [null] or
    [undefined]; reading [data.map] of such a value throws. *)
Definition suggestCharts (data : option (list (gmap string JsValue)))
  (selectedFields : option (list string)) : SuggestResult :=
  match selectedFields with
  | None | Some [] => NoFields [] "No fields selected"
  | Some fields =>
      match data with
      | None => Threw
      | Some rows =>
          let fieldAnalysis := List.map (analyzeField rows) fields in
          let dimensions := List.filter (fun f => isDIMENSION (type f)) fieldAnalysis in
          let measures := List.filter (fun f => isMEASURE (type f)) fieldAnalysis in
          let dates := List.filter (fun f => isDATE (type f)) fieldAnalysis in
          applyTableauRules dimensions measures dates (length rows)
      end
  end.

(** the [suggestions] property of a result *)
Definition suggestionsOf (r : SuggestResult) : list Suggestion.t :=
  match r with
  | NoFields s _ => s
  | Ruled s _ _ _ => s
  | Threw => []
  end.

End WithRuntime.
End Engine.

(** ** The variant table and the aggregation code ([MagicCharts.tsx]) *)

Module Charts.
Import Js.

(** [ChartVariant]; an absent third argument of [isCompatible] is [None]. *)
Record ChartVariant : Type := {
  key : string;
  label : string;
  isCompatible :
    list string -> gmap string string -> option (list (gmap string JsValue)) -> bool
}.

(** [cols[i]] used as a property key; [undefined] becomes the key
    ["undefined"] *)
Definition colAt (cols : list string) (i : nat) : string :=
  default "undefined" (cols !! i).

(** [types[c] === t] *)
Definition hasType (types : gmap string string) (c t : string) : bool :=
  match types !! c with
  | Some t' => String.eqb t' t
  | None => false
  end.

(** [Array.from(new Set(rows.map(r => r[c]))).length] *)
Definition uniqueCount (rows : list (gmap string JsValue)) (c : string) : nat :=
  length (setFromList (List.map (fun r => getProp r c) rows)).

(** [combinations]: all [k]-combinations of an array; the element type
    plays no role.  With [k = 0] the source recurses on [k - 1 < 0] down
    every suffix and collects nothing. *)
Fixpoint combinations {A : Type} (arr : list A) (k : nat) {struct k}
  : list (list A) :=
  match k with
  | 0 => []
  | 1 => List.map (fun x => [x]) arr
  | S k' =>
      (fix each (a : list A) : list (list A) :=
         match a with
         | [] => []
         | v :: rest => List.map (cons v) (combinations rest k') ++ each rest
         end) arr
  end.

Section WithRuntime.
Variable rt : JsRuntime.

(** [v !== undefined && v !== null && v !== ''] *)
Definition nonEmptyValue (v : JsValue) : bool :=
  negb (strictEquals v JUndefined) && negb (strictEquals v JNull)
  && negb (strictEquals v (JStr "")).

(** [isNumericOrdinal] *)
Definition isNumericOrdinal (values : list JsValue) : bool :=
  let nonEmpty := List.filter nonEmptyValue values in
  if length nonEmpty =? 0 then false
  else if negb (forallb (fun v => isInteger (ToNumber rt v)) nonEmpty) then false
  else
    let unique := setFromList (List.map (fun v => JNum (ToNumber rt v)) nonEmpty) in
    (2 <=? length unique) && (length unique <=? 10).

(** *** [CHART_VARIANTS] *)

Definition catNum (types : gmap string string) (a b : string) : bool :=
  hasType types a "categorical" && hasType types b "numeric".

Definition Bar_count : ChartVariant :=
  {| key := "count"; label := "Count Bar";
     isCompatible := fun cols types rows =>
       if negb (length cols =? 1) then false
       else if negb (hasType types (colAt cols 0) "categorical")
               && negb (hasType types (colAt cols 0) "date") then false
       else match rows with
            | None => true
            | Some rs => uniqueCount rs (colAt cols 0) <=? 20
            end |}.

Definition Bar_count_horizontal : ChartVariant :=
  {| key := "count_horizontal"; label := "Count Horizontal Bar";
     isCompatible := fun cols types rows =>
       if negb (length cols =? 1) then false
       else if negb (hasType types (colAt cols 0) "categorical") then false
       else match rows with
            | None => true
            | Some rs => uniqueCount rs (colAt cols 0) <=? 20
            end |}.

Definition Bar_single : ChartVariant :=
  {| key := "single"; label := "Single Colour Bar";
     isCompatible := fun cols types _ =>
       (length cols =? 2) &&
       ((hasType types (colAt cols 0) "categorical" && hasType types (colAt cols 1) "numeric")
        || (hasType types (colAt cols 1) "categorical" && hasType types (colAt cols 0) "numeric")
        || (hasType types (colAt cols 0) "date" && hasType types (colAt cols 1) "numeric")
        || (hasType types (colAt cols 1) "date" && hasType types (colAt cols 0) "numeric")) |}.

Definition Bar_single_horizontal : ChartVariant :=
  {| key := "single_horizontal"; label := "Single Colour Horizontal Bar";
     isCompatible := fun cols types _ =>
       (length cols =? 2) &&
       ((hasType types (colAt cols 0) "categorical" && hasType types (colAt cols 1) "numeric")
        || (hasType types (colAt cols 1) "categorical" && hasType types (colAt cols 0) "numeric")) |}.

(** the body shared, word for word, by [multi] and [multi_horizontal] *)
Definition multiColourCompatible (cols : list string) (types : gmap string string)
  (rows : option (list (gmap string JsValue))) : bool :=
  if negb (length cols =? 2) then false
  else
    let catIdx : Z :=
      (if hasType types (colAt cols 0) "categorical" then 0
       else if hasType types (colAt cols 1) "categorical" then 1 else -1)%Z in
    let numIdx : Z :=
      (if catIdx =? 0 then 1 else if catIdx =? 1 then 0 else -1)%Z in
    if (catIdx =? -1)%Z || (numIdx =? -1)%Z then false
    else if negb (hasType types (colAt cols (Z.to_nat catIdx)) "categorical")
            || negb (hasType types (colAt cols (Z.to_nat numIdx)) "numeric") then false
    else match rows with
         | None => false
         | Some rs => uniqueCount rs (colAt cols (Z.to_nat catIdx)) <=? 7
         end.

Definition Bar_multi : ChartVariant :=
  {| key := "multi"; label := "Multi Colour Bar";
     isCompatible := multiColourCompatible |}.

Definition Bar_multi_horizontal : ChartVariant :=
  {| key := "multi_horizontal"; label := "Multi Colour Horizontal Bar";
     isCompatible := multiColourCompatible |}.

(** the body shared by [grouped], [stacked] and [proportional] *)
Definition groupedCompatible (cols : list string) (types : gmap string string) : bool :=
  ((length cols =? 3) &&
   ((hasType types (colAt cols 0) "date" && hasType types (colAt cols 1) "categorical"
     && hasType types (colAt cols 2) "numeric")
    || (hasType types (colAt cols 0) "categorical" && hasType types (colAt cols 1) "categorical"
        && hasType types (colAt cols 2) "numeric")))
  || ((3 <=? length cols)
      && (hasType types (colAt cols 0) "categorical" || hasType types (colAt cols 0) "date")
      && forallb (fun c => hasType types c "numeric") (skipn 1 cols)).

Definition Bar_grouped : ChartVariant :=
  {| key := "grouped"; label := "Grouped Bar";
     isCompatible := fun cols types _ => groupedCompatible cols types |}.

Definition Bar_stacked : ChartVariant :=
  {| key := "stacked"; label := "Stacked Bar";
     isCompatible := fun cols types _ => groupedCompatible cols types |}.

Definition Bar_proportional : ChartVariant :=
  {| key := "proportional"; label := "Proportional Stacked Bar";
     isCompatible := fun cols types _ => groupedCompatible cols types |}.

(** the body of the three [Line] variants, which differ in the least
    number of columns *)
Definition lineCompatible (least : nat) (cols : list string)
  (types : gmap string string) (rows : option (list (gmap string JsValue))) : bool :=
  if length cols <? least then false
  else if hasType types (colAt cols 0) "date" then true
  else if hasType types (colAt cols 0) "numeric"
          && match rows with
             | None => false
             | Some rs => isNumericOrdinal (List.map (fun r => getProp r (colAt cols 0)) rs)
             end then true
  else false.

Definition Line_simple : ChartVariant :=
  {| key := "simple"; label := "Simple Line"; isCompatible := lineCompatible 2 |}.

Definition Line_multi : ChartVariant :=
  {| key := "multi"; label := "Multi-series Line"; isCompatible := lineCompatible 3 |}.

Definition Line_area : ChartVariant :=
  {| key := "area"; label := "Area Line"; isCompatible := lineCompatible 2 |}.

Definition pieCompatible (cols : list string) (types : gmap string string) : bool :=
  ((length cols =? 2) &&
   ((hasType types (colAt cols 0) "categorical" && hasType types (colAt cols 1) "numeric")
    || (hasType types (colAt cols 1) "categorical" && hasType types (colAt cols 0) "numeric")))
  || ((length cols =? 1) && hasType types (colAt cols 0) "categorical").

Definition Pie_standard : ChartVariant :=
  {| key := "standard"; label := "Standard Pie";
     isCompatible := fun cols types _ => pieCompatible cols types |}.

Definition Pie_donut : ChartVariant :=
  {| key := "donut"; label := "Donut";
     isCompatible := fun cols types _ => pieCompatible cols types |}.

Definition Pie_count : ChartVariant :=
  {| key := "count"; label := "Count Pie";
     isCompatible := fun cols types _ =>
       (length cols =? 1) && hasType types (colAt cols 0) "categorical" |}.

Definition Scatter_simple : ChartVariant :=
  {| key := "simple"; label := "Simple Scatter";
     isCompatible := fun cols types _ =>
       if negb (length cols =? 2) then false
       else if hasType types (colAt cols 0) "numeric"
               && hasType types (colAt cols 1) "numeric" then true
       else if (hasType types (colAt cols 0) "categorical"
                && hasType types (colAt cols 1) "numeric")
               || (hasType types (colAt cols 0) "numeric"
                   && hasType types (colAt cols 1) "categorical") then true
       else false |}.

Definition Scatter_bubble : ChartVariant :=
  {| key := "bubble"; label := "Bubble";
     isCompatible := fun cols types _ =>
       (length cols =? 3) && forallb (fun c => hasType types c "numeric") cols |}.

Definition Histogram_standard : ChartVariant :=
  {| key := "standard"; label := "Standard Histogram";
     isCompatible := fun cols types _ =>
       (length cols =? 1) && hasType types (colAt cols 0) "numeric" |}.

(** the table, in the order of its keys *)
Definition CHART_VARIANTS : list (string * list ChartVariant) :=
  [ ("Bar", [Bar_count; Bar_count_horizontal; Bar_single; Bar_single_horizontal;
             Bar_multi; Bar_multi_horizontal; Bar_grouped; Bar_stacked;
             Bar_proportional]);
    ("Line", [Line_simple; Line_multi; Line_area]);
    ("Pie", [Pie_standard; Pie_donut; Pie_count]);
    ("Scatter", [Scatter_simple; Scatter_bubble]);
    ("Histogram", [Histogram_standard]) ].

(** [CHART_VARIANTS[chartType] || []], for the keys of the table *)
Fixpoint variantsOfFamily (table : list (string * list ChartVariant))
  (chartType : string) : list ChartVariant :=
  match table with
  | [] => []
  | (family, variants) :: rest =>
      if String.eqb family chartType then variants
      else variantsOfFamily rest chartType
  end.

(** [chartType === 'All' ? Object.values(CHART_VARIANTS).flat()
                          : CHART_VARIANTS[chartType] || []] *)
Definition variantsFor (chartType : string) : list ChartVariant :=
  if String.eqb chartType "All" then flat_map snd CHART_VARIANTS
  else variantsOfFamily CHART_VARIANTS chartType.

(** *** [getAutoSelectColumns]

    Three nested loops, the innermost returning from the function. *)

(** [for (const variant of variants) if (variant.isCompatible(combo, ...)) return combo] *)
Fixpoint tryVariants (variants : list ChartVariant) (combo : list string)
  (types : gmap string string) (rows : list (gmap string JsValue))
  : option (list string) :=
  match variants with
  | [] => None
  | variant :: rest =>
      if isCompatible variant combo types (Some rows) then Some combo
      else tryVariants rest combo types rows
  end.

(** [for (const combo of combos) ...] *)
Fixpoint tryCombos (variants : list ChartVariant) (combos : list (list string))
  (types : gmap string string) (rows : list (gmap string JsValue))
  : option (list string) :=
  match combos with
  | [] => None
  | combo :: rest =>
      match tryVariants variants combo types rows with
      | Some found => Some found
      | None => tryCombos variants rest types rows
      end
  end.

(** [for (let k = ...; k <= ...; k++) ...] over the sizes [ks] *)
Fixpoint trySizes (variants : list ChartVariant) (columns : list string)
  (ks : list nat) (types : gmap string string) (rows : list (gmap string JsValue))
  : option (list string) :=
  match ks with
  | [] => None
  | k :: later =>
      match tryCombos variants (combinations columns k) types rows with
      | Some found => Some found
      | None => trySizes variants columns later types rows
      end
  end.

(** [getAutoSelectColumns]; [None] is the [null] result *)
Definition getAutoSelectColumns (chartType : string) (columns : list string)
  (types : gmap string string) (rows : list (gmap string JsValue))
  : option (list string) :=
  trySizes (variantsFor chartType) columns
           (seq 1 (Nat.min 4 (length columns))) types rows.

(** *** Sorted axes

    The date axes of the renderer: the distinct values of a column under
    the default sort. *)

(** The comparison of [Array.prototype.sort] without a comparator:
    [undefined] goes last, everything else is compared as strings, by
    their code units. *)
Definition sortLe (x y : JsValue) : bool :=
  match x, y with
  | _, JUndefined => true
  | JUndefined, _ => false
  | _, _ => String.leb (ToString rt x) (ToString rt y)
  end.

Fixpoint insertSorted (x : JsValue) (sorted : list JsValue) : list JsValue :=
  match sorted with
  | [] => [x]
  | y :: rest =>
      if sortLe x y then x :: y :: rest else y :: insertSorted x rest
  end.

(** [arr.sort()]: stable *)
Definition defaultSort (l : list JsValue) : list JsValue :=
  fold_right insertSorted [] l.

(** [Number(r[col] || 0)] *)
Definition numericCell (r : gmap string JsValue) (col : string) : JsNum :=
  ToNumber rt (jsOr (getProp r col) (JNum (Fin 0))).

(** [filtered.reduce((acc, r) => acc + Number(r[col] || 0), 0)] *)
Definition sumColumn (filtered : list (gmap string JsValue)) (col : string) : JsNum :=
  fold_left (fun acc r => jsAdd acc (numericCell r col)) filtered (Fin 0).

Definition pivotDates (rows : list (gmap string JsValue)) (dateCol : string)
  : list JsValue :=
  defaultSort (setFromList (List.map (fun r => getProp r dateCol) rows)).

Definition pivotCategories (rows : list (gmap string JsValue)) (catCol : string)
  : list JsValue :=
  setFromList (List.map (fun r => getProp r catCol) rows).

Definition pivotFiltered (rows : list (gmap string JsValue)) (dateCol catCol : string)
  (date cat : JsValue) : list (gmap string JsValue) :=
  List.filter (fun r => strictEquals (getProp r dateCol) date
                        && strictEquals (getProp r catCol) cat) rows.

(** *** Histogram binning *)

(** [rows.map(r => Number(r[col])).filter(v => !isNaN(v))] *)
Definition histogramValues (rows : list (gmap string JsValue)) (col : string)
  : list JsNum :=
  List.filter (fun v => negb (isNaN v))
              (List.map (fun r => ToNumber rt (getProp r col)) rows).

End WithRuntime.

(** [Math.ceil(Math.log2(n) + 1)] for an array length [n >= 1]: the
    least [k] with [n <= 2^k], plus one. *)
Definition ceilLog2Plus1 (n : nat) : Z := Z.log2_up (Z.of_nat n) + 1.

(** [Math.max(5, Math.min(30, Math.ceil(Math.log2(n) + 1)))] *)
Definition sturgesBinCount (n : nat) : nat :=
  Z.to_nat (Z.max 5 (Z.min 30 (ceilLog2Plus1 n))).

(** [Math.min(...values)] and [Math.max(...values)] *)
Definition minOf (values : list JsNum) : JsNum := fold_left jsMin values PosInf.
Definition maxOf (values : list JsNum) : JsNum := fold_left jsMax values NegInf.

(** [let idx = Math.floor((v - min) / binSize);
     if (idx === binCount) idx = binCount - 1] *)
Definition binIndex (min binSize : JsNum) (binCount : nat) (v : JsNum) : JsNum :=
  let idx := jsFloor (jsDiv (jsSub v min) binSize) in
  if numStrictEquals idx (ofNat binCount)
  then jsSub (ofNat binCount) (Fin 1)
  else idx.

(** [counts[idx]++].  Only an integer within the bins designates one of
    them; for any other [idx] the increment lands on a property that is
    none of the [binCount] bins. *)
Definition increment (counts : list nat) (idx : JsNum) : list nat :=
  match idx with
  | Fin q =>
      if isInteger idx && Qle_bool 0 q then alter S (Z.to_nat (Qfloor q)) counts
      else counts
  | _ => counts
  end.

Record Histogram : Type := {
  binCount : nat;
  bins : list JsNum;
  counts : list nat
}.

(** The histogram branch of the renderer on the parsed values; [None] is
    the early [return null] on an empty column. *)
Definition histogram (values : list JsNum) : option Histogram :=
  if length values =? 0 then None
  else
    let binCount := sturgesBinCount (length values) in
    let min := minOf values in
    let max := maxOf values in
    let binSize := jsDiv (jsSub max min) (ofNat binCount) in
    let bins := List.map (fun i => jsAdd min (jsMul (ofNat i) binSize)) (seq 0 binCount) in
    let counts :=
      fold_left (fun counts v => increment counts (binIndex min binSize binCount v))
                values (repeat 0 binCount) in
    Some {| binCount := binCount; bins := bins; counts := counts |}.

(** *** Proportional stacking *)

(** [n || 0] on a number *)
Definition numberOrZero (n : JsNum) : JsNum :=
  if truthy (JNum n) then n else Fin 0.

(** [ds.data[g] || 0]; an index outside the array reads [undefined] *)
Definition entryOrZero (data : list JsNum) (g : nat) : JsNum :=
  match data !! g with
  | Some n => numberOrZero n
  | None => Fin 0
  end.

(** [datasets.reduce((acc, ds) => acc + (ds.data[g] || 0), 0)] *)
Definition groupTotal (datasets : list (list JsNum)) (g : nat) : JsNum :=
  fold_left (fun acc data => jsAdd acc (entryOrZero data g)) datasets (Fin 0).

(** one turn of the loop over [g]; every series has one entry per group,
    so the assignment [ds.data[g] = ...] never falls outside the array *)
Definition normalizeGroup (datasets : list (list JsNum)) (g : nat)
  : list (list JsNum) :=
  let total := groupTotal datasets g in
  if jsGt total (Fin 0)
  then List.map (fun data =>
         <[g := jsDiv (jsMul (Fin 100) (entryOrZero data g)) total]> data) datasets
  else datasets.

(** [for (let g = 0; g < groups.length; g++) ...] *)
Definition normalizeProportional (groupCount : nat) (datasets : list (list JsNum))
  : list (list JsNum) :=
  fold_left normalizeGroup (seq 0 groupCount) datasets.

Section Stacking.
Variable rt : JsRuntime.

(** [Array.from(new Set(rows.map(r => r[groupCol])))] *)
Definition stackGroups (rows : list (gmap string JsValue)) (groupCol : string)
  : list JsValue :=
  setFromList (List.map (fun r => getProp r groupCol) rows).

(** the [data] of one value column: per group, the sum over its rows *)
Definition stackSeries (rows : list (gmap string JsValue)) (groupCol col : string)
  : list JsNum :=
  List.map (fun g =>
    sumColumn rt (List.filter (fun r => strictEquals (getProp r groupCol) g) rows) col)
    (stackGroups rows groupCol).

(** The branch of the renderer for the grouped, stacked and proportional
    bars over [category-or-date, numeric, numeric, ...]: the [data] of its
    datasets; [None] when the guards of the branch do not hold. *)
Definition stackedDatasets (variantKey : string) (selectedColumns : list string)
  (columnTypes : gmap string string) (rows : list (gmap string JsValue))
  : option (list (list JsNum)) :=
  if (String.eqb variantKey "grouped" || String.eqb variantKey "stacked"
      || String.eqb variantKey "proportional")
     && (3 <=? length selectedColumns)
     && (hasType columnTypes (colAt selectedColumns 0) "categorical"
         || hasType columnTypes (colAt selectedColumns 0) "date")
     && forallb (fun c => hasType columnTypes c "numeric") (skipn 1 selectedColumns)
  then
    let groupCol := colAt selectedColumns 0 in
    let valueCols := skipn 1 selectedColumns in
    let datasets := List.map (stackSeries rows groupCol) valueCols in
    Some (if String.eqb variantKey "proportional"
          then normalizeProportional (length (stackGroups rows groupCol)) datasets
          else datasets)
  else None.

End Stacking.
End Charts.

(** ** Notions the statements are phrased in *)

Module Spec.
Import Js.

(** no two entries are the same value for [Set] *)
Definition pairwiseDistinct (l : list JsValue) : Prop :=
  ForallOrdPairs (fun a b => sameValueZero a b = false) l.

(** *** The classifier as the specification words it (section 4.1) *)

Definition isEmptyEntry (v : JsValue) : bool :=
  match v with
  | JUndefined | JNull => true
  | JStr s => String.eqb s ""
  | _ => false
  end.

(** "parseable as a finite number": [Number(v)] is finite *)
Definition parsesFinite (rt : JsRuntime) (v : JsValue) : bool :=
  match ToNumber rt v with
  | Fin _ => true
  | _ => false
  end.

Definition classify (rt : JsRuntime) (values : list JsValue) : Engine.DataType :=
  let remaining := List.filter (fun v => negb (isEmptyEntry v)) values in
  let asDates := List.filter (Engine.isDateValue rt) remaining in
  let asNumbers := List.filter (parsesFinite rt) remaining in
  if Engine.exceeds80 (length asDates) (length remaining) then Engine.DATE
  else if Engine.exceeds80 (length asNumbers) (length remaining) then
    let numbers := List.map (fun v => JNum (ToNumber rt v)) asNumbers in
    if (length (setFromList numbers) <=? 20)
       && forallb (fun v => isInteger (ToNumber rt v)) asNumbers
    then Engine.DIMENSION
    else Engine.MEASURE
  else Engine.DIMENSION.

(** *** The search order of the column combinations

    A combination is given by the positions it takes from the column
    list: strictly increasing and below the number of columns. *)

Fixpoint increasingFrom (lo : nat) (idxs : list nat) (n : nat) : bool :=
  match idxs with
  | [] => true
  | i :: rest => (lo <=? i) && (i <? n) && increasingFrom (S i) rest n
  end.

Definition isSelection (n : nat) (idxs : list nat) : bool :=
  (1 <=? length idxs) && (length idxs <=? 4) && increasingFrom 0 idxs n.

(** the natural column order on two selections of one size *)
Fixpoint lexLt (a b : list nat) : bool :=
  match a, b with
  | x :: a', y :: b' => (x <? y) || ((x =? y) && lexLt a' b')
  | [], _ :: _ => true
  | _, [] => false
  end.

(** smaller combinations first, then the natural column order *)
Definition searchedBefore (a b : list nat) : bool :=
  (length a <? length b) || ((length a =? length b) && lexLt a b).

Definition pick (columns : list string) (idxs : list nat) : list string :=
  List.map (Charts.colAt columns) idxs.

(** some variant of the list accepts the combination *)
Definition someVariantAccepts (variants : list Charts.ChartVariant)
  (types : gmap string string) (rows : list (gmap string JsValue))
  (combo : list string) : bool :=
  existsb (fun v => Charts.isCompatible v combo types (Some rows)) variants.

(** *** Priorities *)

Definition priorityLe (a b : Suggestion.t) : Prop :=
  (Suggestion.priority a <= Suggestion.priority b)%Z.

Definition hasPriority (p : Z) (s : Suggestion.t) : bool :=
  (Suggestion.priority s =? p)%Z.

Definition isOfType (ty : string) (s : Suggestion.t) : bool :=
  String.eqb (Suggestion.type s) ty.

(** a [stacked_area] suggestion at priority 2 *)
Definition isStackedAreaAt2 (s : Suggestion.t) : bool :=
  isOfType "stacked_area" s && hasPriority 2 s.

(** *** Sums *)

(** *** Proportional stacking, series by series *)

(** one series after the positions [ps] have been treated, the totals
    being those of [datasets] *)
Definition normalizeSeriesAt (datasets : list (list JsNum)) (data : list JsNum)
  (p : nat) : list JsNum :=
  if jsGt (Charts.groupTotal datasets p) (Fin 0)
  then <[p := jsDiv (jsMul (Fin 100) (Charts.entryOrZero data p))
                    (Charts.groupTotal datasets p)]> data
  else data.

Definition normalizeSeries (datasets : list (list JsNum)) (ps : list nat)
  (data : list JsNum) : list JsNum :=
  fold_left (normalizeSeriesAt datasets) ps data.

(** the rational a finite number stands for *)
Definition finiteValue (n : JsNum) : Q :=
  match n with Fin q => q | _ => 0%Q end.

Definition sumQ (l : list Q) : Q := fold_right Qplus 0%Q l.

(** *** Dates written in a fixed format

    The number spelled by the digits of a string, other characters being
    skipped: 20240115 for 2024-01-15. *)
Definition isDigit (c : ascii) : bool :=
  (48 <=? nat_of_ascii c) && (nat_of_ascii c <=? 57).




Definition isFinite (n : JsNum) : bool :=
  match n with Fin _ => true | _ => false end.

End Spec.

(** ** A reference host and sample tables

    [refRuntime] runs the examples.  It reads plain decimal literals,
    recognises dates written [YYYY-MM-DD], lowers ASCII letters and prints
    integers; the examples use nothing else. *)

Module Samples.
Import Js.

Definition isDigit : ascii -> bool := Spec.isDigit.

Definition digitValue (c : ascii) : Z := Z.of_nat (nat_of_ascii c) - 48.

(** the leading digits of [s]: their value after [acc], how many there
    are, and the rest of the string *)
Fixpoint readDigits (s : string) (acc : Z) (count : nat) : Z * nat * string :=
  match s with
  | String c rest =>
      if isDigit c then readDigits rest (10 * acc + digitValue c)%Z (S count)
      else (acc, count, s)
  | EmptyString => (acc, count, s)
  end.

Definition parseUnsigned (s : string) : JsNum :=
  let '(whole, nWhole, rest) := readDigits s 0%Z 0 in
  match rest with
  | EmptyString => if nWhole =? 0 then NaN else fin (inject_Z whole)
  | String "."%char fraction =>
      let '(part, nPart, rest') := readDigits fraction 0%Z 0 in
      match rest' with
      | EmptyString =>
          if nWhole + nPart =? 0 then NaN
          else fin (inject_Z whole + inject_Z part / inject_Z (10 ^ Z.of_nat nPart))
      | _ => NaN
      end
  | _ => NaN
  end.

Definition parseDecimal (s : string) : JsNum :=
  match s with
  | EmptyString => Fin 0
  | String "-"%char rest => jsNeg (parseUnsigned rest)
  | _ => parseUnsigned s
  end.

Definition isIsoDate (s : string) : bool :=
  match list_ascii_of_string s with
  | [y1; y2; y3; y4; d1; m1; m2; d2; a1; a2] =>
      forallb isDigit [y1; y2; y3; y4; m1; m2; a1; a2]
      && Ascii.eqb d1 "-" && Ascii.eqb d2 "-"
  | _ => false
  end.

Definition lowerAscii (c : ascii) : ascii :=
  if (65 <=? nat_of_ascii c) && (nat_of_ascii c <=? 90)
  then ascii_of_nat (nat_of_ascii c + 32)
  else c.

Fixpoint lowerString (s : string) : string :=
  match s with
  | EmptyString => EmptyString
  | String c rest => String (lowerAscii c) (lowerString rest)
  end.

Definition printNumber (n : JsNum) : string :=
  match n with
  | NaN => "NaN"
  | PosInf => "Infinity"
  | NegInf => "-Infinity"
  | Fin q =>
      if isInteger n then pretty (Qfloor q)
      else (pretty (Qnum (Qred q)) ++ "/" ++ pretty (Zpos (Qden (Qred q))))%string
  end.

Definition refRuntime : JsRuntime :=
  {| StringToNumber := parseDecimal;
     dateStringValid := isIsoDate;
     toLowerCase := lowerString;
     NumberToString := printNumber;
     DateToString := fun _ => "Invalid Date" |}.

(** a row of a parsed delimited file: every cell a string *)
Definition csvRow (cells : list (string * string)) : gmap string JsValue :=
  list_to_map (List.map (fun kv => (fst kv, JStr (snd kv))) cells).

(** [Date, Platform, Followers]; LinkedIn has no row for the second date *)
Definition followers : list (gmap string JsValue) :=
  [ csvRow [("Platform", "Instagram"); ("Date", "2024-01-15"); ("Followers", "12800")];
    csvRow [("Platform", "Instagram"); ("Date", "2024-01-01"); ("Followers", "12500")];
    csvRow [("Platform", "TikTok"); ("Date", "2024-01-01"); ("Followers", "8500")];
    csvRow [("Platform", "TikTok"); ("Date", "2024-01-15"); ("Followers", "9200")];
    csvRow [("Platform", "LinkedIn"); ("Date", "2024-01-01"); ("Followers", "3200")];
    csvRow [("Platform", "TikTok"); ("Date", "2024-01-15"); ("Followers", "9400")] ].

Definition followersTypes : gmap string string :=
  list_to_map [("Date", "date"); ("Platform", "categorical"); ("Followers", "numeric")].

(** [{region: 'categorical', sales: 'numeric'}] *)
Definition regionSalesTypes : gmap string string :=
  list_to_map [("region", "categorical"); ("sales", "numeric")].

(** a table whose cells are typed: a [Date] object, a category, a
    fractional measure *)
Definition typedRow (ref : nat) (region : string) (sales : Q) : gmap string JsValue :=
  list_to_map [("day", JDate ref (ofNat ref)); ("region", JStr region);
               ("sales", JNum (fin sales))].

Definition typedTable : list (gmap string JsValue) :=
  [ typedRow 1 "north" (3 # 2); typedRow 2 "south" (5 # 2);
    typedRow 3 "north" (7 # 2); typedRow 4 "east" (9 # 2) ].

(** a numeric column in which every row holds the same value *)
Definition constantColumn : list (gmap string JsValue) :=
  [ csvRow [("x", "5")]; csvRow [("x", "5")]; csvRow [("x", "5")] ].

(** four fractional numbers and one numeric string *)
Definition mixedColumn : list JsValue :=
  [ JNum (Fin (1 # 2)); JNum (Fin (3 # 2)); JNum (Fin (5 # 2));
    JNum (Fin (7 # 2)); JStr "4.5" ].

End Samples.

(** ** Plain objects as dictionaries

    A lookup by a name that [Object.prototype] defines finds the inherited
    member; the dictionaries of the source are plain objects. *)

Module JsObject.
Import Js.

(** the property names a plain object inherits from [Object.prototype] *)
Definition objectPrototypeKeys : list string :=
  ["constructor"; "hasOwnProperty"; "isPrototypeOf"; "propertyIsEnumerable";
   "toLocaleString"; "toString"; "valueOf"; "__proto__";
   "__defineGetter__"; "__defineSetter__"; "__lookupGetter__"; "__lookupSetter__"].

Definition inherited (k : string) : bool :=
  existsb (String.eqb k) objectPrototypeKeys.

End JsObject.

(** ** Validation of a suggestion ([validateChartSuggestion]) *)

Module Validation.
Import Js Engine.

Section Rules.
Variables (dimensions measures dates : list FieldAnalysis) (recordCount : nat).

(** the rules of [validationRules]; [dimensions[0]] is read where the
    rule has checked that there is one dimension *)
Definition pieRule : bool :=
  if negb (length measures =? 1) then false
  else if negb (length dimensions =? 1) then false
  else if 7 <? firstDimCardinality dimensions then false
  else true.

Definition histogramRule : bool :=
  if negb (length measures =? 1) then false
  else if 0 <? length dimensions + length dates then false
  else true.

Definition scatterRule : bool :=
  if length measures <? 2 then false
  else if recordCount <? 10 then false
  else true.

Definition lineRule : bool :=
  if negb (length measures =? 1) then false
  else if negb (length dates =? 1) then false
  else true.

Definition heatmapRule : bool :=
  if negb (length dimensions =? 2) then false
  else if negb (length measures =? 1) then false
  else if existsb (fun d => isHIGH (cardinalityLevel d)) dimensions then false
  else true.

(** [validationRules], each rule with the value its call returns *)
Definition validationRules : list (string * bool) :=
  [ ("pie", pieRule); ("histogram", histogramRule); ("scatter", scatterRule);
    ("line", lineRule); ("heatmap", heatmapRule) ].

End Rules.

(** the own property [chartType] of the rule table *)
Fixpoint ownRule (rules : list (string * bool)) (chartType : string) : option bool :=
  match rules with
  | [] => None
  | (k, verdict) :: rest =>
      if String.eqb k chartType then Some verdict else ownRule rest chartType
  end.

(** [validateChartSuggestion].  [validationRules[chartType]] finds an own
    rule, nothing, or, for the names of [Object.prototype], a built-in
    method; calling that one is no verdict of this table, and the result
    is [None]. *)
Definition validateChartSuggestion (chartType : string)
  (dimensions measures dates : list FieldAnalysis) (recordCount : nat)
  : option bool :=
  match ownRule (validationRules dimensions measures dates recordCount) chartType with
  | Some verdict => Some verdict
  | None => if JsObject.inherited chartType then None else Some true
  end.

End Validation.

(** ** Notions about the rule table *)

Module RuleNotions.
Import Js Engine.

(** the chart types of the rules *)
Definition knownTypes : list string :=
  ["histogram"; "bar"; "pie"; "line"; "scatter"; "grouped_bar"; "stacked_area";
   "stacked_bar"; "heatmap"; "radar"; "parallel_coordinates"; "treemap";
   "density"; "map"].

(** a suggestion a rule can push: a chart type of the table at a priority
    from 1 to 3 *)
Definition pushable (s : Suggestion.t) : bool :=
  existsb (String.eqb (Suggestion.type s)) knownTypes
  && (1 <=? Suggestion.priority s)%Z && (Suggestion.priority s <=? 3)%Z.

(** the suggestion of the fallback rule *)
Definition tableFallback : Suggestion.t :=
  sug "table" 1 "Complex data structure - tabular view recommended".

(** the suggestion passes [validateChartSuggestion] *)
Definition validated (dimensions measures dates : list FieldAnalysis)
  (recordCount : nat) (s : Suggestion.t) : bool :=
  match Validation.validateChartSuggestion (Suggestion.type s)
          dimensions measures dates recordCount with
  | Some true => true
  | _ => false
  end.

(** the chart types whose validation rule is narrower than the rules
    that suggest them *)
Definition narrowlyValidated (recordCount : nat) (s : Suggestion.t) : bool :=
  String.eqb (Suggestion.type s) "line"
  || String.eqb (Suggestion.type s) "heatmap"
  || (String.eqb (Suggestion.type s) "scatter" && (recordCount <? 10)).

(** the chart types of the rules 1 to 14 *)
Definition patternTypes : list string :=
  ["histogram"; "bar"; "pie"; "line"; "scatter"; "grouped_bar"; "stacked_area";
   "stacked_bar"; "heatmap"; "radar"; "parallel_coordinates"].

(** what the rules 1 to 14 push, in their order *)
Definition patternRules (rt : JsRuntime)
  (dimensions measures dates : list FieldAnalysis) : list Suggestion.t :=
  rule1 dimensions measures dates ++ rule2 dimensions measures dates
  ++ rule3 dimensions measures dates ++ rule4 dimensions measures dates
  ++ rule5 dimensions measures dates ++ rule6 dimensions measures dates
  ++ rule7 dimensions measures dates ++ rule8 dimensions measures dates
  ++ rule9 dimensions measures dates ++ rule10 dimensions measures dates
  ++ rule11 dimensions measures dates ++ rule12 dimensions measures dates
  ++ rule13 dimensions measures dates ++ rule14 rt dimensions measures dates.

(** the suggestion of the geographic rule *)
Definition mapSuggestion : Suggestion.t :=
  sug "map" 1 "Geographic dimension detected - map visualization".

End RuleNotions.

(** ** The column selector and the sample charts ([MagicCharts.tsx]) *)

Module Selection.
Import Js Charts.

(** [count / len >= 0.8] for two array lengths, [len] not zero.  The
    quotient is rounded to the nearest double, and 0.8 is the double
    nearest to 4/5; a quotient other than 4/5 lies at least [1 / (5 * len)]
    away from it.  So the test is the integer test [5 * count >= 4 * len]. *)
Definition atLeast80 (count len : nat) : bool := 4 * len <=? 5 * count.

(** a binding of [getSampleChartBindings]: [{ type, variant, columns }] *)
Record Binding : Type := {
  bindingType : string;
  bindingVariant : ChartVariant;
  bindingColumns : list string
}.

(** [prev.includes(col) ? prev.filter(c => c !== col) : [...prev, col]],
    the update of [handleColumnToggle] *)
Definition handleColumnToggle (col : string) (prev : list string) : list string :=
  if existsb (String.eqb col) prev
  then List.filter (fun c => negb (String.eqb c col)) prev
  else prev ++ [col].

Section WithRuntime.
Variable rt : JsRuntime.

(** [inferColumnType]; [Date.parse(v)] reads the string of [v] *)
Definition inferColumnType (values : list JsValue) : string :=
  let nonEmpty := List.filter nonEmptyValue values in
  if length nonEmpty =? 0 then "categorical"
  else
    let numericCount :=
      length (List.filter (fun v => negb (isNaN (ToNumber rt v))) nonEmpty) in
    let dateCount :=
      length (List.filter (fun v => dateStringValid rt (ToString rt v)) nonEmpty) in
    if atLeast80 numericCount (length nonEmpty) then "numeric"
    else if atLeast80 dateCount (length nonEmpty) then "date"
    else "categorical".

(** the types the upload handlers store:
    [fields.forEach(field => { types[field] = inferColumnType(rows.map(row => row[field])) })].
    [types] is a plain object: an assignment to the name [__proto__] goes
    to the setter it inherits, which ignores a string, and stores
    nothing. *)
Definition inferColumnTypes (fields : list string) (rows : list (gmap string JsValue))
  : gmap string string :=
  fold_left (fun types field =>
               if String.eqb field "__proto__" then types
               else
                 <[field := inferColumnType (List.map (fun row => getProp row field) rows)]>
                   types)
            fields ∅.

(** [isColumnAddable]; its parameter [columns] is not read *)
Definition isColumnAddable (col : string) (selected columns : list string)
  (types : gmap string string) (rows : list (gmap string JsValue)) : bool :=
  if existsb (String.eqb col) selected then true
  else
    let newSelection := selected ++ [col] in
    existsb (fun variant => isCompatible variant newSelection types (Some rows))
            (flat_map snd (CHART_VARIANTS rt)).

(** *** [getSampleChartBindings] *)

Definition hasBindingOf (ty : string) (result : list Binding) : bool :=
  existsb (fun r => String.eqb (bindingType r) ty) result.

(** the loop over the combinations of one size: the first compatible one
    is pushed *)
Fixpoint pushFirstCompatible (ty : string) (variant : ChartVariant)
  (combos : list (list string)) (types : gmap string string)
  (rows : list (gmap string JsValue)) (result : list Binding) : list Binding :=
  match combos with
  | [] => result
  | combo :: rest =>
      if isCompatible variant combo types (Some rows)
      then result ++ [{| bindingType := ty; bindingVariant := variant;
                         bindingColumns := combo |}]
      else pushFirstCompatible ty variant rest types rows result
  end.

(** the loop over the sizes [ks], left as soon as the type has a binding *)
Fixpoint bindSizes (ty : string) (variant : ChartVariant) (columns : list string)
  (ks : list nat) (types : gmap string string) (rows : list (gmap string JsValue))
  (result : list Binding) : list Binding :=
  match ks with
  | [] => result
  | k :: later =>
      let result' :=
        pushFirstCompatible ty variant (combinations columns k) types rows result in
      if hasBindingOf ty result' then result'
      else bindSizes ty variant columns later types rows result'
  end.

(** the loop over the variants of one type *)
Fixpoint bindVariants (ty : string) (variants : list ChartVariant)
  (columns : list string) (types : gmap string string)
  (rows : list (gmap string JsValue)) (result : list Binding) : list Binding :=
  match variants with
  | [] => result
  | variant :: rest =>
      let result' := bindSizes ty variant columns [1; 2; 3] types rows result in
      if hasBindingOf ty result' then result'
      else bindVariants ty rest columns types rows result'
  end.

(** the loop over the chart types of a table *)
Definition bindTypes (table : list (string * list ChartVariant))
  (columns : list string) (types : gmap string string)
  (rows : list (gmap string JsValue)) : list Binding :=
  fold_left (fun result family =>
               bindVariants (fst family) (snd family) columns types rows result)
            table [].

Definition getSampleChartBindings (columns : list string)
  (columnTypes : gmap string string) (rows : list (gmap string JsValue))
  : list Binding :=
  firstn 9 (bindTypes (CHART_VARIANTS rt) columns columnTypes rows).

(** *** [columnsByUniqueness]

    [[...columns].sort((a, b) => uniqueA - uniqueB)]: a stable sort on the
    number of different values of a column, here insertion from the
    right. *)
Fixpoint insertByUniqueness (rows : list (gmap string JsValue)) (c : string)
  (sorted : list string) : list string :=
  match sorted with
  | [] => [c]
  | x :: rest =>
      if uniqueCount rows c <=? uniqueCount rows x
      then c :: x :: rest
      else x :: insertByUniqueness rows c rest
  end.

Definition columnsByUniqueness (columns : list string)
  (rows : list (gmap string JsValue)) : list string :=
  fold_right (insertByUniqueness rows) [] columns.

End WithRuntime.
End Selection.

(** ** Notions about selections *)

Module SelectionNotions.
Import Js Charts Selection.

(** the number of [k]-element subsets of an [n]-element set *)
Fixpoint choose (n k : nat) : nat :=
  match n, k with
  | _, 0 => 1
  | 0, S _ => 0
  | S n', S k' => choose n' k' + choose n' k
  end.

(** the column [c] is in the selection *)
Definition isSelected (c : string) (selection : list string) : bool :=
  existsb (String.eqb c) selection.

(** the selection after the clicks, from the empty selection *)
Definition afterClicks (clicks : list string) : list string :=
  fold_left (fun selection col => handleColumnToggle col selection) clicks [].

(** the variants of the whole table *)
Definition allVariants (rt : JsRuntime) : list ChartVariant :=
  flat_map snd (CHART_VARIANTS rt).

(** the first combination of the sizes [ks], in the order of the search,
    that [accepts] holds of *)
Fixpoint firstOfSizes (accepts : list string -> bool) (columns : list string)
  (ks : list nat) : option (list string) :=
  match ks with
  | [] => None
  | k :: later =>
      match List.find accepts (combinations columns k) with
      | Some combo => Some combo
      | None => firstOfSizes accepts columns later
      end
  end.

(** the binding of the first variant that accepts a combination of one
    to three columns *)
Fixpoint firstBinding (ty : string) (variants : list ChartVariant)
  (columns : list string) (types : gmap string string)
  (rows : list (gmap string JsValue)) : option Binding :=
  match variants with
  | [] => None
  | variant :: rest =>
      match firstOfSizes (fun combo => isCompatible variant combo types (Some rows))
                         columns [1; 2; 3] with
      | Some combo =>
          Some {| bindingType := ty; bindingVariant := variant;
                  bindingColumns := combo |}
      | None => firstBinding ty rest columns types rows
      end
  end.

(** the variant accepts some combination of one to three of the columns *)
Definition offers (variant : ChartVariant) (columns : list string)
  (types : gmap string string) (rows : list (gmap string JsValue)) : Prop :=
  exists combo,
    1 <= length combo <= 3 /\ sublist combo columns
    /\ isCompatible variant combo types (Some rows) = true.

End SelectionNotions.

(** ** Aggregation by category ([aggregateByCategory]) *)

Module Aggregation.
Import Js Charts.

(** An object used as a dictionary from strings to numbers, filled by
    assignment: its own properties in the order of their creation. *)
Definition Dictionary : Type := list (string * JsNum).

(** [result[k]] for an own property *)
Fixpoint get (o : Dictionary) (k : string) : option JsNum :=
  match o with
  | [] => None
  | (k', v) :: rest => if String.eqb k' k then Some v else get rest k
  end.

(** [result[k] = v]: an existing property keeps its place *)
Fixpoint set (o : Dictionary) (k : string) (v : JsNum) : Dictionary :=
  match o with
  | [] => [(k, v)]
  | (k', v') :: rest =>
      if String.eqb k' k then (k', v) :: rest else (k', v') :: set rest k v
  end.

(** The array index a property name stands for: the canonical decimal
    form of an integer below 2^32 - 1. *)
Fixpoint digitsValue (s : string) (acc : N) : option N :=
  match s with
  | EmptyString => Some acc
  | String c rest =>
      if Spec.isDigit c then digitsValue rest (10 * acc + (N_of_ascii c - 48))%N
      else None
  end.

Definition arrayIndex (k : string) : option N :=
  match k with
  | EmptyString => None
  | String "0"%char EmptyString => Some 0%N
  | String "0"%char _ => None
  | _ =>
      match digitsValue k 0 with
      | Some n => if (n <? 4294967295)%N then Some n else None
      | None => None
      end
  end.

Definition isArrayIndex (k : string) : bool :=
  match arrayIndex k with Some _ => true | None => false end.

Definition indexOf (k : string) : N := default 0%N (arrayIndex k).

(** ascending order of the array indices *)
Fixpoint insertByIndex (e : string * JsNum) (sorted : Dictionary) : Dictionary :=
  match sorted with
  | [] => [e]
  | x :: rest =>
      if (indexOf (fst e) <=? indexOf (fst x))%N
      then e :: x :: rest
      else x :: insertByIndex e rest
  end.

(** The order in which [Object.keys] and [Object.values] list the own
    properties: array indices first, ascending, then the other names in
    the order of their creation. *)
Definition ownEntries (o : Dictionary) : Dictionary :=
  fold_right insertByIndex [] (List.filter (fun e => isArrayIndex (fst e)) o)
  ++ List.filter (fun e => negb (isArrayIndex (fst e))) o.

Section WithRuntime.
Variable rt : JsRuntime.

(** [result[cat] = (result[cat] || 0) + amount].  A category named like a
    member of [Object.prototype] reads that member instead of a number;
    the result then is no table of numbers, and is [None] here. *)
Definition addTo (result : Dictionary) (cat : string) (amount : JsNum)
  : option Dictionary :=
  if JsObject.inherited cat then None
  else
    let current := match get result cat with
                   | Some n => numberOrZero n
                   | None => Fin 0
                   end in
    Some (set result cat (jsAdd current amount)).

(** [if (valueCol)] on a string or [null] *)
Definition given (valueCol : option string) : bool :=
  match valueCol with
  | Some c => negb (String.eqb c "")
  | None => false
  end.

(** one turn of [rows.forEach]; the category is used as a property name *)
Definition addRow (categoryCol : string) (valueCol : option string)
  (result : option Dictionary) (row : gmap string JsValue) : option Dictionary :=
  match result with
  | None => None
  | Some o =>
      let cat := ToString rt (getProp row categoryCol) in
      if given valueCol then
        let val := ToNumber rt (getProp row (default "" valueCol)) in
        if negb (isNaN val) then addTo o cat val else Some o
      else addTo o cat (Fin 1)
  end.

(** [aggregateByCategory]: [{ labels, values }] *)
Definition aggregateByCategory (rows : list (gmap string JsValue))
  (categoryCol : string) (valueCol : option string)
  : option (list string * list JsNum) :=
  match fold_left (addRow categoryCol valueCol) rows (Some []) with
  | Some o => Some (List.map fst (ownEntries o), List.map snd (ownEntries o))
  | None => None
  end.

End WithRuntime.
End Aggregation.

(** ** Notions about aggregation *)

Module AggregationNotions.
Import Js Charts Aggregation.

(** the names of a list without their repetitions, in the order of their
    first occurrence *)
Definition addName (acc : list string) (k : string) : list string :=
  if existsb (String.eqb k) acc then acc else acc ++ [k].

Definition firstOccurrences (keys : list string) : list string :=
  fold_left addName keys [].

(** what the rows contribute: the category of every row that is counted,
    with the amount it adds *)
Definition contributions (rt : JsRuntime) (rows : list (gmap string JsValue))
  (categoryCol : string) (valueCol : option string) : list (string * JsNum) :=
  flat_map (fun row =>
    let cat := ToString rt (getProp row categoryCol) in
    if given valueCol then
      let val := ToNumber rt (getProp row (default "" valueCol)) in
      if isNaN val then [] else [(cat, val)]
    else [(cat, Fin 1)]) rows.

(** the amounts contributed to the category [k] *)
Definition amountsOf (k : string) (cs : list (string * JsNum)) : list Q :=
  List.map (fun c => Spec.finiteValue (snd c))
           (List.filter (fun c => String.eqb (fst c) k) cs).

(** what holds of the dictionary after the contributions [cs]: its names
    are those of the contributions, in the order of their first
    occurrence, and each holds the sum of its amounts *)
Definition holds (o : Dictionary) (cs : list (string * JsNum)) : Prop :=
  List.map fst o = firstOccurrences (List.map fst cs)
  /\ forall k,
       get o k = if existsb (String.eqb k) (List.map fst cs)
                 then Some (fin (Spec.sumQ (amountsOf k cs)))
                 else None.

(** the integer an amount stands for *)
Definition wholeAmount (n : JsNum) : Z :=
  match n with Fin q => Qfloor q | _ => 0%Z end.

Definition sumZ (l : list Z) : Z := fold_right Z.add 0%Z l.

(** the integer amounts contributed to the category [k] *)
Definition wholeAmountsOf (k : string) (cs : list (string * JsNum)) : list Z :=
  List.map (fun c => wholeAmount (snd c))
           (List.filter (fun c => String.eqb (fst c) k) cs).

(** the magnitudes of all amounts together *)
Definition magnitude (cs : list (string * JsNum)) : Z :=
  sumZ (List.map (fun c => Z.abs (wholeAmount (snd c))) cs).

End AggregationNotions.

(** ** Axis units ([getUnit]) *)

Module Axis.
Import Js.

(** [a >= b]; false as soon as one side is NaN *)
Definition jsGe (a b : JsNum) : bool :=
  match a, b with
  | NaN, _ | _, NaN => false
  | _, _ => negb (jsLt a b)
  end.

(** [{ divisor, suffix }] *)
Record AxisUnit : Type := { divisor : JsNum; suffix : string }.

(** [getUnit] *)
Definition getUnit (maxValue : JsNum) : AxisUnit :=
  if jsGe maxValue (Fin 1000000000) then {| divisor := Fin 1000000000; suffix := "b" |}
  else if jsGe maxValue (Fin 1000000) then {| divisor := Fin 1000000; suffix := "m" |}
  else if jsGe maxValue (Fin 1000) then {| divisor := Fin 1000; suffix := "k" |}
  else {| divisor := Fin 1; suffix := "" |}.

End Axis.

(** ** The grouped, stacked and proportional bars of the renderer *)

Module GroupedBars.
Import Js Charts.

(** a dataset of the bar chart: [{ label, data }] *)
Record BarSeries : Type := {
  barLabel : JsValue;
  barData : list JsNum
}.

(** what is handed to the bar chart: [{ labels: groups, datasets }] *)
Record BarChartData : Type := {
  barGroups : list JsValue;
  barDatasets : list BarSeries
}.

(** the loop [if (variant.key === 'proportional') ...] on the data of the
    datasets; every dataset keeps its label *)
Definition normalizeIfProportional (variantKey : string) (groupCount : nat)
  (datasets : list BarSeries) : list BarSeries :=
  if String.eqb variantKey "proportional" then
    List.map (fun sd : BarSeries * list JsNum =>
                {| barLabel := barLabel (fst sd); barData := snd sd |})
             (combine datasets
                      (normalizeProportional groupCount (List.map barData datasets)))
  else datasets.

Section WithRuntime.
Variable rt : JsRuntime.

(** the body of the first and of the third branch: a group per value of
    the first column, a dataset per further column *)
Definition seriesByColumn (variantKey : string) (selectedColumns : list string)
  (rows : list (gmap string JsValue)) : BarChartData :=
  let groupCol := colAt selectedColumns 0 in
  let valueCols := skipn 1 selectedColumns in
  let groups := stackGroups rows groupCol in
  let datasets :=
    List.map (fun col => {| barLabel := JStr col;
                            barData := stackSeries rt rows groupCol col |})
             valueCols in
  {| barGroups := groups;
     barDatasets := normalizeIfProportional variantKey (length groups) datasets |}.

(** the body of the second branch: a group per date, sorted, a dataset per
    category, an entry being the sum over the rows of that date and
    category *)
Definition seriesByCategory (variantKey : string) (selectedColumns : list string)
  (rows : list (gmap string JsValue)) : BarChartData :=
  let dateCol := colAt selectedColumns 0 in
  let catCol := colAt selectedColumns 1 in
  let valueCol := colAt selectedColumns 2 in
  let groups := pivotDates rt rows dateCol in
  let series := pivotCategories rows catCol in
  let datasets :=
    List.map (fun s =>
      {| barLabel := s;
         barData :=
           List.map (fun g => sumColumn rt (pivotFiltered rows dateCol catCol g s) valueCol)
                    groups |}) series in
  {| barGroups := groups;
     barDatasets := normalizeIfProportional variantKey (length groups) datasets |}.

(** The branch of the renderer for the variants [grouped], [stacked] and
    [proportional] on three or more columns, with its three cases in
    their order; [None] when none of them applies and nothing is drawn. *)
Definition groupedBars (variantKey : string) (selectedColumns : list string)
  (columnTypes : gmap string string) (rows : list (gmap string JsValue))
  : option BarChartData :=
  if (String.eqb variantKey "grouped" || String.eqb variantKey "stacked"
      || String.eqb variantKey "proportional")
     && (3 <=? length selectedColumns)
  then
    if (hasType columnTypes (colAt selectedColumns 0) "categorical"
        || hasType columnTypes (colAt selectedColumns 0) "date")
       && forallb (fun c => hasType columnTypes c "numeric") (skipn 1 selectedColumns)
    then Some (seriesByColumn variantKey selectedColumns rows)
    else if hasType columnTypes (colAt selectedColumns 0) "date"
            && hasType columnTypes (colAt selectedColumns 1) "categorical"
            && hasType columnTypes (colAt selectedColumns 2) "numeric"
    then Some (seriesByCategory variantKey selectedColumns rows)
    else if hasType columnTypes (colAt selectedColumns 0) "categorical"
            && hasType columnTypes (colAt selectedColumns 1) "categorical"
            && hasType columnTypes (colAt selectedColumns 2) "numeric"
    then Some (seriesByColumn variantKey selectedColumns rows)
    else None
  else None.

End WithRuntime.
End GroupedBars.

(** ** Notions about the grouped bars *)

Module GroupedBarsNotions.
Import Js Charts GroupedBars.


End GroupedBarsNotions.

(** ** JavaScript numbers as IEEE doubles

    Where a statement depends on how the source rounds, numbers are the
    binary64 values of the kernel, with their operations. *)

Module Double.

(** [isNaN(x)] on a number *)
Definition isNaN (x : float) : bool := PrimFloat.is_nan x.

(** truthiness of a number: NaN and the two zeros are falsy *)
Definition numTruthy (x : float) : bool :=
  negb (PrimFloat.is_nan x || PrimFloat.is_zero x).

(** [x || 0] on a number *)
Definition numberOrZero (x : float) : float :=
  if numTruthy x then x else 0%float.

(** SameValueZero on numbers: NaN equals itself, the zeros are one. *)
Definition numSameValueZero (x y : float) : bool :=
  (x =? y)%float || (PrimFloat.is_nan x && PrimFloat.is_nan y).

(** [x === y] on numbers *)
Definition numStrictEquals (x y : float) : bool := (x =? y)%float.

(** the number of an array length, which is below 2^32 *)
Definition ofNat (n : nat) : float :=
  PrimFloat.of_uint63 (Uint63.of_Z (Z.of_nat n)).

(** A value; a [Date] object carries the reference that identifies it and
    its time value. *)
Inductive Value : Type :=
| VUndefined
| VNull
| VBool (b : bool)
| VNum (x : float)
| VStr (s : string)
| VDate (ref : nat) (time : float).

(** [v != null] *)
Definition notNullish (v : Value) : bool :=
  match v with VUndefined | VNull => false | _ => true end.

(** truthiness, as [||] and [if] test it *)
Definition truthy (v : Value) : bool :=
  match v with
  | VUndefined | VNull => false
  | VBool b => b
  | VNum x => numTruthy x
  | VStr s => negb (String.eqb s "")
  | VDate _ _ => true
  end.

(** [a || b] *)
Definition jsOr (a b : Value) : Value := if truthy a then a else b.

(** SameValueZero, the equality of [Set]: objects by reference. *)
Definition sameValueZero (a b : Value) : bool :=
  match a, b with
  | VUndefined, VUndefined | VNull, VNull => true
  | VBool x, VBool y => Bool.eqb x y
  | VNum x, VNum y => numSameValueZero x y
  | VStr x, VStr y => String.eqb x y
  | VDate r _, VDate r' _ => Nat.eqb r r'
  | _, _ => false
  end.

(** [a === b] *)
Definition strictEquals (a b : Value) : bool :=
  match a, b with
  | VNum x, VNum y => numStrictEquals x y
  | _, _ => sameValueZero a b
  end.

(** What the host supplies: the conversions between strings and numbers,
    whose algorithms lie outside the repository. *)
Record Host : Type := {
  (** [Number(s)] on a string *)
  StringToNumber : string -> float;
  (** [String(x)] on a number *)
  NumberToString : float -> string;
  (** [String(d)] on a Date with the given time value *)
  DateToString : float -> string
}.

(** [Number(v)] *)
Definition ToNumber (h : Host) (v : Value) : float :=
  match v with
  | VUndefined => PrimFloat.nan
  | VNull => 0%float
  | VBool b => if b then 1%float else 0%float
  | VNum x => x
  | VStr s => StringToNumber h s
  | VDate _ t => t
  end.

(** [String(v)] *)
Definition ToString (h : Host) (v : Value) : string :=
  match v with
  | VUndefined => "undefined"
  | VNull => "null"
  | VBool b => if b then "true" else "false"
  | VNum x => NumberToString h x
  | VStr s => s
  | VDate _ t => DateToString h t
  end.

(** [Array.from(new Set(l))]: the first occurrence of every value, in
    insertion order. *)
Definition setAdd (acc : list Value) (x : Value) : list Value :=
  if existsb (sameValueZero x) acc then acc else acc ++ [x].

Definition setFromList (l : list Value) : list Value :=
  fold_left setAdd l [].

(** A table row; a missing property reads as [undefined]. *)
Definition getProp (row : gmap string Value) (key : string) : Value :=
  default VUndefined (row !! key).

End Double.

(** ** The rounded aggregation code of the renderer ([MagicCharts.tsx]) *)

Module DoubleCharts.
Import Double.

(** *** Proportional stacking *)

(** [ds.data[g] || 0]; an index outside the array reads [undefined] *)
Definition entryOrZero (data : list float) (g : nat) : float :=
  match data !! g with
  | Some x => numberOrZero x
  | None => 0%float
  end.

(** [datasets.reduce((acc, ds) => acc + (ds.data[g] || 0), 0)] *)
Definition groupTotal (datasets : list (list float)) (g : nat) : float :=
  fold_left (fun acc data => (acc + entryOrZero data g)%float) datasets 0%float.

(** one turn of the loop over [g].  The renderer gives every series one
    entry per group, so that the assignment [ds.data[g] = ...] stays inside
    the array; outside it would extend the array, which a list does not
    follow, and the statements are about series with an entry at every
    position. *)
Definition normalizeGroup (datasets : list (list float)) (g : nat)
  : list (list float) :=
  let total := groupTotal datasets g in
  if (0 <? total)%float
  then List.map (fun data =>
         <[g := (100 * entryOrZero data g / total)%float]> data) datasets
  else datasets.

(** [for (let g = 0; g < groups.length; g++) ...] *)
Definition normalizeProportional (groupCount : nat) (datasets : list (list float))
  : list (list float) :=
  fold_left normalizeGroup (seq 0 groupCount) datasets.

(** *** Multi-series line pivot *)

Section WithHost.
Variable h : Host.

(** The comparison of [Array.prototype.sort] without a comparator:
    [undefined] goes last, everything else is compared as strings, by
    their code units. *)
Definition sortLe (x y : Value) : bool :=
  match x, y with
  | _, VUndefined => true
  | VUndefined, _ => false
  | _, _ => String.leb (ToString h x) (ToString h y)
  end.

Fixpoint insertSorted (x : Value) (sorted : list Value) : list Value :=
  match sorted with
  | [] => [x]
  | y :: rest =>
      if sortLe x y then x :: y :: rest else y :: insertSorted x rest
  end.

(** [arr.sort()]: stable *)
Definition defaultSort (l : list Value) : list Value :=
  fold_right insertSorted [] l.

(** [Number(r[col] || 0)] *)
Definition numericCell (r : gmap string Value) (col : string) : float :=
  ToNumber h (jsOr (getProp r col) (VNum 0%float)).

(** [filtered.reduce((acc, r) => acc + Number(r[col] || 0), 0)] *)
Definition sumColumn (filtered : list (gmap string Value)) (col : string) : float :=
  fold_left (fun acc r => (acc + numericCell r col)%float) filtered 0%float.

(** a dataset of the line chart: its label and one entry per axis
    position, [None] being [null] *)
Record LineSeries : Type := {
  seriesLabel : Value;
  seriesData : list (option float)
}.

Definition pivotDates (rows : list (gmap string Value)) (dateCol : string)
  : list Value :=
  defaultSort (setFromList (List.map (fun r => getProp r dateCol) rows)).

Definition pivotCategories (rows : list (gmap string Value)) (catCol : string)
  : list Value :=
  setFromList (List.map (fun r => getProp r catCol) rows).

Definition pivotFiltered (rows : list (gmap string Value)) (dateCol catCol : string)
  (date cat : Value) : list (gmap string Value) :=
  List.filter (fun r => strictEquals (getProp r dateCol) date
                        && strictEquals (getProp r catCol) cat) rows.

Definition pivotCell (rows : list (gmap string Value))
  (dateCol catCol valueCol : string) (date cat : Value) : option float :=
  let filtered := pivotFiltered rows dateCol catCol date cat in
  if length filtered =? 0 then None
  else Some (sumColumn filtered valueCol / ofNat (length filtered))%float.

Definition pivotDatasets (rows : list (gmap string Value))
  (dateCol catCol valueCol : string) : list LineSeries :=
  let dates := pivotDates rows dateCol in
  List.map (fun cat =>
    {| seriesLabel := cat;
       seriesData :=
         List.map (fun date => pivotCell rows dateCol catCol valueCol date cat) dates |})
    (pivotCategories rows catCol).

(** The branch of the renderer for [Date, Categorical, Numeric]: the axis
    labels and the datasets handed to the line chart; [None] when the
    guard of the branch does not hold. *)
Definition multiSeriesLine (binding : list string) (columnTypes : gmap string string)
  (rows : list (gmap string Value)) : option (list Value * list LineSeries) :=
  if (length binding =? 3)
     && Charts.hasType columnTypes (Charts.colAt binding 0) "date"
     && Charts.hasType columnTypes (Charts.colAt binding 1) "categorical"
     && Charts.hasType columnTypes (Charts.colAt binding 2) "numeric"
  then Some (pivotDates rows (Charts.colAt binding 0),
             pivotDatasets rows (Charts.colAt binding 0) (Charts.colAt binding 1)
                           (Charts.colAt binding 2))
  else None.

End WithHost.

End DoubleCharts.

(** ** Notions over doubles *)

Module DoubleSpec.
Import Double.

(** *** Proportional stacking, series by series *)

(** what an entry counts for: 0 when it is NaN, itself otherwise (a zero
    of either sign counting as the positive zero) *)
Definition counted (x : float) : float :=
  if PrimFloat.is_nan x then 0%float
  else if PrimFloat.is_zero x then 0%float
  else x.

(** the total of the axis position [g]: what the entries of the series
    at [g] count for, a missing one for 0, added up from 0 in the order of
    the series *)
Definition positionTotal (datasets : list (list float)) (g : nat) : float :=
  fold_left PrimFloat.add
            (List.map (fun data => from_option counted 0%float (data !! g)) datasets)
            0%float.

(** the share of [v] in [total], in percent: 100 times what [v] counts
    for, divided by the total, each operation rounded *)
Definition percentageShare (total v : float) : float :=
  (100 * counted v / total)%float.

(** what becomes of the entry [v] at axis position [g] *)
Definition normalizedEntry (datasets : list (list float)) (g : nat) (v : float)
  : float :=
  let total := positionTotal datasets g in
  if (0 <? total)%float then percentageShare total v else v.

(** one series after the position [p] has been treated, the totals being
    those of [datasets] *)
Definition normalizeSeriesAt (datasets : list (list float)) (data : list float)
  (p : nat) : list float :=
  match data !! p with
  | Some v => <[p := normalizedEntry datasets p v]> data
  | None => data
  end.

Definition normalizeSeries (datasets : list (list float)) (ps : list nat)
  (data : list float) : list float :=
  fold_left (normalizeSeriesAt datasets) ps data.

(** every series has an entry for each of the [groupCount] positions *)
Definition rectangular (groupCount : nat) (datasets : list (list float)) : Prop :=
  List.Forall (fun data => groupCount <= length data) datasets.


(** *** The pivot *)

(** no two entries are the same value for [Set] *)
Definition pairwiseDistinct (l : list Value) : Prop :=
  ForallOrdPairs (fun a b => sameValueZero a b = false) l.







(** what a cell adds to a sum, [Number(cell || 0)], by the kind of cell:
    an empty string, [null], [undefined], [false], NaN and the zeros add
    0, a string what the host reads in it, a number itself, a [Date] its
    time value *)
Definition amount (h : Host) (cell : Value) : float :=
  match cell with
  | VUndefined | VNull => 0%float
  | VBool b => if b then 1%float else 0%float
  | VNum x => if PrimFloat.is_nan x || PrimFloat.is_zero x then 0%float else x
  | VStr s => if String.eqb s "" then 0%float else StringToNumber h s
  | VDate _ t => t
  end.

(** the mean of a non-empty list of amounts as doubles give it: the
    amounts added up from 0 in their order, divided by their number *)
Definition mean (amounts : list float) : float :=
  (fold_left PrimFloat.add amounts 0 / ofNat (length amounts))%float.

End DoubleSpec.

(** ** A reference host for doubles and its sample tables

    [refHost] reads plain decimal literals whose digits spell an integer
    below 2^53, for which one division of two exact integers gives the
    nearest double, and prints NaN, the infinities and the integers below
    2^53; the examples use nothing else. *)

Module DoubleSamples.
Import Double.

Definition ofZ (z : Z) : float :=
  if (z <? 0)%Z then (- PrimFloat.of_uint63 (Uint63.of_Z (- z)))%float
  else PrimFloat.of_uint63 (Uint63.of_Z z).

Definition parseUnsigned (s : string) : float :=
  let '(whole, nWhole, rest) := Samples.readDigits s 0%Z 0 in
  match rest with
  | EmptyString => if nWhole =? 0 then PrimFloat.nan else ofZ whole
  | String "."%char fraction =>
      let '(part, nPart, rest') := Samples.readDigits fraction 0%Z 0 in
      match rest' with
      | EmptyString =>
          if nWhole + nPart =? 0 then PrimFloat.nan
          else (ofZ (whole * 10 ^ Z.of_nat nPart + part)
                / ofZ (10 ^ Z.of_nat nPart))%float
      | _ => PrimFloat.nan
      end
  | _ => PrimFloat.nan
  end.

Definition parseDecimal (s : string) : float :=
  match s with
  | EmptyString => 0%float
  | String "-"%char rest => (- parseUnsigned rest)%float
  | _ => parseUnsigned s
  end.

Definition printNumber (x : float) : string :=
  match Prim2SF x with
  | S754_nan => "NaN"
  | S754_infinity false => "Infinity"
  | S754_infinity true => "-Infinity"
  | S754_zero _ => "0"
  | S754_finite sign m e =>
      let magnitude := Z.shiftr (Zpos m) (- e) in
      if (e <=? 0)%Z && (Z.shiftl magnitude (- e) =? Zpos m)%Z
         && (magnitude <? 2 ^ 53)%Z
      then if sign then ("-" ++ pretty magnitude)%string else pretty magnitude
      else "(not printed)"
  end.

Definition refHost : Host :=
  {| StringToNumber := parseDecimal;
     NumberToString := printNumber;
     DateToString := fun _ => "Invalid Date" |}.

(** a row of a parsed delimited file: every cell a string *)
Definition csvRow (cells : list (string * string)) : gmap string Value :=
  list_to_map (List.map (fun kv => (fst kv, VStr (snd kv))) cells).

(** [Date, Platform, Followers]; LinkedIn has no row for the second date *)
Definition followers : list (gmap string Value) :=
  [ csvRow [("Platform", "Instagram"); ("Date", "2024-01-15"); ("Followers", "12800")];
    csvRow [("Platform", "Instagram"); ("Date", "2024-01-01"); ("Followers", "12500")];
    csvRow [("Platform", "TikTok"); ("Date", "2024-01-01"); ("Followers", "8500")];
    csvRow [("Platform", "TikTok"); ("Date", "2024-01-15"); ("Followers", "9200")];
    csvRow [("Platform", "LinkedIn"); ("Date", "2024-01-01"); ("Followers", "3200")];
    csvRow [("Platform", "TikTok"); ("Date", "2024-01-15"); ("Followers", "9400")] ].



End DoubleSamples.

(** ** Facts about values and sets *)

Module JsFacts.
Import Js.

Lemma Qeq_bool_sym (x y : Q) : Qeq_bool x y = Qeq_bool y x.
Proof.
  destruct (Qeq_bool x y) eqn:E; symmetry.
  - apply Qeq_bool_iff. symmetry. now apply Qeq_bool_iff.
  - destruct (Qeq_bool y x) eqn:E'; [|reflexivity].
    apply Qeq_bool_iff in E'. symmetry in E'. apply Qeq_bool_iff in E'. congruence.
Qed.

Lemma numSameValueZero_refl (a : JsNum) : numSameValueZero a a = true.
Proof. destruct a; simpl; try reflexivity. apply Qeq_bool_iff. reflexivity. Qed.

Lemma numSameValueZero_sym (a b : JsNum) :
  numSameValueZero a b = numSameValueZero b a.
Proof. destruct a, b; simpl; try reflexivity. apply Qeq_bool_sym. Qed.

Lemma numSameValueZero_trans (a b c : JsNum) :
  numSameValueZero a b = true -> numSameValueZero b c = true ->
  numSameValueZero a c = true.
Proof.
  destruct a, b, c; simpl; try congruence.
  rewrite !Qeq_bool_iff. intros H1 H2. now rewrite H1.
Qed.

Lemma sameValueZero_refl (a : JsValue) : sameValueZero a a = true.
Proof.
  destruct a; simpl; try reflexivity.
  - apply Bool.eqb_reflx.
  - apply numSameValueZero_refl.
  - apply String.eqb_refl.
  - apply Nat.eqb_refl.
Qed.

Lemma sameValueZero_sym (a b : JsValue) : sameValueZero a b = sameValueZero b a.
Proof.
  destruct a, b; simpl; try reflexivity.
  - now destruct b, b0.
  - apply numSameValueZero_sym.
  - apply String.eqb_sym.
  - apply Nat.eqb_sym.
Qed.

Lemma sameValueZero_trans (a b c : JsValue) :
  sameValueZero a b = true -> sameValueZero b c = true -> sameValueZero a c = true.
Proof.
  destruct a, b, c; simpl; try congruence.
  - rewrite !Bool.eqb_true_iff. congruence.
  - apply numSameValueZero_trans.
  - rewrite !String.eqb_eq. congruence.
  - rewrite !Nat.eqb_eq. congruence.
Qed.

(** [===] is [SameValueZero] away from NaN. *)
Lemma strictEquals_sameValueZero (a b : JsValue) :
  strictEquals a b = true -> sameValueZero a b = true.
Proof.
  destruct a, b; simpl; try congruence.
  unfold numStrictEquals. now intros [_ H]%andb_prop.
Qed.

Lemma strictEquals_string (s : string) (b : JsValue) :
  strictEquals (JStr s) b = sameValueZero (JStr s) b.
Proof. reflexivity. Qed.

(** *** [Array.from(new Set(l))] *)

Lemma existsb_sameValueZero_false (x : JsValue) (acc : list JsValue) :
  existsb (sameValueZero x) acc = false ->
  List.Forall (fun a => sameValueZero a x = false) acc.
Proof.
  intros H. apply List.Forall_forall. intros a Ha.
  rewrite sameValueZero_sym.
  destruct (sameValueZero x a) eqn:E; [|reflexivity].
  assert (existsb (sameValueZero x) acc = true) by (apply existsb_exists; eauto).
  congruence.
Qed.

Lemma pairwiseDistinct_snoc (acc : list JsValue) (x : JsValue) :
  Spec.pairwiseDistinct acc ->
  List.Forall (fun a => sameValueZero a x = false) acc ->
  Spec.pairwiseDistinct (acc ++ [x]).
Proof.
  unfold Spec.pairwiseDistinct.
  induction 1 as [|a l Ha Hl IH]; intros Hx; simpl.
  - constructor; constructor.
  - inversion Hx; subst. constructor.
    + apply List.Forall_app. split; [assumption|]. constructor; [assumption|constructor].
    + now apply IH.
Qed.

Lemma setAdd_distinct (acc : list JsValue) (x : JsValue) :
  Spec.pairwiseDistinct acc -> Spec.pairwiseDistinct (setAdd acc x).
Proof.
  intros H. unfold setAdd. destruct (existsb (sameValueZero x) acc) eqn:E.
  - assumption.
  - apply pairwiseDistinct_snoc; [assumption|]. now apply existsb_sameValueZero_false.
Qed.

Lemma setFold_distinct (l acc : list JsValue) :
  Spec.pairwiseDistinct acc -> Spec.pairwiseDistinct (fold_left setAdd l acc).
Proof.
  revert acc. induction l as [|x l IH]; intros acc H; simpl.
  - assumption.
  - apply IH. now apply setAdd_distinct.
Qed.

Lemma setFold_keeps (l acc : list JsValue) (x : JsValue) :
  In x acc -> In x (fold_left setAdd l acc).
Proof.
  revert acc. induction l as [|y l IH]; intros acc H; simpl.
  - assumption.
  - apply IH. unfold setAdd. destruct (existsb _ acc); [assumption|].
    apply in_or_app. now left.
Qed.

Lemma setFold_from (l acc : list JsValue) (x : JsValue) :
  In x (fold_left setAdd l acc) -> In x acc \/ In x l.
Proof.
  revert acc. induction l as [|y l IH]; intros acc H; simpl in *.
  - now left.
  - apply IH in H. destruct H as [H|H]; [|now right; right].
    unfold setAdd in H. destruct (existsb _ acc); [now left|].
    apply in_app_or in H. destruct H as [H|[H|[]]]; [now left|].
    right. now left.
Qed.

Lemma setFold_covers (l acc : list JsValue) (x : JsValue) :
  In x acc \/ In x l ->
  exists u, In u (fold_left setAdd l acc) /\ sameValueZero x u = true.
Proof.
  revert acc. induction l as [|y l IH]; intros acc H; simpl in *.
  - destruct H as [H|[]]. exists x. split; [assumption|apply sameValueZero_refl].
  - destruct H as [H|[H|H]].
    + apply IH. left. unfold setAdd. destruct (existsb _ acc); [assumption|].
      apply in_or_app. now left.
    + subst y. unfold setAdd. destruct (existsb (sameValueZero x) acc) eqn:E.
      * apply existsb_exists in E. destruct E as [u [Hu Hxu]].
        exists u. split; [now apply setFold_keeps|assumption].
      * apply IH. left. apply in_or_app. right. now left.
    + apply IH. now right.
Qed.

Lemma setFold_length (l acc : list JsValue) :
  length (fold_left setAdd l acc) <= length acc + length l.
Proof.
  revert acc. induction l as [|y l IH]; intros acc; simpl.
  - lia.
  - specialize (IH (setAdd acc y)). unfold setAdd in *.
    destruct (existsb _ acc); [lia|]. rewrite length_app in IH. simpl in IH. lia.
Qed.

(** The set of a list holds pairwise different values, each taken from
    the list, and every value of the list is one of them. *)
Lemma setFromList_distinct (l : list JsValue) :
  Spec.pairwiseDistinct (setFromList l).
Proof. apply setFold_distinct. constructor. Qed.

Lemma setFromList_from (l : list JsValue) (x : JsValue) :
  In x (setFromList l) -> In x l.
Proof. intros H. apply setFold_from in H. now destruct H as [[]|H]. Qed.

Lemma setFromList_covers (l : list JsValue) (x : JsValue) :
  In x l -> exists u, In u (setFromList l) /\ sameValueZero x u = true.
Proof. intros H. apply setFold_covers. now right. Qed.

Lemma setFromList_length (l : list JsValue) :
  length (setFromList l) <= length l.
Proof. apply (setFold_length l []). Qed.

End JsFacts.

(** ** Facts about the suggestion engine *)

Module EngineFacts.
Import Js Engine Spec.

(** *** The sort by priority *)

Lemma insertByPriority_perm (s : Suggestion.t) (l : list Suggestion.t) :
  Permutation (insertByPriority s l) (s :: l).
Proof.
  induction l as [|x l IH]; simpl.
  - reflexivity.
  - destruct (Suggestion.priority s <=? Suggestion.priority x)%Z.
    + reflexivity.
    + rewrite IH. apply perm_swap.
Qed.

Lemma sortByPriority_perm (l : list Suggestion.t) :
  Permutation (sortByPriority l) l.
Proof.
  induction l as [|x l IH]; simpl.
  - reflexivity.
  - rewrite insertByPriority_perm. now constructor.
Qed.

Lemma insertByPriority_sorted (s : Suggestion.t) (l : list Suggestion.t) :
  StronglySorted priorityLe l -> StronglySorted priorityLe (insertByPriority s l).
Proof.
  induction 1 as [|x l Hl IH Hx]; simpl.
  - repeat constructor.
  - destruct (Suggestion.priority s <=? Suggestion.priority x)%Z eqn:E.
    + apply Z.leb_le in E. constructor.
      * now constructor.
      * constructor; [exact E|].
        eapply List.Forall_impl; [|exact Hx]. intros a Ha. unfold priorityLe in *. lia.
    + apply Z.leb_gt in E. constructor; [assumption|].
      eapply Permutation_Forall; [symmetry; apply insertByPriority_perm|].
      constructor; [unfold priorityLe; lia|assumption].
Qed.

Lemma sortByPriority_sorted (l : list Suggestion.t) :
  StronglySorted priorityLe (sortByPriority l).
Proof.
  induction l as [|x l IH]; simpl.
  - constructor.
  - now apply insertByPriority_sorted.
Qed.

(** Among equal priorities the order of insertion survives. *)
Lemma insertByPriority_stable (p : Z) (s : Suggestion.t) (l : list Suggestion.t) :
  List.filter (hasPriority p) (insertByPriority s l)
  = List.filter (hasPriority p) (s :: l).
Proof.
  induction l as [|x l IH]; simpl.
  - reflexivity.
  - destruct (Suggestion.priority s <=? Suggestion.priority x)%Z eqn:E.
    + reflexivity.
    + apply Z.leb_gt in E. simpl in *. rewrite IH. unfold hasPriority.
      destruct (Suggestion.priority s =? p)%Z eqn:Es; [|reflexivity].
      apply Z.eqb_eq in Es.
      destruct (Suggestion.priority x =? p)%Z eqn:Ex; [|reflexivity].
      apply Z.eqb_eq in Ex. lia.
Qed.

Lemma sortByPriority_stable (p : Z) (l : list Suggestion.t) :
  List.filter (hasPriority p) (sortByPriority l) = List.filter (hasPriority p) l.
Proof.
  induction l as [|x l IH]; simpl.
  - reflexivity.
  - rewrite insertByPriority_stable. simpl. now rewrite IH.
Qed.

(** *** Lists of a known length *)

Lemma length_one {A : Type} (l : list A) : length l = 1 -> exists x, l = [x].
Proof. destruct l as [|x [|y l]]; simpl; try discriminate. eauto. Qed.

Lemma length_zero {A : Type} (l : list A) : length l = 0 -> l = [].
Proof. now destruct l. Qed.

(** *** The rule table on one date and one measure *)

Lemma collected_date_measure (rt : JsRuntime) (d m : FieldAnalysis) (n : nat) :
  collected rt [] [m] [d] n
  = [ sug "line" 1 "Time series data - show trend over time";
      sug "bar" 2 "Time periods - compare values across time periods" ].
Proof.
  unfold collected, pushedByRules, ruleLargeDataset. simpl.
  destruct (10000 <? Z.of_nat n)%Z; reflexivity.
Qed.

(** C2.  When the selected fields analyse to exactly one DATE field, one
    MEASURE field and no DIMENSION field, [suggestCharts] returns the two
    suggestions line (priority 1) and bar (priority 2), in that order.
    In general the list returned by [applyTableauRules] is in ascending
    order of priority, holds exactly the suggestions the rules pushed, and
    keeps those of equal priority in the order in which they were
    pushed. *)
Theorem suggestCharts_date_measure_sorted (rt : JsRuntime) :
  (forall (rows : list (gmap string JsValue)) (fields : list string),
      let fieldAnalysis := List.map (analyzeField rt rows) fields in
      length (List.filter (fun f => isDATE (type f)) fieldAnalysis) = 1 ->
      length (List.filter (fun f => isMEASURE (type f)) fieldAnalysis) = 1 ->
      length (List.filter (fun f => isDIMENSION (type f)) fieldAnalysis) = 0 ->
      suggestionsOf (suggestCharts rt (Some rows) (Some fields))
      = [ sug "line" 1 "Time series data - show trend over time";
          sug "bar" 2 "Time periods - compare values across time periods" ])
  /\ (forall (dimensions measures dates : list FieldAnalysis) (recordCount : nat),
        let pushed := collected rt dimensions measures dates recordCount in
        let returned :=
          suggestionsOf (applyTableauRules rt dimensions measures dates recordCount) in
        StronglySorted priorityLe returned
        /\ Permutation returned pushed
        /\ forall p, List.filter (hasPriority p) returned
                     = List.filter (hasPriority p) pushed).
Proof.
  split.
  - intros rows fields fieldAnalysis Hd Hm Hz.
    unfold suggestCharts. destruct fields as [|f fields].
    + simpl in Hd. discriminate.
    + fold fieldAnalysis.
      apply length_one in Hd. destruct Hd as [d Hd].
      apply length_one in Hm. destruct Hm as [m Hm].
      apply length_zero in Hz.
      rewrite Hd, Hm, Hz. unfold applyTableauRules, suggestionsOf.
      rewrite collected_date_measure. reflexivity.
  - intros dimensions measures dates recordCount pushed returned.
    unfold returned, applyTableauRules, suggestionsOf. fold pushed.
    split; [apply sortByPriority_sorted|].
    split; [apply sortByPriority_perm|].
    intros p. apply sortByPriority_stable.
Qed.

Lemma suggestCharts_date_measure_witness :
  suggestionsOf (suggestCharts Samples.refRuntime (Some Samples.typedTable)
                               (Some ["day"; "sales"]))
  = [ sug "line" 1 "Time series data - show trend over time";
      sug "bar" 2 "Time periods - compare values across time periods" ].
Proof.
  apply (proj1 (suggestCharts_date_measure_sorted Samples.refRuntime));
    vm_compute; reflexivity.
Defined.

(** C8.  With no field selected, whether the selection is absent or
    empty, [suggestCharts] returns the sentinel with an empty list and the
    reason 'No fields selected', for every data argument, absent data
    included; it does not throw. *)
Theorem suggestCharts_no_fields (rt : JsRuntime)
  (data : option (list (gmap string JsValue))) :
  suggestCharts rt data None = NoFields [] "No fields selected"
  /\ suggestCharts rt data (Some []) = NoFields [] "No fields selected".
Proof. split; reflexivity. Qed.

(** *** One date, one dimension, one measure *)

Lemma collected_date_dimension_measure (rt : JsRuntime) (t d m : FieldAnalysis)
  (n : nat) :
  collected rt [d] [m] [t] n
  = (if isLOW (cardinalityLevel d)
     then [ sug "line" 1 "Time series by category - show trends for each group";
            sug "stacked_area" 2 "Stacked area - show contribution over time";
            sug "grouped_bar" 3 "Grouped bars over time - compare categories within time periods" ]
     else [])
    ++ [ sug "stacked_area" 2 "Stackable data structure - stacked_area shows composition" ]
    ++ (if isHIGH (cardinalityLevel d)
        then [ sug "treemap" 3 "High cardinality dimension - treemap shows hierarchy" ]
        else [])
    ++ ruleGeographic rt [d] [m].
Proof.
  unfold collected, pushedByRules, ruleLargeDataset.
  set (geo := ruleGeographic rt [d] [m]).
  unfold rule9, rule12, ruleHighCardinality, firstDimIsLow. simpl.
  destruct (10000 <? Z.of_nat n)%Z; destruct (cardinalityLevel d); reflexivity.
Qed.

Lemma ruleGeographic_no_stacked_area (rt : JsRuntime)
  (dimensions measures : list FieldAnalysis) :
  List.filter isStackedAreaAt2 (ruleGeographic rt dimensions measures) = [].
Proof. unfold ruleGeographic. now destruct (_ && _). Qed.

Lemma filter_stackedAreaAt2 (l : list Suggestion.t) :
  List.filter isStackedAreaAt2 l
  = List.filter (isOfType "stacked_area") (List.filter (hasPriority 2) l).
Proof.
  induction l as [|x l IH]; simpl; [reflexivity|].
  unfold isStackedAreaAt2 at 1.
  destruct (hasPriority 2 x); simpl.
  - rewrite andb_true_r. now rewrite IH.
  - rewrite andb_false_r. exact IH.
Qed.

(** C10.  When the selected fields analyse to one DATE field, one
    DIMENSION field and one MEASURE field, the returned list holds the
    [stacked_area] suggestion of the stacking scenario at priority 2,
    whatever the cardinality tier of the dimension.  It holds two
    [stacked_area] suggestions at priority 2 when the dimension is of LOW
    cardinality (the other one comes from the date + dimension + measure
    rule) and one otherwise. *)
Theorem stacked_area_date_dimension_measure (rt : JsRuntime)
  (rows : list (gmap string JsValue)) (fields : list string) (d : FieldAnalysis) :
  let fieldAnalysis := List.map (analyzeField rt rows) fields in
  length (List.filter (fun f => isDATE (type f)) fieldAnalysis) = 1 ->
  length (List.filter (fun f => isMEASURE (type f)) fieldAnalysis) = 1 ->
  List.filter (fun f => isDIMENSION (type f)) fieldAnalysis = [d] ->
  let returned := suggestionsOf (suggestCharts rt (Some rows) (Some fields)) in
  In (sug "stacked_area" 2 "Stackable data structure - stacked_area shows composition")
     returned
  /\ length (List.filter isStackedAreaAt2 returned)
     = if isLOW (cardinalityLevel d) then 2 else 1.
Proof.
  intros fieldAnalysis Ht Hm Hd returned.
  unfold returned, suggestCharts. destruct fields as [|f fields].
  { simpl in Ht. discriminate. }
  fold fieldAnalysis.
  apply length_one in Ht. destruct Ht as [t Ht].
  apply length_one in Hm. destruct Hm as [m Hm].
  rewrite Ht, Hm, Hd. unfold applyTableauRules, suggestionsOf.
  split.
  - eapply Permutation_in; [symmetry; apply sortByPriority_perm|].
    rewrite collected_date_dimension_measure.
    apply in_or_app. right. now left.
  - rewrite filter_stackedAreaAt2, sortByPriority_stable, <- filter_stackedAreaAt2.
    rewrite collected_date_dimension_measure.
    rewrite !List.filter_app, ruleGeographic_no_stacked_area.
    destruct (cardinalityLevel d); reflexivity.
Qed.

Lemma stacked_area_date_dimension_measure_witness :
  let returned :=
    suggestionsOf (suggestCharts Samples.refRuntime (Some Samples.typedTable)
                                 (Some ["day"; "region"; "sales"])) in
  In (sug "stacked_area" 2 "Stackable data structure - stacked_area shows composition")
     returned
  /\ length (List.filter isStackedAreaAt2 returned) = 2.
Proof.
  apply (stacked_area_date_dimension_measure Samples.refRuntime Samples.typedTable
           ["day"; "region"; "sales"]
           (analyzeField Samples.refRuntime Samples.typedTable "region"));
    vm_compute; reflexivity.
Defined.

(** *** The classifier *)

Lemma filter_disjoint_length {A : Type} (f g : A -> bool) (l : list A) :
  (forall x, f x = true -> g x = false) ->
  length (List.filter f l) + length (List.filter g l) <= length l.
Proof.
  intros H. induction l as [|x l IH]; simpl; [lia|].
  destruct (f x) eqn:Ef.
  - rewrite (H x Ef). simpl. lia.
  - destruct (g x); simpl; lia.
Qed.

Lemma numeric_not_date (rt : JsRuntime) (v : JsValue) :
  isNumericValue v = true -> isDateValue rt v = false.
Proof. unfold isDateValue, isDateString. destruct v; simpl; congruence. Qed.

(** C1, as the code has it.  When more than 0.8 of the values handed to
    [determineDataType] are numbers (of type number and not NaN; a string
    is never parsed), the date test does not fire, and the result is
    DIMENSION if those numbers have at most 20 distinct values and are all
    integers, and MEASURE otherwise. *)
Theorem determineDataType_numbers (rt : JsRuntime) (values : list JsValue) :
  let numericValues := List.filter isNumericValue values in
  exceeds80 (length numericValues) (length values) = true ->
  exceeds80 (length (List.filter (isDateValue rt) values)) (length values) = false
  /\ determineDataType rt values
     = if (length (setFromList numericValues) <=? 20)
          && forallb isIntegerValue numericValues
       then DIMENSION else MEASURE.
Proof.
  intros numericValues H.
  assert (Hdate : exceeds80 (length (List.filter (isDateValue rt) values))
                            (length values) = false).
  { pose proof (filter_disjoint_length isNumericValue (isDateValue rt) values
                  (numeric_not_date rt)) as Hlen.
    fold numericValues in Hlen. unfold exceeds80 in *.
    apply Nat.ltb_lt in H. apply Nat.ltb_ge. lia. }
  split; [exact Hdate|].
  unfold determineDataType. rewrite Hdate. fold numericValues. now rewrite H.
Qed.

Lemma determineDataType_numbers_witness :
  exceeds80 (length (List.filter (isDateValue Samples.refRuntime)
                                 [JNum (Fin 1); JNum (Fin 2); JNum (Fin (5 # 2))]))
            3 = false
  /\ determineDataType Samples.refRuntime
       [JNum (Fin 1); JNum (Fin 2); JNum (Fin (5 # 2))] = MEASURE.
Proof.
  apply (determineDataType_numbers Samples.refRuntime
           [JNum (Fin 1); JNum (Fin 2); JNum (Fin (5 # 2))]).
  vm_compute. reflexivity.
Defined.

(** C1 as stated fails on a column of four fractional numbers and the
    string "4.5": all five entries read as finite numbers and at most one
    is a date, so the specified classifier answers MEASURE, while the code
    counts four numbers out of five, which is not more than 0.8, and
    answers DIMENSION. *)
Lemma determineDataType_parseable_counterexample :
  let values := Samples.mixedColumn in
  let nonNull := List.filter notNullish values in
  let numbers := List.filter (parsesFinite Samples.refRuntime) nonNull in
  exceeds80 (length numbers) (length nonNull) = true
  /\ exceeds80 (length (List.filter (isDateValue Samples.refRuntime) nonNull))
               (length nonNull) = false
  /\ forallb (fun v => isInteger (ToNumber Samples.refRuntime v)) numbers = false
  /\ classify Samples.refRuntime values = MEASURE
  /\ determineDataType Samples.refRuntime values = DIMENSION.
Proof. vm_compute. repeat split; reflexivity. Qed.

(** The same divergence on every host that reads "4.5" as the number
    4.5, whatever it takes for a date. *)
Lemma mixedColumn_on_every_host (rt : JsRuntime) :
  StringToNumber rt "4.5" = Fin (9 # 2) ->
  classify rt Samples.mixedColumn = MEASURE
  /\ determineDataType rt Samples.mixedColumn = DIMENSION.
Proof.
  intros H.
  unfold classify, determineDataType, Samples.mixedColumn, isDateValue, isDateString,
    parsesFinite.
  destruct (dateStringValid rt "4.5") eqn:E;
    repeat (simpl; rewrite ?H, ?E); split; reflexivity.
Qed.

(** *** The field descriptor *)

Lemma filter_length_lt {A : Type} (f : A -> bool) (l : list A) :
  length (List.filter f l) < length l <-> exists x, In x l /\ f x = false.
Proof.
  induction l as [|x l IH]; simpl.
  - split; [lia|]. now intros [x [[] _]].
  - pose proof (List.filter_length_le f l) as Hle.
    destruct (f x) eqn:Ef; simpl.
    + rewrite <- Nat.succ_lt_mono, IH. split.
      * intros [y [Hy Hf]]. eauto.
      * intros [y [[->|Hy] Hf]]; [congruence|eauto].
    + split; [|lia]. intros _. exists x. auto.
Qed.

(** A list of pairwise different values, each the same as some entry of
    [u], is not longer than [u]. *)
Lemma pairwiseDistinct_length_le (w u : list JsValue) :
  pairwiseDistinct w ->
  (forall x, In x w -> exists y, In y u /\ sameValueZero x y = true) ->
  length w <= length u.
Proof.
  unfold pairwiseDistinct. intros Hw. revert u.
  induction Hw as [|x w Hx Hw IH]; intros u Hcov; simpl; [lia|].
  destruct (Hcov x (or_introl eq_refl)) as [y [Hy Hxy]].
  apply in_split in Hy. destruct Hy as [u1 [u2 ->]].
  rewrite length_app. simpl.
  enough (length w <= length (u1 ++ u2)) by (rewrite length_app in *; lia).
  apply IH. intros z Hz.
  destruct (Hcov z (or_intror Hz)) as [y' [Hy' Hzy']].
  exists y'. split; [|assumption].
  apply in_app_or in Hy'. apply in_or_app.
  destruct Hy' as [Hy'|[Hy'|Hy']]; [now left| |now right].
  subst y'. exfalso.
  rewrite List.Forall_forall in Hx. specialize (Hx z Hz).
  rewrite JsFacts.sameValueZero_sym in Hzy'.
  rewrite (JsFacts.sameValueZero_trans x y z Hxy Hzy') in Hx. discriminate.
Qed.

(** C9, as the code has it.  [hasNulls] is true exactly when some row
    holds [null] or [undefined] in the column; the empty string does not
    count.  [cardinality] is the number of distinct values of the whole
    column without those entries: the length of a list of pairwise
    different values of the column that has every value of the column, a
    number no list of pairwise different values of the column exceeds.
    [uniqueValues] holds the first ten of them, so its length is the
    smaller of 10 and the cardinality. *)
Theorem analyzeField_hasNulls_cardinality (rt : JsRuntime)
  (data : list (gmap string JsValue)) (fieldName : string) :
  let field := analyzeField rt data fieldName in
  let values := columnValues data fieldName in
  let unique := setFromList values in
  (hasNulls field = true <->
     exists row, In row data /\ notNullish (getProp row fieldName) = false)
  /\ (forall v, In v values <->
        exists row, In row data /\ v = getProp row fieldName /\ notNullish v = true)
  /\ cardinality field = length unique
  /\ pairwiseDistinct unique
  /\ (forall u, In u unique -> In u values)
  /\ (forall v, In v values -> exists u, In u unique /\ sameValueZero v u = true)
  /\ (forall w, pairwiseDistinct w ->
        (forall x, In x w -> exists v, In v values /\ sameValueZero x v = true) ->
        length w <= cardinality field)
  /\ uniqueValues field = firstn 10 unique
  /\ length (uniqueValues field) = Nat.min 10 (cardinality field).
Proof.
  intros field values unique. simpl.
  fold values. fold unique.
  split; [|split; [|split; [|split; [|split; [|split; [|split; [|split]]]]]]].
  - rewrite Nat.ltb_lt. unfold values, columnValues.
    rewrite <- (List.length_map (fun row => getProp row fieldName) data).
    rewrite filter_length_lt. split.
    + intros [v [Hv Hf]]. apply in_map_iff in Hv. destruct Hv as [row [<- Hrow]]. eauto.
    + intros [row [Hrow Hf]]. exists (getProp row fieldName). split; [|assumption].
      apply in_map_iff. eauto.
  - intros v. unfold values, columnValues. rewrite filter_In, in_map_iff. split.
    + intros [[row [<- Hrow]] Hf]. eauto.
    + intros [row [Hrow [-> Hf]]]. eauto.
  - reflexivity.
  - apply JsFacts.setFromList_distinct.
  - apply JsFacts.setFromList_from.
  - apply JsFacts.setFromList_covers.
  - intros w Hw Hcov. apply pairwiseDistinct_length_le; [assumption|].
    intros x Hx. destruct (Hcov x Hx) as [v [Hv Hxv]].
    destruct (JsFacts.setFromList_covers values v Hv) as [u [Hu Hvu]].
    exists u. split; [assumption|]. eapply JsFacts.sameValueZero_trans; eassumption.
  - reflexivity.
  - apply List.length_firstn.
Qed.

(** C9 as stated fails on a row whose cell is the empty string: the
    value is empty, yet [hasNulls] is false. *)
Lemma hasNulls_empty_string_counterexample :
  let data := [Samples.csvRow [("city", "")]] in
  (exists row, In row data /\ isEmptyEntry (getProp row "city") = true)
  /\ hasNulls (analyzeField Samples.refRuntime data "city") = false.
Proof.
  split.
  - eexists. split; [left; reflexivity|]. vm_compute. reflexivity.
  - vm_compute. reflexivity.
Qed.

(** The preview is cut at ten values while the cardinality is not. *)
Example cardinality_beyond_preview :
  let data :=
    List.map (fun i => {[ "id" := JNum (ofNat i) ]} : gmap string JsValue) (seq 0 12) in
  let field := analyzeField Samples.refRuntime data "id" in
  cardinality field = 12 /\ length (uniqueValues field) = 10.
Proof. vm_compute. split; reflexivity. Qed.

End EngineFacts.

(** ** Facts about the variant table and the column search *)

Module TableFacts.
Import Js Charts Spec.

(** *** Order of the two columns *)

Lemma Bar_single_swap (types : gmap string string) (a b : string)
  (rows rows' : option (list (gmap string JsValue))) :
  isCompatible Bar_single [a; b] types rows
  = isCompatible Bar_single [b; a] types rows'.
Proof.
  simpl. unfold colAt. simpl.
  destruct (hasType types a "categorical"), (hasType types b "numeric"),
    (hasType types b "categorical"), (hasType types a "numeric"),
    (hasType types a "date"), (hasType types b "date"); reflexivity.
Qed.

Lemma Pie_standard_swap (types : gmap string string) (a b : string)
  (rows rows' : option (list (gmap string JsValue))) :
  isCompatible Pie_standard [a; b] types rows
  = isCompatible Pie_standard [b; a] types rows'.
Proof.
  simpl. unfold pieCompatible, colAt. simpl.
  destruct (hasType types a "categorical"), (hasType types b "numeric"),
    (hasType types b "categorical"), (hasType types a "numeric"); reflexivity.
Qed.

(** C7.  For two columns of which one is typed categorical and the other
    numeric, the Bar/single and the Pie/standard predicates give the same
    answer on [a, b] and on [b, a], with or without rows; the answer is
    true. *)
Theorem single_bar_pie_order_independent (types : gmap string string)
  (a b : string) (rows rows' : option (list (gmap string JsValue))) :
  (types !! a = Some "categorical" /\ types !! b = Some "numeric")
  \/ (types !! a = Some "numeric" /\ types !! b = Some "categorical") ->
  isCompatible Bar_single [a; b] types rows
  = isCompatible Bar_single [b; a] types rows'
  /\ isCompatible Pie_standard [a; b] types rows
     = isCompatible Pie_standard [b; a] types rows'
  /\ isCompatible Bar_single [a; b] types rows = true
  /\ isCompatible Pie_standard [a; b] types rows = true.
Proof.
  intros H.
  split; [apply Bar_single_swap|]. split; [apply Pie_standard_swap|].
  simpl. unfold pieCompatible, colAt, hasType. simpl.
  destruct H as [[-> ->]|[-> ->]]; simpl; split; reflexivity.
Qed.

Lemma single_bar_pie_order_independent_witness :
  isCompatible Bar_single ["region"; "sales"] Samples.regionSalesTypes None
  = isCompatible Bar_single ["sales"; "region"] Samples.regionSalesTypes None
  /\ isCompatible Pie_standard ["region"; "sales"] Samples.regionSalesTypes None
     = isCompatible Pie_standard ["sales"; "region"] Samples.regionSalesTypes None
  /\ isCompatible Bar_single ["region"; "sales"] Samples.regionSalesTypes None = true
  /\ isCompatible Pie_standard ["region"; "sales"] Samples.regionSalesTypes None = true.
Proof.
  apply (single_bar_pie_order_independent Samples.regionSalesTypes "region" "sales").
  left. split; vm_compute; reflexivity.
Defined.

(** *** The combinations of a list *)

Lemma combinations_nil {A : Type} (k : nat) : combinations (@nil A) k = [].
Proof. destruct k as [|[|k]]; reflexivity. Qed.

Lemma combinations_one {A : Type} (l : list A) :
  combinations l 1 = List.map (fun x => [x]) l.
Proof. reflexivity. Qed.

Lemma combinations_cons {A : Type} (x : A) (l : list A) (k : nat) :
  combinations (x :: l) (S (S k))
  = List.map (cons x) (combinations l (S k)) ++ combinations l (S (S k)).
Proof. reflexivity. Qed.

(** The combinations of the image of a list are the images of its
    combinations, in the same order. *)
Lemma combinations_map {A B : Type} (f : A -> B) (l : list A) (k : nat) :
  combinations (List.map f l) k = List.map (List.map f) (combinations l k).
Proof.
  revert k. induction l as [|x l IH]; intros k.
  - simpl. now rewrite !combinations_nil.
  - destruct k as [|[|k]].
    + reflexivity.
    + rewrite !combinations_one. simpl. rewrite !List.map_map. reflexivity.
    + simpl List.map at 1. rewrite !combinations_cons, List.map_app, !IH.
      rewrite !List.map_map. reflexivity.
Qed.

Lemma increasingFrom_cons (lo n i : nat) (c : list nat) :
  increasingFrom lo (i :: c) n = true
  <-> lo <= i /\ i < n /\ increasingFrom (S i) c n = true.
Proof.
  change (increasingFrom lo (i :: c) n)
    with ((lo <=? i) && (i <? n) && increasingFrom (S i) c n).
  rewrite !andb_true_iff, Nat.leb_le, Nat.ltb_lt. tauto.
Qed.

Lemma increasingFrom_weaken (lo lo' n : nat) (c : list nat) :
  lo <= lo' -> increasingFrom lo' c n = true -> increasingFrom lo c n = true.
Proof.
  destruct c as [|i c]; [reflexivity|].
  rewrite !increasingFrom_cons. intros Hle [H1 [H2 H3]].
  repeat split; [lia|assumption|assumption].
Qed.

Lemma increasingFrom_length (lo n : nat) (c : list nat) :
  increasingFrom lo c n = true -> length c <= n - lo.
Proof.
  revert lo. induction c as [|i c IH]; intros lo; [simpl; lia|].
  rewrite increasingFrom_cons. intros [H1 [H2 H3]].
  apply IH in H3. simpl. lia.
Qed.

(** The [k]-combinations of the positions [lo, lo+1, ..., lo+m-1] are
    the strictly increasing lists of [k] of these positions. *)
Lemma combinations_seq_In (m lo k : nat) (c : list nat) :
  In c (combinations (seq lo m) k)
  <-> 1 <= k /\ length c = k /\ increasingFrom lo c (lo + m) = true.
Proof.
  revert lo k c. induction m as [|m IH]; intros lo k c.
  - simpl seq. rewrite combinations_nil. split; [intros []|].
    intros [Hk [Hlen Hinc]]. apply increasingFrom_length in Hinc. lia.
  - simpl seq. replace (lo + S m) with (S lo + m) by lia.
    destruct k as [|[|k]].
    + simpl. split; [intros []|lia].
    + rewrite combinations_one. simpl List.map.
      change (List.map (fun x => [x]) (seq (S lo) m))
        with (combinations (seq (S lo) m) 1).
      split.
      * intros [<-|H].
        -- split; [lia|]. split; [reflexivity|].
           apply increasingFrom_cons. repeat split; lia.
        -- apply IH in H. destruct H as [_ [Hlen Hinc]].
           split; [lia|]. split; [assumption|].
           eapply increasingFrom_weaken; [|eassumption]. lia.
      * intros [_ [Hlen Hinc]]. destruct c as [|i [|j c]]; try discriminate.
        apply increasingFrom_cons in Hinc. destruct Hinc as [H1 [H2 _]].
        destruct (Nat.eq_dec i lo) as [->|Hne]; [now left|]. right.
        apply IH. split; [lia|]. split; [reflexivity|].
        apply increasingFrom_cons. repeat split; lia.
    + rewrite combinations_cons, in_app_iff, in_map_iff. split.
      * intros [[c' [<- H]]|H].
        -- apply IH in H. destruct H as [_ [Hlen Hinc]].
           split; [lia|]. split; [simpl; lia|].
           apply increasingFrom_cons. repeat split; [lia|lia|assumption].
        -- apply IH in H. destruct H as [_ [Hlen Hinc]].
           split; [lia|]. split; [assumption|].
           eapply increasingFrom_weaken; [|eassumption]. lia.
      * intros [_ [Hlen Hinc]]. destruct c as [|i c]; [discriminate|].
        simpl in Hlen.
        apply increasingFrom_cons in Hinc. destruct Hinc as [H1 [H2 H3]].
        destruct (Nat.eq_dec i lo) as [->|Hne].
        -- left. exists c. split; [reflexivity|]. apply IH.
           split; [lia|]. split; [lia|assumption].
        -- right. apply IH. split; [lia|]. split; [simpl; lia|].
           apply increasingFrom_cons. repeat split; [lia|lia|assumption].
Qed.

Lemma lexLt_irrefl (a : list nat) : lexLt a a = false.
Proof.
  induction a as [|x a IH]; simpl; [reflexivity|].
  rewrite Nat.ltb_irrefl, Nat.eqb_refl. exact IH.
Qed.

Lemma lexLt_asym (a b : list nat) : lexLt a b = true -> lexLt b a = false.
Proof.
  revert b. induction a as [|x a IH]; intros [|y b]; simpl; try congruence.
  rewrite orb_true_iff, andb_true_iff, Nat.ltb_lt, Nat.eqb_eq.
  intros [H|[-> H]].
  - apply orb_false_iff. split; [apply Nat.ltb_ge; lia|].
    apply andb_false_iff. left. apply Nat.eqb_neq. lia.
  - rewrite Nat.ltb_irrefl, Nat.eqb_refl. simpl. now apply IH.
Qed.

Lemma StronglySorted_app {A : Type} (R : A -> A -> Prop) (l1 l2 : list A) :
  StronglySorted R l1 -> StronglySorted R l2 ->
  (forall a b, In a l1 -> In b l2 -> R a b) ->
  StronglySorted R (l1 ++ l2).
Proof.
  induction 1 as [|x l1 H1 IH Hx]; intros H2 Hcross; simpl.
  - assumption.
  - constructor.
    + apply IH; [assumption|]. intros a b Ha Hb. apply Hcross; [now right|assumption].
    + apply List.Forall_app. split; [assumption|].
      apply List.Forall_forall. intros b Hb. apply Hcross; [now left|assumption].
Qed.

Lemma StronglySorted_map_cons (x : nat) (l : list (list nat)) :
  StronglySorted (fun a b => lexLt a b = true) l ->
  StronglySorted (fun a b => lexLt a b = true) (List.map (cons x) l).
Proof.
  induction 1 as [|c l Hl IH Hc]; simpl; constructor.
  - assumption.
  - apply List.Forall_map. eapply List.Forall_impl; [|exact Hc].
    intros b Hb. simpl. rewrite Nat.ltb_irrefl, Nat.eqb_refl. exact Hb.
Qed.

Lemma lexLt_head (i j : nat) (a b : list nat) :
  i < j -> lexLt (i :: a) (j :: b) = true.
Proof. intros H. simpl. apply orb_true_iff. left. now apply Nat.ltb_lt. Qed.

(** They are listed in strictly increasing lexicographic order. *)
Lemma combinations_seq_sorted (m lo k : nat) :
  StronglySorted (fun a b => lexLt a b = true) (combinations (seq lo m) k).
Proof.
  revert lo k. induction m as [|m IH]; intros lo k.
  - simpl seq. rewrite combinations_nil. constructor.
  - simpl seq. destruct k as [|[|k]].
    + constructor.
    + rewrite combinations_one. simpl List.map.
      change (List.map (fun x => [x]) (seq (S lo) m))
        with (combinations (seq (S lo) m) 1).
      constructor.
      * apply IH.
      * apply List.Forall_forall. intros c Hc.
        apply combinations_seq_In in Hc. destruct Hc as [_ [Hlen Hinc]].
        destruct c as [|i c]; [discriminate|].
        apply increasingFrom_cons in Hinc. apply lexLt_head. lia.
    + rewrite combinations_cons. apply StronglySorted_app.
      * apply StronglySorted_map_cons, IH.
      * apply IH.
      * intros a b Ha Hb. apply in_map_iff in Ha. destruct Ha as [a' [<- _]].
        apply combinations_seq_In in Hb. destruct Hb as [_ [Hlen Hinc]].
        destruct b as [|j b]; [discriminate|].
        apply increasingFrom_cons in Hinc. apply lexLt_head. lia.
Qed.

Lemma picks_of_suffix (pre l : list string) :
  pick (pre ++ l) (seq (length pre) (length l)) = l.
Proof.
  revert pre. induction l as [|x l IH]; intros pre; [reflexivity|].
  simpl seq. unfold pick in *. simpl List.map. f_equal.
  - unfold colAt. now rewrite list_lookup_middle.
  - specialize (IH (pre ++ [x])).
    rewrite <- List.app_assoc, List.length_app in IH. simpl in IH.
    now rewrite Nat.add_1_r in IH.
Qed.

Lemma columns_as_picks (columns : list string) :
  columns = pick columns (seq 0 (length columns)).
Proof. symmetry. apply (picks_of_suffix [] columns). Qed.

Lemma combinations_as_picks (columns : list string) (k : nat) :
  combinations columns k
  = List.map (pick columns) (combinations (seq 0 (length columns)) k).
Proof.
  rewrite (columns_as_picks columns) at 1. unfold pick. apply combinations_map.
Qed.

(** *** The three loops of the search *)

Section Search.
Variables (variants : list ChartVariant) (types : gmap string string)
  (rows : list (gmap string JsValue)).

Let accepts := someVariantAccepts variants types rows.

Lemma tryVariants_accepts (combo : list string) :
  tryVariants variants combo types rows
  = if accepts combo then Some combo else None.
Proof.
  unfold accepts, someVariantAccepts.
  induction variants as [|v vs IH]; simpl; [reflexivity|].
  destruct (isCompatible v combo types (Some rows)); [reflexivity|exact IH].
Qed.

Lemma tryCombos_Some (combos : list (list string)) (found : list string) :
  tryCombos variants combos types rows = Some found ->
  exists pre post,
    combos = pre ++ found :: post
    /\ accepts found = true
    /\ List.Forall (fun c => accepts c = false) pre.
Proof.
  induction combos as [|c combos IH]; simpl; [discriminate|].
  rewrite tryVariants_accepts. destruct (accepts c) eqn:E.
  - intros [= <-]. exists [], combos. repeat split; [assumption|constructor].
  - intros H. destruct (IH H) as [pre [post [-> [Ha Hpre]]]].
    exists (c :: pre), post. repeat split; [assumption|now constructor].
Qed.

Lemma tryCombos_None (combos : list (list string)) :
  tryCombos variants combos types rows = None ->
  List.Forall (fun c => accepts c = false) combos.
Proof.
  induction combos as [|c combos IH]; simpl; [constructor|].
  rewrite tryVariants_accepts. destruct (accepts c) eqn:E; [discriminate|].
  intros H. constructor; [assumption|now apply IH].
Qed.

Lemma trySizes_Some (columns : list string) (ks : list nat) (found : list string) :
  trySizes variants columns ks types rows = Some found ->
  exists ks1 k ks2,
    ks = ks1 ++ k :: ks2
    /\ (forall k', In k' ks1 ->
          List.Forall (fun c => accepts c = false) (combinations columns k'))
    /\ tryCombos variants (combinations columns k) types rows = Some found.
Proof.
  induction ks as [|k ks IH]; simpl; [discriminate|].
  destruct (tryCombos variants (combinations columns k) types rows) as [c|] eqn:E.
  - intros [= <-]. exists [], k, ks. repeat split; [|assumption]. intros k' [].
  - intros H. destruct (IH H) as [ks1 [k0 [ks2 [-> [Hbefore Hk0]]]]].
    exists (k :: ks1), k0, ks2. repeat split; [|assumption].
    intros k' [<-|Hk']; [now apply tryCombos_None|now apply Hbefore].
Qed.

Lemma trySizes_None (columns : list string) (ks : list nat) :
  trySizes variants columns ks types rows = None ->
  forall k, In k ks ->
    List.Forall (fun c => accepts c = false) (combinations columns k).
Proof.
  induction ks as [|k ks IH]; simpl; [intros _ k []|].
  destruct (tryCombos variants (combinations columns k) types rows) as [c|] eqn:E;
    [discriminate|].
  intros H k' [<-|Hk']; [now apply tryCombos_None|now apply IH].
Qed.

End Search.

Lemma seq_split_before (ks1 ks2 : list nat) (k a len : nat) :
  seq a len = ks1 ++ k :: ks2 ->
  forall k', a <= k' < k -> In k' ks1.
Proof.
  revert a len. induction ks1 as [|x ks1 IH]; intros a len H k' Hk'.
  - destruct len; simpl in H; [discriminate|]. injection H as -> _. lia.
  - destruct len; simpl in H; [discriminate|]. injection H as <- H.
    destruct (Nat.eq_dec k' a) as [->|Hne]; [now left|].
    right. apply (IH (S a) len H). lia.
Qed.

Lemma StronglySorted_after {A : Type} (R : A -> A -> Prop) (l1 l2 : list A) (x : A) :
  StronglySorted R (l1 ++ x :: l2) -> List.Forall (R x) l2.
Proof.
  induction l1 as [|y l1 IH]; simpl; intros H; inversion H; subst; auto.
Qed.

(** a selection of [k] positions picks one of the [k]-combinations *)
Lemma pick_in_combinations (columns : list string) (idxs : list nat) :
  1 <= length idxs ->
  increasingFrom 0 idxs (length columns) = true ->
  In idxs (combinations (seq 0 (length columns)) (length idxs))
  /\ In (pick columns idxs) (combinations columns (length idxs)).
Proof.
  intros Hlen Hinc.
  assert (Hin : In idxs (combinations (seq 0 (length columns)) (length idxs)))
    by (apply combinations_seq_In; auto).
  split; [assumption|]. rewrite combinations_as_picks. now apply in_map.
Qed.

(** C6.  [getAutoSelectColumns] returns the first combination of columns
    that some variant of the requested family accepts, the combinations
    being taken by increasing size from 1 to 4 and, within a size, in the
    natural order of the columns; it returns nothing exactly when no
    combination of 1 to 4 columns is accepted.  A combination is the
    columns at strictly increasing positions of the column list.  The
    variants tried are those of the family, and for 'All' those of every
    family. *)
Theorem getAutoSelectColumns_first_compatible (rt : JsRuntime)
  (chartType : string) (columns : list string) (types : gmap string string)
  (rows : list (gmap string JsValue)) :
  let accepts := someVariantAccepts (variantsFor rt chartType) types rows in
  let n := length columns in
  match getAutoSelectColumns rt chartType columns types rows with
  | Some combo =>
      exists idxs,
        isSelection n idxs = true
        /\ combo = pick columns idxs
        /\ accepts combo = true
        /\ forall earlier,
             isSelection n earlier = true ->
             searchedBefore earlier idxs = true ->
             accepts (pick columns earlier) = false
  | None =>
      forall idxs, isSelection n idxs = true -> accepts (pick columns idxs) = false
  end
  /\ (forall v, In v (variantsFor rt "All") <->
        exists family variants,
          In (family, variants) (CHART_VARIANTS rt) /\ In v variants)
  /\ (forall family variants,
        In (family, variants) (CHART_VARIANTS rt) ->
        variantsFor rt family = variants).
Proof.
  intros accepts n. split; [|split].
  - unfold getAutoSelectColumns. fold n.
    destruct (trySizes _ columns _ types rows) as [combo|] eqn:E.
    + apply trySizes_Some in E. destruct E as [ks1 [k [ks2 [Hks [Hbefore Hk]]]]].
      fold accepts in Hbefore.
      assert (Hkin : In k (seq 1 (Nat.min 4 n)))
        by (rewrite Hks; apply in_or_app; right; now left).
      apply in_seq in Hkin.
      apply tryCombos_Some in Hk. fold accepts in Hk.
      destruct Hk as [pre [post [Hsplit [Hacc Hpre]]]].
      rewrite combinations_as_picks in Hsplit. fold n in Hsplit.
      apply map_eq_app in Hsplit. destruct Hsplit as [ipre [irest [Hidx [Hipre Hrest]]]].
      apply map_eq_cons in Hrest. destruct Hrest as [idxs [ipost [-> [Hpick _]]]].
      assert (Hin : In idxs (combinations (seq 0 n) k))
        by (rewrite Hidx; apply in_or_app; right; now left).
      apply combinations_seq_In in Hin. destruct Hin as [_ [Hlen Hinc]].
      change (0 + n) with n in Hinc.
      exists idxs. split; [|split; [now symmetry|split; [assumption|]]].
      * unfold isSelection. rewrite Hlen, Hinc.
        rewrite !andb_true_iff, !Nat.leb_le. repeat split; lia.
      * intros earlier Hsel Hearlier. unfold isSelection in Hsel.
        rewrite !andb_true_iff, !Nat.leb_le in Hsel. destruct Hsel as [[He1 He4] Heinc].
        destruct (pick_in_combinations columns earlier He1 Heinc) as [Hei Hec].
        fold n in Hei.
        unfold searchedBefore in Hearlier.
        rewrite orb_true_iff, andb_true_iff, Nat.ltb_lt, Nat.eqb_eq in Hearlier.
        destruct Hearlier as [Hshort|[Hsame Hlex]].
        -- assert (Hk1 : In (length earlier) ks1)
             by (apply (seq_split_before ks1 ks2 k 1 _ Hks); lia).
           specialize (Hbefore _ Hk1). rewrite List.Forall_forall in Hbefore.
           now apply Hbefore.
        -- rewrite Hsame, Hlen, Hidx in Hei.
           pose proof (combinations_seq_sorted n 0 k) as Hsorted.
           rewrite Hidx in Hsorted. apply StronglySorted_after in Hsorted.
           rewrite List.Forall_forall in Hsorted.
           apply in_app_or in Hei. destruct Hei as [Hei|[->|Hei]].
           ++ rewrite List.Forall_forall in Hpre. apply Hpre.
              rewrite <- Hipre. now apply in_map.
           ++ rewrite lexLt_irrefl in Hlex. discriminate.
           ++ apply Hsorted, lexLt_asym in Hei. congruence.
    + intros idxs Hsel. unfold isSelection in Hsel.
      rewrite !andb_true_iff, !Nat.leb_le in Hsel. destruct Hsel as [[H1 H4] Hinc].
      destruct (pick_in_combinations columns idxs H1 Hinc) as [_ Hc].
      pose proof (increasingFrom_length _ _ _ Hinc) as Hn. fold n in Hn.
      assert (Hk : In (length idxs) (seq 1 (Nat.min 4 n))) by (apply in_seq; lia).
      pose proof (trySizes_None _ _ _ _ _ E _ Hk) as Hall.
      rewrite List.Forall_forall in Hall. now apply Hall.
  - intros v. unfold variantsFor. simpl String.eqb. cbv iota.
    rewrite in_flat_map. split.
    + intros [[family vs] [Hin Hv]]. eauto.
    + intros [family [vs [Hin Hv]]]. exists (family, vs). auto.
  - intros family vs Hin. simpl in Hin.
    repeat (destruct Hin as [Hin|Hin]; [injection Hin as <- <-; reflexivity|]).
    destruct Hin.
Qed.

(** On the sample table: a line needs the date first, so the search
    skips the first column; 'All' settles for the first column alone; the
    key of the pseudo-family is spelled 'All'. *)
Example getAutoSelectColumns_followers :
  let columns := ["Platform"; "Date"; "Followers"] in
  getAutoSelectColumns Samples.refRuntime "Line" columns Samples.followersTypes
                       Samples.followers = Some ["Date"; "Followers"]
  /\ getAutoSelectColumns Samples.refRuntime "All" columns Samples.followersTypes
                          Samples.followers = Some ["Platform"]
  /\ getAutoSelectColumns Samples.refRuntime "all" columns Samples.followersTypes
                          Samples.followers = None.
Proof. vm_compute. repeat split; reflexivity. Qed.

End TableFacts.

(** ** Facts about the aggregation code *)

Module PivotFacts.
Import Js Charts Spec.

(** *** The order on strings *)



Section Sorting.
Variable rt : JsRuntime.



End Sorting.


Lemma lookup_map {A B : Type} (f : A -> B) (l : list A) (i : nat) :
  List.map f l !! i = f <$> l !! i.
Proof.
  revert i. induction l as [|x l IH]; intros [|i]; simpl; try reflexivity. apply IH.
Qed.

(** *** Dates in one fixed format

    For strings of one format, such as dates written YYYY-MM-DD, the
    order of the default sort is the order of the numbers their digits
    spell, hence the order of the dates. *)







End PivotFacts.

Module StackingFacts.
Import Js Charts Spec PivotFacts.

(** *** One turn of the loop *)

Lemma normalizeGroup_map (datasets : list (list JsNum)) (g : nat) :
  normalizeGroup datasets g
  = List.map (fun data => normalizeSeriesAt datasets data g) datasets.
Proof.
  unfold normalizeGroup, normalizeSeriesAt.
  destruct (jsGt (groupTotal datasets g) (Fin 0)); [reflexivity|].
  symmetry. apply List.map_id.
Qed.

Lemma normalizeSeriesAt_lookup_ne (datasets : list (list JsNum))
  (data : list JsNum) (p g : nat) :
  p <> g -> normalizeSeriesAt datasets data p !! g = data !! g.
Proof.
  intros H. unfold normalizeSeriesAt.
  destruct (jsGt _ _); [|reflexivity]. now apply list_lookup_insert_ne.
Qed.

Lemma entryOrZero_normalizeSeriesAt_ne (datasets : list (list JsNum))
  (data : list JsNum) (p g : nat) :
  p <> g -> entryOrZero (normalizeSeriesAt datasets data p) g = entryOrZero data g.
Proof. intros H. unfold entryOrZero. now rewrite normalizeSeriesAt_lookup_ne. Qed.

Lemma groupTotal_map_ext (f : list JsNum -> list JsNum)
  (datasets : list (list JsNum)) (g : nat) :
  (forall data, entryOrZero (f data) g = entryOrZero data g) ->
  groupTotal (List.map f datasets) g = groupTotal datasets g.
Proof.
  intros H. unfold groupTotal. generalize (Fin 0).
  induction datasets as [|d ds IH]; intros acc; simpl; [reflexivity|].
  now rewrite H, IH.
Qed.

(** a turn leaves the totals of the other positions as they are *)
Lemma groupTotal_normalizeGroup_ne (datasets : list (list JsNum)) (p g : nat) :
  p <> g -> groupTotal (normalizeGroup datasets p) g = groupTotal datasets g.
Proof.
  intros H. rewrite normalizeGroup_map. apply groupTotal_map_ext.
  intros data. now apply entryOrZero_normalizeSeriesAt_ne.
Qed.

Lemma normalizeSeries_ext (d1 d2 : list (list JsNum)) (ps : list nat)
  (data : list JsNum) :
  (forall p, In p ps -> groupTotal d1 p = groupTotal d2 p) ->
  normalizeSeries d1 ps data = normalizeSeries d2 ps data.
Proof.
  unfold normalizeSeries. revert data.
  induction ps as [|p ps IH]; intros data H; simpl; [reflexivity|].
  unfold normalizeSeriesAt at 2 4. rewrite (H p (or_introl eq_refl)).
  apply IH. intros q Hq. apply H. now right.
Qed.

(** *** The whole loop, series by series *)

Lemma normalize_fold_map (ps : list nat) (datasets : list (list JsNum)) :
  List.NoDup ps ->
  fold_left normalizeGroup ps datasets
  = List.map (normalizeSeries datasets ps) datasets.
Proof.
  intros Hnd. revert datasets.
  induction Hnd as [|p ps Hp Hnd IH]; intros datasets; simpl.
  - symmetry. apply List.map_id.
  - rewrite IH, normalizeGroup_map, List.map_map.
    apply List.map_ext. intros data.
    change (normalizeSeries datasets (p :: ps) data)
      with (normalizeSeries datasets ps (normalizeSeriesAt datasets data p)).
    apply normalizeSeries_ext. intros q Hq.
    rewrite <- normalizeGroup_map. apply groupTotal_normalizeGroup_ne.
    intros ->. contradiction.
Qed.


(** The same series come out of a parsed table with a profit and a loss
    column. *)
Example stackedDatasets_profit_loss :
  stackedDatasets Samples.refRuntime "proportional" ["team"; "profit"; "loss"]
    (list_to_map [("team", "categorical"); ("profit", "numeric"); ("loss", "numeric")])
    [ Samples.csvRow [("team", "a"); ("profit", "5"); ("loss", "-5")] ]
  = Some [[Fin 5]; [Fin (-5)]].
Proof. vm_compute. reflexivity. Qed.

End StackingFacts.

(** ** Facts about values over doubles *)

Module DoubleFacts.
Import Double DoubleSpec.

(** *** Equality of doubles *)







(** *** [Array.from(new Set(l))] *)











End DoubleFacts.

(** ** Facts about proportional stacking, in double precision *)

Module DoubleStackingFacts.
Import Double DoubleCharts DoubleSpec.

(** *** The total of a position *)

Lemma numberOrZero_counted (x : float) : numberOrZero x = counted x.
Proof.
  unfold numberOrZero, numTruthy, counted.
  destruct (PrimFloat.is_nan x), (PrimFloat.is_zero x); reflexivity.
Qed.

Lemma entryOrZero_counted (data : list float) (g : nat) :
  entryOrZero data g = from_option counted 0%float (data !! g).
Proof.
  unfold entryOrZero. destruct (data !! g); [apply numberOrZero_counted|reflexivity].
Qed.

Lemma groupTotal_positionTotal (datasets : list (list float)) (g : nat) :
  groupTotal datasets g = positionTotal datasets g.
Proof.
  unfold groupTotal, positionTotal.
  assert (H : forall acc,
             fold_left (fun a data => (a + entryOrZero data g)%float) datasets acc
             = fold_left PrimFloat.add
                 (List.map (fun data => from_option counted 0%float (data !! g))
                           datasets) acc); [|apply H].
  induction datasets as [|d ds IH]; intros acc; simpl; [reflexivity|].
  now rewrite IH, entryOrZero_counted.
Qed.

Lemma positionTotal_ext (d1 d2 : list (list float)) (g : nat) :
  List.map (fun data => (data !! g)) d1 = List.map (fun data => (data !! g)) d2 ->
  positionTotal d1 g = positionTotal d2 g.
Proof.
  intros H. unfold positionTotal. f_equal.
  rewrite <- (List.map_map (fun data => (data !! g))
                           (from_option counted 0%float) d1).
  rewrite <- (List.map_map (fun data => (data !! g))
                           (from_option counted 0%float) d2).
  now rewrite H.
Qed.

(** *** One turn of the loop *)

Lemma double_normalizeGroup_map (datasets : list (list float)) (g : nat) :
  rectangular (S g) datasets ->
  normalizeGroup datasets g
  = List.map (fun data => normalizeSeriesAt datasets data g) datasets.
Proof.
  intros R. unfold normalizeGroup. rewrite groupTotal_positionTotal.
  destruct (0 <? positionTotal datasets g)%float eqn:E.
  - apply List.map_ext_in. intros data Hd.
    unfold normalizeSeriesAt, normalizedEntry, percentageShare.
    rewrite E, entryOrZero_counted.
    destruct (data !! g) as [v|] eqn:Ev; [reflexivity|].
    apply lookup_ge_None in Ev. unfold rectangular in R.
    rewrite List.Forall_forall in R. specialize (R data Hd). lia.
  - symmetry. erewrite List.map_ext_in; [apply List.map_id|].
    intros data Hd. unfold normalizeSeriesAt, normalizedEntry. rewrite E.
    destruct (data !! g) as [v|] eqn:Ev; [|reflexivity].
    now apply list_insert_id.
Qed.

Lemma double_normalizeSeriesAt_length (datasets : list (list float)) (data : list float)
  (p : nat) : length (normalizeSeriesAt datasets data p) = length data.
Proof.
  unfold normalizeSeriesAt. destruct (data !! p); [apply length_insert|reflexivity].
Qed.

Lemma double_normalizeSeriesAt_lookup_ne (datasets : list (list float))
  (data : list float) (p g : nat) :
  p <> g -> normalizeSeriesAt datasets data p !! g = data !! g.
Proof.
  intros H. unfold normalizeSeriesAt.
  destruct (data !! p); [|reflexivity]. now apply list_lookup_insert_ne.
Qed.

Lemma double_normalizeSeriesAt_lookup_eq (datasets : list (list float))
  (data : list float) (g : nat) :
  normalizeSeriesAt datasets data g !! g
  = normalizedEntry datasets g <$> data !! g.
Proof.
  unfold normalizeSeriesAt. destruct (data !! g) as [v|] eqn:E; simpl.
  - apply list_lookup_insert_eq. now apply lookup_lt_Some in E.
  - exact E.
Qed.

(** a turn leaves the totals of the other positions as they are *)
Lemma positionTotal_normalize_ne (totals datasets : list (list float)) (p g : nat) :
  p <> g ->
  positionTotal (List.map (fun data => normalizeSeriesAt totals data p) datasets) g
  = positionTotal datasets g.
Proof.
  intros H. apply positionTotal_ext. rewrite List.map_map.
  apply List.map_ext. intros data. now apply double_normalizeSeriesAt_lookup_ne.
Qed.

Lemma rectangular_map (n : nat) (f : list float -> list float)
  (datasets : list (list float)) :
  (forall data, length (f data) = length data) ->
  rectangular n datasets -> rectangular n (List.map f datasets).
Proof.
  intros Hf R. unfold rectangular in *. apply List.Forall_map.
  eapply List.Forall_impl; [|exact R]. intros data H. simpl. now rewrite Hf.
Qed.

Lemma rectangular_le (n m : nat) (datasets : list (list float)) :
  n <= m -> rectangular m datasets -> rectangular n datasets.
Proof.
  intros H R. unfold rectangular in *.
  eapply List.Forall_impl; [|exact R]. intros data Hd. simpl in Hd. lia.
Qed.

Lemma double_normalizeSeries_ext (d1 d2 : list (list float)) (ps : list nat)
  (data : list float) :
  (forall p, In p ps -> positionTotal d1 p = positionTotal d2 p) ->
  normalizeSeries d1 ps data = normalizeSeries d2 ps data.
Proof.
  unfold normalizeSeries. revert data.
  induction ps as [|p ps IH]; intros data H; simpl; [reflexivity|].
  assert (E : normalizeSeriesAt d1 data p = normalizeSeriesAt d2 data p).
  { unfold normalizeSeriesAt, normalizedEntry.
    now rewrite (H p (or_introl eq_refl)). }
  rewrite E. apply IH. intros q Hq. apply H. now right.
Qed.

(** *** The whole loop, series by series *)

Lemma double_normalize_fold_map (n : nat) (ps : list nat) (datasets : list (list float)) :
  List.NoDup ps -> (forall p, In p ps -> p < n) -> rectangular n datasets ->
  fold_left normalizeGroup ps datasets
  = List.map (normalizeSeries datasets ps) datasets.
Proof.
  intros Hnd. revert datasets.
  induction Hnd as [|p ps Hp Hnd IH]; intros datasets Hlt R; simpl.
  - symmetry. apply List.map_id.
  - assert (Rp : rectangular (S p) datasets).
    { apply (rectangular_le _ n); [|exact R].
      specialize (Hlt p (or_introl eq_refl)). lia. }
    rewrite (double_normalizeGroup_map datasets p Rp).
    rewrite IH.
    + rewrite List.map_map. apply List.map_ext. intros data.
      change (normalizeSeries datasets (p :: ps) data)
        with (normalizeSeries datasets ps (normalizeSeriesAt datasets data p)).
      apply double_normalizeSeries_ext. intros q Hq.
      apply positionTotal_normalize_ne. intros ->. contradiction.
    + intros q Hq. apply Hlt. now right.
    + apply rectangular_map; [|exact R].
      intros data. apply double_normalizeSeriesAt_length.
Qed.

Lemma double_normalizeSeries_length (datasets : list (list float)) (ps : list nat)
  (data : list float) :
  length (normalizeSeries datasets ps data) = length data.
Proof.
  unfold normalizeSeries. revert data.
  induction ps as [|p ps IH]; intros data; simpl; [reflexivity|].
  rewrite IH. apply double_normalizeSeriesAt_length.
Qed.

Lemma double_normalizeSeries_lookup_notin (datasets : list (list float)) (ps : list nat)
  (data : list float) (g : nat) :
  ~ In g ps -> normalizeSeries datasets ps data !! g = data !! g.
Proof.
  unfold normalizeSeries. revert data.
  induction ps as [|p ps IH]; intros data H; simpl; [reflexivity|].
  rewrite IH by (intros Hin; apply H; now right).
  apply double_normalizeSeriesAt_lookup_ne. intros ->. apply H. now left.
Qed.

Lemma double_normalizeSeries_lookup_in (datasets : list (list float)) (ps : list nat)
  (data : list float) (g : nat) :
  List.NoDup ps -> In g ps ->
  normalizeSeries datasets ps data !! g = normalizedEntry datasets g <$> data !! g.
Proof.
  unfold normalizeSeries. intros Hnd. revert data.
  induction Hnd as [|p ps Hp Hnd IH]; intros data Hin; simpl; [destruct Hin|].
  destruct Hin as [->|Hin].
  - fold (normalizeSeries datasets ps (normalizeSeriesAt datasets data g)).
    rewrite double_normalizeSeries_lookup_notin by assumption.
    apply double_normalizeSeriesAt_lookup_eq.
  - rewrite IH by assumption. f_equal.
    apply double_normalizeSeriesAt_lookup_ne. intros ->. contradiction.
Qed.

(** what the loop returns, for series that have an entry at every
    position *)
Lemma normalizeProportional_entries (groupCount : nat)
  (datasets : list (list float)) :
  rectangular groupCount datasets ->
  length (normalizeProportional groupCount datasets) = length datasets
  /\ forall i data,
       datasets !! i = Some data ->
       exists data',
         normalizeProportional groupCount datasets !! i = Some data'
         /\ length data' = length data
         /\ (forall g v, g < groupCount -> data !! g = Some v ->
               data' !! g
               = Some (if (0 <? positionTotal datasets g)%float
                       then percentageShare (positionTotal datasets g) v
                       else v))
         /\ (forall g, groupCount <= g -> data' !! g = data !! g).
Proof.
  intros R.
  assert (Hmap : normalizeProportional groupCount datasets
                 = List.map (normalizeSeries datasets (seq 0 groupCount)) datasets).
  { apply (double_normalize_fold_map groupCount); [apply List.seq_NoDup| |exact R].
    intros p Hp. apply in_seq in Hp. lia. }
  split; [rewrite Hmap; apply List.length_map|].
  intros i data Hi.
  exists (normalizeSeries datasets (seq 0 groupCount) data).
  split; [now rewrite Hmap, PivotFacts.lookup_map, Hi|].
  split; [apply double_normalizeSeries_length|]. split.
  - intros g v Hg Hv.
    rewrite double_normalizeSeries_lookup_in; [|apply List.seq_NoDup|apply in_seq; lia].
    now rewrite Hv.
  - intros g Hg. apply double_normalizeSeries_lookup_notin.
    intros Hin. apply in_seq in Hin. lia.
Qed.

(** C4, as the code has it, in double precision.  The series [10, 30]
    and [30, 10] become [25, 75] and [75, 25], and each of the two
    positions then adds up to 100.  In general, for series that have an
    entry at every axis position, an entry at a position whose total over
    the series is greater than 0 is replaced by its percentage share,
    100 times the entry (0 for an entry that is NaN) divided by that
    total; an entry at a position whose total is not greater than 0 (zero,
    negative or NaN) is left as it is, so a position of zeros stays at
    zero.  The function is total: no division raises. *)
Theorem normalizeProportional_shares :
  (normalizeProportional 2 [[10; 30]; [30; 10]]%float
   = [[25; 75]; [75; 25]]%float
   /\ positionTotal [[25; 75]; [75; 25]]%float 0 = 100%float
   /\ positionTotal [[25; 75]; [75; 25]]%float 1 = 100%float)
  /\ forall (groupCount : nat) (datasets : list (list float)),
       rectangular groupCount datasets ->
       length (normalizeProportional groupCount datasets) = length datasets
       /\ forall i data,
            datasets !! i = Some data ->
            exists data',
              normalizeProportional groupCount datasets !! i = Some data'
              /\ length data' = length data
              /\ (forall g v, g < groupCount -> data !! g = Some v ->
                    data' !! g
                    = Some (if (0 <? positionTotal datasets g)%float
                            then percentageShare (positionTotal datasets g) v
                            else v))
              /\ (forall g, groupCount <= g -> data' !! g = data !! g).
Proof.
  split; [repeat split; vm_compute; reflexivity|].
  apply normalizeProportional_entries.
Qed.

Lemma normalizeProportional_shares_witness :
  rectangular 2 [[10; 30]; [30; 10]]%float
  /\ exists data',
       normalizeProportional 2 [[10; 30]; [30; 10]]%float !! 1 = Some data'
       /\ length data' = 2
       /\ data' !! 0 = Some 75%float
       /\ data' !! 1 = Some 25%float.
Proof.
  assert (R : rectangular 2 [[10; 30]; [30; 10]]%float).
  { repeat constructor. }
  split; [exact R|].
  destruct (proj2 (proj2 normalizeProportional_shares 2
                     [[10; 30]; [30; 10]]%float R)
              1 [30; 10]%float eq_refl) as (data' & E & L & V & _).
  exists data'. split; [exact E|]. split; [exact L|]. split.
  - rewrite (V 0 30%float); [reflexivity|lia|reflexivity].
  - rewrite (V 1 10%float); [reflexivity|lia|reflexivity].
Defined.

(** C4 as stated fails on the series [5] and [-5]: the total of the one
    axis position is 0, yet its entries are left at 5 and -5, not at 0. *)
Lemma normalizeProportional_zero_total_counterexample :
  groupTotal [[5]; [-5]]%float 0 = 0%float
  /\ normalizeProportional 1 [[5]; [-5]]%float = [[5]; [-5]]%float.
Proof. vm_compute. split; reflexivity. Qed.

(** An entry that is NaN counts as 0, in the total and in its share. *)
Example normalizeProportional_NaN_entry :
  normalizeProportional 1 [[PrimFloat.nan]; [5]]%float = [[0]; [100]]%float.
Proof. vm_compute. reflexivity. Qed.

(** A negative total is not normalised either. *)
Example normalizeProportional_negative_total :
  normalizeProportional 1 [[-10]; [-30]]%float = [[-10]; [-30]]%float.
Proof. vm_compute. reflexivity. Qed.

(** The shares are rounded: those of 19, 24 and 24 add up to a little
    less than 100. *)
Example normalizeProportional_rounding :
  (groupTotal (normalizeProportional 1 [[19]; [24]; [24]]%float) 0 <? 100)%float
  = true.
Proof. vm_compute. reflexivity. Qed.

End DoubleStackingFacts.

(** ** Facts about the multi-series pivot, in double precision *)

Module DoublePivotFacts.
Import Double DoubleCharts DoubleSpec DoubleFacts.

(** *** The order of the default sort *)


Section Sorting.
Variable h : Host.











(** *** The sum of the cells *)



End Sorting.





(** the three series of the sample table *)
Example followers_pivot_doubles :
  multiSeriesLine DoubleSamples.refHost ["Date"; "Platform"; "Followers"]
                  Samples.followersTypes DoubleSamples.followers
  = Some ([VStr "2024-01-01"; VStr "2024-01-15"],
          [ {| seriesLabel := VStr "Instagram";
               seriesData := [Some 12500%float; Some 12800%float] |};
            {| seriesLabel := VStr "TikTok";
               seriesData := [Some 8500%float; Some 9300%float] |};
            {| seriesLabel := VStr "LinkedIn";
               seriesData := [Some 3200%float; None] |} ]).
Proof. vm_compute. reflexivity. Qed.

(** the mean is rounded: that of 0.1, 0.2 and 0.3 is not 0.2 *)
Example mean_rounding :
  (mean [DoubleSamples.parseDecimal "0.1"; DoubleSamples.parseDecimal "0.2";
         DoubleSamples.parseDecimal "0.3"]
   =? DoubleSamples.parseDecimal "0.2")%float = false.
Proof. vm_compute. reflexivity. Qed.

End DoublePivotFacts.

Module BinningFacts.
Import Js Charts Spec.

(** *** Finite arithmetic *)

Lemma jsSub_finite (a b : Q) :
  exists c, jsSub (Fin a) (Fin b) = Fin c /\ c == a - b.
Proof.
  eexists. split; [reflexivity|]. rewrite !Qred_correct. ring.
Qed.

Lemma jsDiv_finite (a b : Q) :
  ~ b == 0 -> exists c, jsDiv (Fin a) (Fin b) = Fin c /\ c == a / b.
Proof.
  intros Hb. simpl. destruct (Qeq_bool b 0) eqn:E.
  - apply Qeq_bool_iff in E. contradiction.
  - eexists. split; [reflexivity|]. apply Qred_correct.
Qed.

Lemma Qeq_bool_inject_Z (x y : Z) :
  Qeq_bool (inject_Z x) (inject_Z y) = (x =? y)%Z.
Proof.
  unfold Qeq_bool, inject_Z. simpl. now rewrite !Z.mul_1_r.
Qed.

Lemma pred_as_number (n : nat) :
  1 <= n -> jsSub (ofNat n) (Fin 1) = ofNat (n - 1).
Proof.
  intros H. unfold jsSub, ofNat, ofZ, jsNeg, jsAdd, fin. f_equal.
  rewrite <- (inject_Z_Qred (Z.of_nat (n - 1))). apply Qred_complete.
  rewrite Qred_correct. unfold Qeq, inject_Z. simpl. lia.
Qed.

Lemma increment_at (counts : list nat) (j : nat) :
  increment counts (ofNat j) = alter S j counts.
Proof.
  assert (H : Qle_bool 0 (inject_Z (Z.of_nat j)) = true).
  { apply Qle_bool_iff. unfold Qle, inject_Z. simpl. lia. }
  unfold increment, ofNat, ofZ, isInteger.
  rewrite inject_Z_Qred, H, Qfloor_Z, Nat2Z.id. reflexivity.
Qed.

(** *** Smallest and largest value *)

Local Open Scope Q_scope.

Lemma fold_jsMin_finite (l : list Q) (a : Q) :
  exists m, fold_left jsMin (List.map Fin l) (Fin a) = Fin m
            /\ m <= a /\ (forall v, In v l -> m <= v) /\ (m = a \/ In m l).
Proof.
  revert a. induction l as [|x l IH]; intros a; simpl.
  - exists a. repeat split; [apply Qle_refl|intros v []|now left].
  - destruct (Qle_bool a x) eqn:E; simpl.
    + apply Qle_bool_iff in E. destruct (IH a) as [m [Hm [Hle [Hall Hin]]]].
      exists m. repeat split; [exact Hm|exact Hle| |].
      * intros v [<-|Hv]; [now apply Qle_trans with a|now apply Hall].
      * destruct Hin; [now left|right; now right].
    + assert (Hlt : x < a).
      { apply Qnot_le_lt. intros H. apply Qle_bool_iff in H. congruence. }
      destruct (IH x) as [m [Hm [Hle [Hall Hin]]]].
      exists m. repeat split; [exact Hm| | |].
      * apply Qle_trans with x; [exact Hle|now apply Qlt_le_weak].
      * intros v [<-|Hv]; [exact Hle|now apply Hall].
      * right. destruct Hin as [->|Hin]; [now left|now right].
Qed.

Lemma fold_jsMax_finite (l : list Q) (a : Q) :
  exists m, fold_left jsMax (List.map Fin l) (Fin a) = Fin m
            /\ a <= m /\ (forall v, In v l -> v <= m) /\ (m = a \/ In m l).
Proof.
  revert a. induction l as [|x l IH]; intros a; simpl.
  - exists a. repeat split; [apply Qle_refl|intros v []|now left].
  - destruct (Qle_bool x a) eqn:E; simpl.
    + apply Qle_bool_iff in E. destruct (IH a) as [m [Hm [Hle [Hall Hin]]]].
      exists m. repeat split; [exact Hm|exact Hle| |].
      * intros v [<-|Hv]; [now apply Qle_trans with a|now apply Hall].
      * destruct Hin; [now left|right; now right].
    + assert (Hlt : a < x).
      { apply Qnot_le_lt. intros H. apply Qle_bool_iff in H. congruence. }
      destruct (IH x) as [m [Hm [Hle [Hall Hin]]]].
      exists m. repeat split; [exact Hm| | |].
      * apply Qle_trans with x; [now apply Qlt_le_weak|exact Hle].
      * intros v [<-|Hv]; [exact Hle|now apply Hall].
      * right. destruct Hin as [->|Hin]; [now left|now right].
Qed.

Lemma minOf_finite (x : Q) (l : list Q) :
  exists m, minOf (List.map Fin (x :: l)) = Fin m
            /\ (forall v, In v (x :: l) -> m <= v) /\ In m (x :: l).
Proof.
  unfold minOf. simpl.
  destruct (fold_jsMin_finite l x) as [m [Hm [Hle [Hall Hin]]]].
  exists m. repeat split; [exact Hm| |].
  - intros v [<-|Hv]; [exact Hle|now apply Hall].
  - destruct Hin as [->|Hin]; [now left|now right].
Qed.

Lemma maxOf_finite (x : Q) (l : list Q) :
  exists m, maxOf (List.map Fin (x :: l)) = Fin m
            /\ (forall v, In v (x :: l) -> v <= m) /\ In m (x :: l).
Proof.
  unfold maxOf. simpl.
  destruct (fold_jsMax_finite l x) as [m [Hm [Hle [Hall Hin]]]].
  exists m. repeat split; [exact Hm| |].
  - intros v [<-|Hv]; [exact Hle|now apply Hall].
  - destruct Hin as [->|Hin]; [now left|now right].
Qed.

(** *** The bin of a value *)

Lemma sturgesBinCount_ge_5 (n : nat) : (5 <= sturgesBinCount n)%nat.
Proof. unfold sturgesBinCount. lia. Qed.

Lemma ofNat_positive (n : nat) : (1 <= n)%nat -> 0 < inject_Z (Z.of_nat n).
Proof. intros H. unfold Qlt, inject_Z. simpl. lia. Qed.

(** With a smallest value below the largest, every value falls into one
    of the bins, and the largest into the last. *)
Lemma binIndex_finite (m M v bs : Q) (bc : nat) :
  (1 <= bc)%nat -> m < M -> m <= v -> v <= M ->
  bs == (M - m) / inject_Z (Z.of_nat bc) ->
  exists j, (j < bc)%nat
            /\ binIndex (Fin m) (Fin bs) bc (Fin v) = ofNat j
            /\ (v == M -> j = (bc - 1)%nat).
Proof.
  intros Hbc Hlt Hlo Hhi Hbs.
  pose proof (ofNat_positive bc Hbc) as Hc.
  assert (Hcne : ~ inject_Z (Z.of_nat bc) == 0) by (intros E; rewrite E in Hc; lra).
  assert (Hwidth : inject_Z (Z.of_nat bc) * bs == M - m)
    by (rewrite Hbs; field; exact Hcne).
  assert (Hpos : 0 < bs).
  { rewrite Hbs. apply Qlt_shift_div_l; [exact Hc|]. lra. }
  assert (Hbne : ~ bs == 0) by (intros E; rewrite E in Hpos; lra).
  unfold binIndex.
  destruct (jsSub_finite v m) as [d [-> Hd]].
  destruct (jsDiv_finite d bs Hbne) as [q [-> Hq]].
  assert (Hq0 : 0 <= q).
  { rewrite Hq. apply Qle_shift_div_l; [exact Hpos|]. lra. }
  assert (Hq1 : q <= inject_Z (Z.of_nat bc)).
  { rewrite Hq. apply Qle_shift_div_r; [exact Hpos|]. lra. }
  assert (Hz0 : (0 <= Qfloor q)%Z).
  { change 0%Z with (Qfloor 0). now apply Qfloor_resp_le. }
  assert (Hz1 : (Qfloor q <= Z.of_nat bc)%Z).
  { rewrite <- (Qfloor_Z (Z.of_nat bc)). now apply Qfloor_resp_le. }
  unfold jsFloor, numStrictEquals, ofNat at 1, ofZ. simpl isNaN. simpl negb.
  simpl numSameValueZero. rewrite Qeq_bool_inject_Z. simpl andb.
  destruct (Qfloor q =? Z.of_nat bc)%Z eqn:E.
  - rewrite pred_as_number by exact Hbc. exists (bc - 1)%nat.
    split; [lia|]. split; [reflexivity|]. intros _. reflexivity.
  - apply Z.eqb_neq in E. exists (Z.to_nat (Qfloor q)).
    split; [lia|]. split.
    + unfold ofNat, ofZ. rewrite Z2Nat.id by exact Hz0. reflexivity.
    + intros Hv. exfalso. apply E.
      rewrite <- (Qfloor_Z (Z.of_nat bc)). apply Qfloor_comp.
      rewrite Hq, Hd, Hv, <- Hwidth. field. exact Hbne.
Qed.

(** *** Counting *)

Lemma list_sum_alter_S (counts : list nat) (j : nat) :
  (j < length counts)%nat -> list_sum (alter S j counts) = S (list_sum counts).
Proof.
  revert j. induction counts as [|c counts IH]; intros [|j]; simpl; try lia.
  intros H. pose proof (IH j ltac:(lia)) as E.
  change (alter S j counts) with (list_alter S j counts) in E. lia.
Qed.

Lemma lookup_repeat {A : Type} (x : A) (n i : nat) :
  (i < n)%nat -> repeat x n !! i = Some x.
Proof.
  revert i. induction n as [|n IH]; intros [|i] H; simpl; try lia; [reflexivity|].
  apply IH. lia.
Qed.

Lemma list_sum_zeros (n : nat) : list_sum (repeat 0%nat n) = 0%nat.
Proof. induction n as [|n IH]; simpl; [reflexivity|exact IH]. Qed.

Section Counting.
Variables (lo width : JsNum) (bc : nat).

Let bin (v : Q) : JsNum := binIndex lo width bc (Fin v).

Let count (counts : list nat) (values : list Q) : list nat :=
  fold_left (fun counts v => increment counts (binIndex lo width bc v))
            (List.map Fin values) counts.

Lemma count_all (values : list Q) (counts : list nat) :
  length counts = bc ->
  (forall v, In v values -> exists j, (j < bc)%nat /\ bin v = ofNat j) ->
  length (count counts values) = bc
  /\ list_sum (count counts values) = (list_sum counts + length values)%nat
  /\ forall i k, counts !! i = Some k ->
       exists k', count counts values !! i = Some k'
                  /\ (k <= k')%nat
                  /\ ((exists v, In v values /\ bin v = ofNat i) -> (k < k')%nat).
Proof.
  unfold count, bin. revert counts.
  induction values as [|x values IH]; intros counts Hlen Hbins; simpl.
  - repeat split; [exact Hlen|lia|].
    intros i k Hk. exists k. repeat split; [exact Hk|lia|].
    intros [v [[] _]].
  - destruct (Hbins x (or_introl eq_refl)) as [j [Hj Hx]].
    rewrite Hx, increment_at.
    destruct (IH (alter S j counts)) as [IHlen [IHsum IHbins]].
    + now rewrite length_alter.
    + intros v Hv. apply Hbins. now right.
    + repeat split; [exact IHlen| |].
      * rewrite IHsum, list_sum_alter_S by lia. lia.
      * intros i k Hk. destruct (Nat.eq_dec i j) as [->|Hne].
        -- destruct (IHbins j (S k)) as [k' [Hk' [Hle Hlt]]].
           { now rewrite list_lookup_alter_eq, Hk. }
           exists k'. repeat split; [exact Hk'|lia|]. intros _. lia.
        -- destruct (IHbins i k) as [k' [Hk' [Hle Hlt]]].
           { now rewrite list_lookup_alter_ne. }
           exists k'. repeat split; [exact Hk'|exact Hle|].
           intros [v [[<-|Hv] Hb]].
           ++ rewrite Hx in Hb. unfold ofNat, ofZ in Hb.
              injection Hb as Hb. lia.
           ++ apply Hlt. eauto.
Qed.

End Counting.

(** Where the column holds two different values, the histogram counts
    every value once and the largest value in the last bin. *)
Lemma histogram_counts_every_value (values : list Q) :
  (exists a b, In a values /\ In b values /\ ~ a == b) ->
  exists h,
    histogram (List.map Fin values) = Some h
    /\ binCount h = sturgesBinCount (length values)
    /\ length (counts h) = binCount h
    /\ list_sum (counts h) = length values
    /\ exists last, counts h !! (binCount h - 1)%nat = Some last /\ (1 <= last)%nat.
Proof.
  intros [a [b [Ha [Hb Hab]]]].
  destruct values as [|x l]; [destruct Ha|].
  unfold histogram. rewrite List.length_map. simpl Nat.eqb. cbv iota.
  set (bc := sturgesBinCount (length (x :: l))).
  pose proof (sturgesBinCount_ge_5 (length (x :: l))) as Hbc. fold bc in Hbc.
  destruct (minOf_finite x l) as [m [Hm [Hmin Hmin_in]]].
  destruct (maxOf_finite x l) as [M [HM [Hmax HM_in]]].
  rewrite Hm, HM.
  assert (Hlt : m < M).
  { destruct (Qlt_le_dec m M) as [H|H]; [exact H|]. exfalso. apply Hab.
    pose proof (Hmin a Ha). pose proof (Hmax a Ha).
    pose proof (Hmin b Hb). pose proof (Hmax b Hb). lra. }
  destruct (jsSub_finite M m) as [w [Hw Hweq]]. rewrite Hw.
  assert (Hcne : ~ inject_Z (Z.of_nat bc) == 0).
  { pose proof (ofNat_positive bc ltac:(lia)) as Hc. intros E. rewrite E in Hc. lra. }
  change (ofNat bc) with (Fin (inject_Z (Z.of_nat bc))).
  destruct (jsDiv_finite w (inject_Z (Z.of_nat bc)) Hcne) as [bs [Hbs Hbseq]].
  rewrite Hbs.
  assert (Hwidth : bs == (M - m) / inject_Z (Z.of_nat bc)) by (now rewrite Hbseq, Hweq).
  destruct (count_all (Fin m) (Fin bs) bc (x :: l) (repeat 0%nat bc))
    as [Hlen [Hsum Hbins]].
  - apply repeat_length.
  - intros v Hv.
    destruct (binIndex_finite m M v bs bc ltac:(lia) Hlt (Hmin v Hv) (Hmax v Hv) Hwidth)
      as [j [Hj [Hidx _]]].
    eauto.
  - eexists. split; [reflexivity|]. cbn [binCount counts].
    split; [reflexivity|]. split; [exact Hlen|]. split.
    + rewrite Hsum, list_sum_zeros. reflexivity.
    + destruct (Hbins (bc - 1)%nat 0%nat) as [k' [Hk' [_ Hpos]]].
      * apply lookup_repeat. lia.
      * exists k'. split; [exact Hk'|]. apply Hpos. exists M. split; [exact HM_in|].
        destruct (binIndex_finite m M M bs bc ltac:(lia) Hlt (Hmin M HM_in)
                    (Hmax M HM_in) Hwidth) as [j [Hj [Hidx Hlast]]].
        rewrite Hidx, Hlast by reflexivity. reflexivity.
Qed.

(** the bin count of Sturges' rule on 1000 values *)
Example sturgesBinCount_1000 : sturgesBinCount 1000 = 11%nat.
Proof. vm_compute. reflexivity. Qed.

(** On a column that holds one value throughout, the bin width is zero,
    the index of every value is NaN and no bin counts anything. *)
Lemma binIndex_zero_width (v bs : Q) (bc : nat) :
  bs == 0 -> binIndex (Fin v) (Fin bs) bc (Fin v) = NaN.
Proof.
  intros Hbs. unfold binIndex.
  destruct (jsSub_finite v v) as [d [-> Hd]].
  assert (Hd0 : Qeq_bool d 0 = true) by (apply Qeq_bool_iff; rewrite Hd; ring).
  assert (Hb0 : Qeq_bool bs 0 = true) by (now apply Qeq_bool_iff).
  unfold jsDiv. rewrite Hb0, Hd0. reflexivity.
Qed.

Lemma histogram_constant_counts_nothing (v : Q) (n : nat) :
  exists h,
    histogram (List.map Fin (repeat v (S n))) = Some h
    /\ counts h = repeat 0%nat (binCount h)
    /\ list_sum (counts h) = 0%nat.
Proof.
  unfold histogram. rewrite List.length_map, repeat_length. simpl Nat.eqb. cbv iota.
  set (bc := sturgesBinCount (S n)).
  change (repeat v (S n)) with (v :: repeat v n).
  destruct (minOf_finite v (repeat v n)) as [m [Hm [_ Hmin_in]]].
  destruct (maxOf_finite v (repeat v n)) as [M [HM [_ HM_in]]].
  assert (Hall : forall x, In x (v :: repeat v n) -> x = v).
  { intros x [<-|Hx]; [reflexivity|]. now apply repeat_spec in Hx. }
  apply Hall in Hmin_in, HM_in. subst m M. rewrite Hm, HM.
  destruct (jsSub_finite v v) as [w [Hw Hweq]]. rewrite Hw.
  assert (Hcne : ~ inject_Z (Z.of_nat bc) == 0).
  { pose proof (sturgesBinCount_ge_5 (S n)) as H5. fold bc in H5.
    pose proof (ofNat_positive bc ltac:(lia)) as Hc. intros E. rewrite E in Hc. lra. }
  change (ofNat bc) with (Fin (inject_Z (Z.of_nat bc))).
  destruct (jsDiv_finite w (inject_Z (Z.of_nat bc)) Hcne) as [bs [Hbs Hbseq]].
  rewrite Hbs.
  assert (Hzero : bs == 0) by (rewrite Hbseq, Hweq; field; exact Hcne).
  eexists. split; [reflexivity|]. cbn [binCount counts].
  assert (Hcounts : forall l c,
             (forall x, In x l -> x = v) ->
             fold_left (fun counts x => increment counts (binIndex (Fin v) (Fin bs) bc x))
                       (List.map Fin l) c = c).
  { induction l as [|x l IH]; intros c Hl; simpl; [reflexivity|].
    rewrite (Hl x (or_introl eq_refl)), binIndex_zero_width by exact Hzero.
    simpl increment. apply IH. intros y Hy. apply Hl. now right. }
  rewrite Hcounts by exact Hall.
  split; [reflexivity|apply list_sum_zeros].
Qed.

(** C3 on a constant column.  For three rows that hold 5 the bin width
    is 0, the index of every value is NaN, and no bin counts anything:
    the five counts add up to 0, not to 3, and the largest value is in no
    bin. *)
Theorem histogram_constant_column :
  let values := histogramValues Samples.refRuntime Samples.constantColumn "x" in
  values = [Fin 5; Fin 5; Fin 5]
  /\ binIndex (minOf values)
              (jsDiv (jsSub (maxOf values) (minOf values)) (ofNat 5)) 5 (Fin 5)
     = NaN
  /\ exists h,
       histogram values = Some h
       /\ binCount h = 5%nat
       /\ counts h = [0; 0; 0; 0; 0]%nat
       /\ list_sum (counts h) = 0%nat
       /\ length values = 3%nat.
Proof.
  vm_compute. split; [reflexivity|]. split; [reflexivity|].
  eexists. split; [reflexivity|]. repeat split; reflexivity.
Qed.

End BinningFacts.

(** ** Facts about the rule table and the validation rules *)

Module RuleFacts.
Import Js Engine Spec Validation RuleNotions.

Ltac branches :=
  repeat match goal with
  | |- context [if ?c then _ else _] => destruct c
  end; try reflexivity.

Lemma filter_permutation {A : Type} (p : A -> bool) (l l' : list A) :
  Permutation l l' -> Permutation (List.filter p l) (List.filter p l').
Proof.
  induction 1; simpl.
  - constructor.
  - destruct (p x); [now constructor|assumption].
  - destruct (p x), (p y); try apply Permutation_refl. constructor.
  - etransitivity; eassumption.
Qed.

Lemma filter_none {A : Type} (p : A -> bool) (l : list A) :
  (forall x, In x l -> p x = false) -> List.filter p l = [].
Proof.
  induction l as [|a l IH]; intros H; simpl; [reflexivity|].
  rewrite (H a (or_introl eq_refl)). apply IH. intros x Hx. apply H. now right.
Qed.

Lemma forallb_flat_map {A B : Type} (p : B -> bool) (f : A -> list B) (l : list A) :
  (forall a, forallb p (f a) = true) -> forallb p (flat_map f l) = true.
Proof.
  intros H. induction l as [|a l IH]; simpl; [reflexivity|].
  rewrite forallb_app, H, IH. reflexivity.
Qed.

Lemma pushedByRules_pushable (rt : JsRuntime)
  (dimensions measures dates : list FieldAnalysis) (recordCount : nat) :
  forallb pushable (pushedByRules rt dimensions measures dates recordCount) = true.
Proof.
  unfold pushedByRules. rewrite !forallb_app.
  repeat (apply andb_true_iff; split).
  - unfold rule1. branches.
  - unfold rule2. branches.
  - unfold rule3. branches.
  - unfold rule4. branches.
  - unfold rule5. branches.
  - unfold rule6. branches.
  - unfold rule7. branches.
  - unfold rule8. branches.
  - unfold rule9. branches.
  - unfold rule10. branches.
  - unfold rule11. branches.
  - unfold rule12. branches.
  - unfold rule13. branches.
  - unfold rule14, stackableScenarios. simpl. branches.
  - unfold ruleHighCardinality. apply forallb_flat_map. intros a. branches.
  - unfold ruleLargeDataset. branches.
  - unfold ruleGeographic. branches.
Qed.

Lemma pushable_not_table (s : Suggestion.t) :
  pushable s = true -> String.eqb (Suggestion.type s) "table" = false.
Proof.
  unfold pushable. intros H. apply andb_prop in H as [H _]. apply andb_prop in H as [H _].
  apply existsb_exists in H. destruct H as [t [Hin Ht]].
  apply String.eqb_eq in Ht. rewrite Ht.
  simpl in Hin. repeat (destruct Hin as [<-|Hin]; [reflexivity|]). destruct Hin.
Qed.

Lemma pushable_priority (s : Suggestion.t) :
  pushable s = true -> (1 <= Suggestion.priority s <= 3)%Z.
Proof.
  unfold pushable. intros H. apply andb_prop in H as [H H3]. apply andb_prop in H as [_ H1].
  lia.
Qed.

Lemma collected_cases (rt : JsRuntime)
  (dimensions measures dates : list FieldAnalysis) (recordCount : nat) :
  (pushedByRules rt dimensions measures dates recordCount = []
   /\ collected rt dimensions measures dates recordCount = [tableFallback])
  \/ (pushedByRules rt dimensions measures dates recordCount <> []
      /\ collected rt dimensions measures dates recordCount
         = pushedByRules rt dimensions measures dates recordCount).
Proof.
  unfold collected.
  destruct (pushedByRules rt dimensions measures dates recordCount) eqn:E.
  - left. split; reflexivity.
  - right. split; [discriminate|reflexivity].
Qed.

Lemma sortByPriority_singleton (l : list Suggestion.t) (s : Suggestion.t) :
  sortByPriority l = [s] <-> l = [s].
Proof.
  split.
  - intros H. pose proof (EngineFacts.sortByPriority_perm l) as P. rewrite H in P.
    apply Permutation_length_1_inv. exact P.
  - intros ->. reflexivity.
Qed.

Lemma returned_suggestions (rt : JsRuntime)
  (dimensions measures dates : list FieldAnalysis) (recordCount : nat) :
  let pushed := pushedByRules rt dimensions measures dates recordCount in
  let returned :=
    suggestionsOf (applyTableauRules rt dimensions measures dates recordCount) in
  1 <= length returned
  /\ (forall s, In s returned -> (1 <= Suggestion.priority s <= 3)%Z)
  /\ (returned = [tableFallback] <-> pushed = [])
  /\ (forall s, In s returned -> Suggestion.type s = "table" ->
        returned = [tableFallback])
  /\ (forall s, In s returned -> Suggestion.type s <> "table" -> In s pushed).
Proof.
  intros pushed returned.
  assert (P : Permutation returned (collected rt dimensions measures dates recordCount))
    by apply EngineFacts.sortByPriority_perm.
  pose proof (pushedByRules_pushable rt dimensions measures dates recordCount) as HP.
  rewrite forallb_forall in HP. fold pushed in HP.
  destruct (collected_cases rt dimensions measures dates recordCount) as [[E C]|[E C]];
    fold pushed in E, C; rewrite C in P.
  - assert (R : returned = [tableFallback]).
    { apply Permutation_length_1_inv. symmetry. exact P. }
    rewrite R. repeat split; simpl; try lia; auto.
    + destruct H as [<-|[]]. simpl. lia.
    + destruct H as [<-|[]]. simpl. lia.
    + intros s [<-|[]] H. now contradiction H.
  - split; [|split; [|split; [|split]]].
    + rewrite (Permutation_length P). destruct pushed; [congruence|simpl; lia].
    + intros s Hs. apply pushable_priority, HP. eapply Permutation_in; eauto.
    + split; [|intros H; contradiction].
      intros R. rewrite R in P. apply Permutation_length_1_inv in P.
      assert (Hin : In tableFallback pushed) by (rewrite P; now left).
      apply HP, pushable_not_table in Hin. discriminate.
    + intros s Hs Ht. assert (Hin : In s pushed) by (eapply Permutation_in; eauto).
      apply HP, pushable_not_table in Hin. rewrite Ht in Hin. discriminate.
    + intros s Hs _. eapply Permutation_in; eauto.
Qed.


Ltac conditions :=
  repeat match goal with
  | |- context [if ?c then _ else _] =>
      let E := fresh "E" in destruct c eqn:E; [|try reflexivity]
  end;
  repeat match goal with
  | H : _ && _ = true |- _ => apply andb_prop in H; destruct H
  end.

Lemma pushedByRules_validated (rt : JsRuntime)
  (dimensions measures dates : list FieldAnalysis) (recordCount : nat) :
  forallb (fun s => narrowlyValidated recordCount s
                    || validated dimensions measures dates recordCount s)
          (pushedByRules rt dimensions measures dates recordCount) = true.
Proof.
  unfold pushedByRules. rewrite !forallb_app.
  repeat (apply andb_true_iff; split).
  - unfold rule1. conditions.
    cbn. unfold histogramRule.
    replace (length measures =? 1) with true by (symmetry; assumption).
    replace (length dimensions) with 0 by (symmetry; apply Nat.eqb_eq; assumption).
    replace (length dates) with 0 by (symmetry; apply Nat.eqb_eq; assumption).
    reflexivity.
  - unfold rule2. branches.
  - unfold rule3. conditions; cbn.
    unfold pieRule.
    replace (length measures =? 1) with true by (symmetry; assumption).
    replace (length dimensions =? 1) with true by (symmetry; assumption).
    rewrite Nat.ltb_antisym, E1. reflexivity.
  - unfold rule4. branches.
  - unfold rule5. conditions.
    cbn. unfold scatterRule.
    replace (length measures) with 2 by (symmetry; apply Nat.eqb_eq; assumption).
    simpl.
    change (recordCount <? 10) with (recordCount <=? 9).
    destruct (recordCount <=? 9); reflexivity.
  - unfold rule6. branches.
  - unfold rule7. branches.
  - unfold rule8. branches.
  - unfold rule9. branches.
  - unfold rule10. branches.
  - unfold rule11. branches.
  - unfold rule12. branches.
  - unfold rule13. conditions.
    cbn. unfold scatterRule.
    replace (length measures) with 2 by (symmetry; apply Nat.eqb_eq; assumption).
    simpl.
    change (recordCount <? 10) with (recordCount <=? 9).
    destruct (recordCount <=? 9); reflexivity.
  - unfold rule14, stackableScenarios. simpl. branches.
  - unfold ruleHighCardinality. apply forallb_flat_map. intros a. branches.
  - unfold ruleLargeDataset. branches.
  - unfold ruleGeographic. branches.
Qed.

(** X1.  [applyTableauRules] never returns an empty list.  Every
    suggestion it returns has priority 1, 2 or 3.  The [table] fallback is
    returned exactly when no rule fired, and then it is the only
    suggestion; every other suggestion returned was pushed by a rule. *)
Theorem applyTableauRules_never_empty (rt : JsRuntime)
  (dimensions measures dates : list FieldAnalysis) (recordCount : nat) :
  let pushed := pushedByRules rt dimensions measures dates recordCount in
  let returned :=
    suggestionsOf (applyTableauRules rt dimensions measures dates recordCount) in
  1 <= length returned
  /\ (forall s, In s returned -> (1 <= Suggestion.priority s <= 3)%Z)
  /\ (returned = [tableFallback] <-> pushed = [])
  /\ (forall s, In s returned -> Suggestion.type s = "table" ->
        returned = [tableFallback])
  /\ (forall s, In s returned -> Suggestion.type s <> "table" -> In s pushed).
Proof. apply returned_suggestions. Qed.

(** X2.  A suggestion returned by [applyTableauRules] passes
    [validateChartSuggestion] on the same dimensions, measures, dates and
    record count, unless its type is [line] or [heatmap], or it is a
    [scatter] on fewer than 10 records: the validation rules of [pie] and
    [histogram] are implied by the rules that suggest them, and a type
    without a validation rule is valid. *)
Theorem suggested_charts_validate (rt : JsRuntime)
  (dimensions measures dates : list FieldAnalysis) (recordCount : nat)
  (s : Suggestion.t) :
  In s (suggestionsOf (applyTableauRules rt dimensions measures dates recordCount)) ->
  Suggestion.type s <> "line" ->
  Suggestion.type s <> "heatmap" ->
  (Suggestion.type s = "scatter" -> 10 <= recordCount) ->
  validateChartSuggestion (Suggestion.type s) dimensions measures dates recordCount
  = Some true.
Proof.
  intros Hin Hline Hheat Hscatter.
  destruct (returned_suggestions rt dimensions measures dates recordCount)
    as (_ & _ & _ & Htable & Hpushed).
  destruct (String.eqb (Suggestion.type s) "table") eqn:Et.
  - apply String.eqb_eq in Et. rewrite Et. reflexivity.
  - apply String.eqb_neq in Et. specialize (Hpushed s Hin Et).
    pose proof (pushedByRules_validated rt dimensions measures dates recordCount) as V.
    rewrite forallb_forall in V. specialize (V s Hpushed).
    apply orb_prop in V. destruct V as [V|V].
    + unfold narrowlyValidated in V.
      apply orb_prop in V. destruct V as [V|V].
      * apply orb_prop in V. destruct V as [V|V]; apply String.eqb_eq in V; contradiction.
      * apply andb_prop in V. destruct V as [V1 V2].
        apply String.eqb_eq in V1. apply Hscatter in V1. apply Nat.ltb_lt in V2. lia.
    + unfold validated in V.
      destruct (validateChartSuggestion _ _ _ _ _) as [[|]|]; congruence.
Qed.

Lemma suggested_charts_validate_witness :
  let region := analyzeField Samples.refRuntime Samples.typedTable "region" in
  let sales := analyzeField Samples.refRuntime Samples.typedTable "sales" in
  In (sug "pie" 2 "Few categories - can show parts of whole")
     (suggestionsOf (applyTableauRules Samples.refRuntime [region] [sales] [] 4))
  /\ validateChartSuggestion "pie" [region] [sales] [] 4 = Some true.
Proof.
  intros region sales. split.
  - vm_compute. right. right. left. reflexivity.
  - apply (suggested_charts_validate Samples.refRuntime [region] [sales] [] 4
             (sug "pie" 2 "Few categories - can show parts of whole")).
    + vm_compute. right. right. left. reflexivity.
    + discriminate.
    + discriminate.
    + discriminate.
Defined.


(** *** Chart types pushed by a single rule *)

Lemma filter_returned (rt : JsRuntime) (p : Suggestion.t -> bool)
  (dimensions measures dates : list FieldAnalysis) (recordCount : nat) :
  p tableFallback = false ->
  Permutation
    (List.filter p (suggestionsOf
                      (applyTableauRules rt dimensions measures dates recordCount)))
    (List.filter p (pushedByRules rt dimensions measures dates recordCount)).
Proof.
  intros Hp. cbn [applyTableauRules suggestionsOf].
  etransitivity.
  - apply filter_permutation. apply EngineFacts.sortByPriority_perm.
  - destruct (collected_cases rt dimensions measures dates recordCount)
      as [[E C]|[E C]]; rewrite C.
    + rewrite E. simpl. rewrite Hp. constructor.
    + reflexivity.
Qed.

Lemma filter_flat_map {A B : Type} (p : B -> bool) (f : A -> list B) (l : list A) :
  List.filter p (flat_map f l) = flat_map (fun a => List.filter p (f a)) l.
Proof.
  induction l as [|a l IH]; simpl; [reflexivity|].
  now rewrite List.filter_app, IH.
Qed.

Lemma flat_map_nil {A B : Type} (f : A -> list B) (l : list A) :
  (forall a, f a = []) -> flat_map f l = [].
Proof.
  intros H. induction l as [|a l IH]; simpl; [reflexivity|]. now rewrite H, IH.
Qed.

Lemma length_flat_map_filter {A B : Type} (q : A -> bool) (b : B) (l : list A) :
  length (flat_map (fun a => if q a then [b] else []) l) = length (List.filter q l).
Proof.
  induction l as [|a l IH]; simpl; [reflexivity|].
  destruct (q a); simpl; now rewrite IH.
Qed.

Lemma pushedByRules_split (rt : JsRuntime)
  (dimensions measures dates : list FieldAnalysis) (recordCount : nat) :
  pushedByRules rt dimensions measures dates recordCount
  = patternRules rt dimensions measures dates
    ++ ruleHighCardinality dimensions measures
    ++ ruleLargeDataset measures recordCount
    ++ ruleGeographic rt dimensions measures.
Proof. unfold pushedByRules, patternRules. now rewrite <- !app_assoc. Qed.

Lemma patternRules_types (rt : JsRuntime)
  (dimensions measures dates : list FieldAnalysis) :
  forallb (fun s => existsb (String.eqb (Suggestion.type s)) patternTypes)
          (patternRules rt dimensions measures dates) = true.
Proof.
  unfold patternRules. rewrite !forallb_app.
  repeat (apply andb_true_iff; split).
  - unfold rule1. branches.
  - unfold rule2. branches.
  - unfold rule3. branches.
  - unfold rule4. branches.
  - unfold rule5. branches.
  - unfold rule6. branches.
  - unfold rule7. branches.
  - unfold rule8. branches.
  - unfold rule9. branches.
  - unfold rule10. branches.
  - unfold rule11. branches.
  - unfold rule12. branches.
  - unfold rule13. branches.
  - unfold rule14, stackableScenarios. simpl. branches.
Qed.

(** A chart type outside [patternTypes] is pushed by none of the rules
    1 to 14. *)
Lemma filter_patternRules (rt : JsRuntime)
  (dimensions measures dates : list FieldAnalysis) (ty : string) :
  existsb (String.eqb ty) patternTypes = false ->
  List.filter (isOfType ty) (patternRules rt dimensions measures dates) = [].
Proof.
  intros H. apply filter_none. intros s Hs.
  pose proof (patternRules_types rt dimensions measures dates) as T.
  rewrite forallb_forall in T. specialize (T s Hs).
  unfold isOfType. destruct (String.eqb (Suggestion.type s) ty) eqn:E; [|reflexivity].
  apply String.eqb_eq in E. rewrite E in T. congruence.
Qed.

Lemma pushed_treemap (rt : JsRuntime)
  (dimensions measures dates : list FieldAnalysis) (recordCount : nat) :
  length (List.filter (isOfType "treemap")
            (pushedByRules rt dimensions measures dates recordCount))
  = if 1 <=? length measures
    then length (List.filter (fun d => isHIGH (cardinalityLevel d)) dimensions)
    else 0.
Proof.
  rewrite pushedByRules_split, !List.filter_app, !length_app.
  rewrite filter_patternRules by reflexivity.
  replace (List.filter (isOfType "treemap") (ruleLargeDataset measures recordCount))
    with (@nil Suggestion.t) by (unfold ruleLargeDataset; branches).
  replace (List.filter (isOfType "treemap") (ruleGeographic rt dimensions measures))
    with (@nil Suggestion.t) by (unfold ruleGeographic; branches).
  cbn [length Nat.add]. rewrite Nat.add_0_r.
  unfold ruleHighCardinality. rewrite filter_flat_map.
  destruct (1 <=? length measures).
  - rewrite <- (length_flat_map_filter (fun d => isHIGH (cardinalityLevel d))
                  (sug "treemap" 3 "High cardinality dimension - treemap shows hierarchy")).
    f_equal. apply flat_map_ext. intros a. now destruct (isHIGH (cardinalityLevel a)).
  - rewrite flat_map_nil; [reflexivity|]. intros a. branches.
Qed.

Lemma pushed_density (rt : JsRuntime)
  (dimensions measures dates : list FieldAnalysis) (recordCount : nat) :
  length (List.filter (isOfType "density")
            (pushedByRules rt dimensions measures dates recordCount))
  = if (10000 <? Z.of_nat recordCount)%Z && (2 <=? length measures) then 1 else 0.
Proof.
  rewrite pushedByRules_split, !List.filter_app, !length_app.
  rewrite filter_patternRules by reflexivity.
  replace (List.filter (isOfType "density") (ruleHighCardinality dimensions measures))
    with (@nil Suggestion.t).
  2:{ unfold ruleHighCardinality. rewrite filter_flat_map.
      symmetry. apply flat_map_nil. intros a. branches. }
  replace (List.filter (isOfType "density") (ruleGeographic rt dimensions measures))
    with (@nil Suggestion.t) by (unfold ruleGeographic; branches).
  cbn [length Nat.add]. rewrite Nat.add_0_r.
  unfold ruleLargeDataset.
  destruct (10000 <? Z.of_nat recordCount)%Z; [|reflexivity].
  destruct (2 <=? length measures); reflexivity.
Qed.

Lemma pushed_map (rt : JsRuntime)
  (dimensions measures dates : list FieldAnalysis) (recordCount : nat) :
  List.filter (isOfType "map")
              (pushedByRules rt dimensions measures dates recordCount)
  = ruleGeographic rt dimensions measures.
Proof.
  rewrite pushedByRules_split, !List.filter_app.
  rewrite filter_patternRules by reflexivity.
  replace (List.filter (isOfType "map") (ruleHighCardinality dimensions measures))
    with (@nil Suggestion.t).
  2:{ unfold ruleHighCardinality. rewrite filter_flat_map.
      symmetry. apply flat_map_nil. intros a. branches. }
  replace (List.filter (isOfType "map") (ruleLargeDataset measures recordCount))
    with (@nil Suggestion.t) by (unfold ruleLargeDataset; branches).
  unfold ruleGeographic. branches.
Qed.

(** *** Substrings *)

Lemma prefix_app (sub s : string) :
  String.prefix sub s = true <-> exists post, s = (sub ++ post)%string.
Proof.
  revert s. induction sub as [|c sub IH]; intros s; simpl.
  - split; [intros _; now exists s|now destruct s].
  - destruct s as [|c' s]; [split; [discriminate|intros [post H]; discriminate]|].
    simpl. destruct (Ascii.ascii_dec c c') as [->|Hc].
    + rewrite IH. split; intros [post H]; exists post.
      * now rewrite H.
      * now injection H.
    + split; [discriminate|]. intros [post H]. injection H as H1 H2. congruence.
Qed.

Lemma includes_substring (s sub : string) :
  includes s sub = true <-> exists pre post, s = (pre ++ sub ++ post)%string.
Proof.
  induction s as [|c s IH].
  - change (includes EmptyString sub) with (String.prefix sub EmptyString || false).
    rewrite orb_false_r. rewrite prefix_app. split.
    + intros [post H]. now exists EmptyString, post.
    + intros [pre [post H]]. destruct pre; [now exists post|discriminate].
  - change (includes (String c s) sub)
      with (String.prefix sub (String c s) || includes s sub).
    rewrite orb_true_iff, prefix_app, IH. split.
    + intros [[post H]|[pre [post H]]].
      * now exists EmptyString, post.
      * exists (String c pre), post. simpl. now rewrite H.
    + intros [[|c' pre] [post H]].
      * left. now exists post.
      * right. exists pre, post. simpl in H. now injection H.
Qed.

Lemma existsb_eqb_In (x : string) (l : list string) :
  existsb (String.eqb x) l = true <-> In x l.
Proof.
  rewrite existsb_exists. split.
  - intros [y [Hy E]]. apply String.eqb_eq in E. now subst.
  - intros H. exists x. split; [assumption|apply String.eqb_refl].
Qed.

Lemma isGeographicField_substring (rt : JsRuntime) (fieldName : string) :
  isGeographicField rt fieldName = true
  <-> exists keyword pre post,
        In keyword geoKeywords
        /\ toLowerCase rt fieldName = (pre ++ keyword ++ post)%string.
Proof.
  unfold isGeographicField. rewrite existsb_exists. split.
  - intros [keyword [Hk H]]. apply includes_substring in H.
    destruct H as [pre [post H]]. now exists keyword, pre, post.
  - intros [keyword [pre [post [Hk H]]]]. exists keyword. split; [assumption|].
    apply includes_substring. now exists pre, post.
Qed.

Lemma containsGeographicValues_In (rt : JsRuntime) (values : list JsValue) :
  containsGeographicValues rt values = true
  <-> exists v, In v values /\ In (toLowerCase rt (ToString rt v)) geoValues.
Proof.
  unfold containsGeographicValues. rewrite existsb_exists.
  split; intros [v [Hv H]]; exists v; (split; [assumption|]); now apply existsb_eqb_In.
Qed.

Lemma filter_nonempty {A : Type} (p : A -> bool) (l : list A) :
  (0 <? length (List.filter p l)) = true <-> exists x, In x l /\ p x = true.
Proof.
  rewrite Nat.ltb_lt. split.
  - destruct (List.filter p l) as [|x rest] eqn:E; simpl; [lia|]. intros _.
    exists x. apply filter_In. rewrite E. now left.
  - intros [x Hx]. apply filter_In in Hx.
    destruct (List.filter p l); [destruct Hx|simpl; lia].
Qed.

Lemma returned_suggestions_map (rt : JsRuntime)
  (dimensions measures dates : list FieldAnalysis) (recordCount : nat) :
  let returned :=
    suggestionsOf (applyTableauRules rt dimensions measures dates recordCount) in
  Permutation (List.filter (isOfType "map") returned)
              (ruleGeographic rt dimensions measures).
Proof.
  intros returned. unfold returned.
  rewrite (filter_returned rt (isOfType "map") dimensions measures dates
             recordCount eq_refl).
  now rewrite pushed_map.
Qed.

(** X3.  On dimensions whose [uniqueValues] hold neither [null] nor
    [undefined], as those of [analyzeField] do, [applyTableauRules]
    suggests a [map] exactly when there is at least one measure and some
    dimension whose lowercased name contains one of the geographic keywords
    as a substring (so [Platform] qualifies, through [lat]), or one of
    whose [uniqueValues] lowercases to one of the listed countries.  The
    [map] is suggested at most once, at priority 1. *)
Theorem map_suggestion (rt : JsRuntime)
  (dimensions measures dates : list FieldAnalysis) (recordCount : nat) :
  (forall d v, In d dimensions -> In v (uniqueValues d) -> notNullish v = true) ->
  let returned :=
    suggestionsOf (applyTableauRules rt dimensions measures dates recordCount) in
  let geographic := fun d : FieldAnalysis =>
    (exists keyword pre post,
        In keyword geoKeywords
        /\ toLowerCase rt (name d) = (pre ++ keyword ++ post)%string)
    \/ (exists v, In v (uniqueValues d)
                  /\ In (toLowerCase rt (ToString rt v)) geoValues) in
  ((exists s, In s returned /\ Suggestion.type s = "map")
   <-> 1 <= length measures /\ exists d, In d dimensions /\ geographic d)
  /\ length (List.filter (isOfType "map") returned) <= 1
  /\ (forall s, In s returned -> Suggestion.type s = "map" -> s = mapSuggestion).
Proof.
  intros _ returned geographic.
  pose proof (returned_suggestions_map rt dimensions measures dates recordCount) as P.
  fold returned in P.
  assert (G : (0 <? length (geoFields rt dimensions)) && (1 <=? length measures) = true
              <-> 1 <= length measures /\ exists d, In d dimensions /\ geographic d).
  { rewrite andb_true_iff, Nat.leb_le. unfold geoFields. rewrite filter_nonempty.
    split.
    - intros [[d [Hd H]] Hm]. split; [assumption|]. exists d. split; [assumption|].
      apply orb_prop in H. destruct H as [H|H].
      + left. now apply isGeographicField_substring.
      + right. now apply containsGeographicValues_In.
    - intros [Hm [d [Hd H]]]. split; [|assumption]. exists d. split; [assumption|].
      apply orb_true_iff. destruct H as [H|H].
      + left. now apply isGeographicField_substring.
      + right. now apply containsGeographicValues_In. }
  assert (M : forall s, In s returned -> Suggestion.type s = "map" ->
                In s (ruleGeographic rt dimensions measures)).
  { intros s Hs Ht. eapply Permutation_in; [exact P|].
    apply filter_In. split; [assumption|]. unfold isOfType. rewrite Ht. reflexivity. }
  split; [|split].
  - rewrite <- G. split.
    + intros [s [Hs Ht]]. apply M in Hs; [|assumption].
      unfold ruleGeographic in Hs. destruct (_ && _); [reflexivity|destruct Hs].
    + intros H. exists mapSuggestion. split; [|reflexivity].
      assert (Hin : In mapSuggestion (List.filter (isOfType "map") returned)).
      { eapply Permutation_in; [symmetry; exact P|].
        unfold ruleGeographic. rewrite H. now left. }
      now apply filter_In in Hin.
  - rewrite (Permutation_length P). unfold ruleGeographic.
    destruct (_ && _); simpl; lia.
  - intros s Hs Ht. apply M in Hs; [|assumption].
    unfold ruleGeographic in Hs. destruct (_ && _); [|destruct Hs].
    destruct Hs as [<-|[]]. reflexivity.
Qed.

Lemma map_suggestion_witness :
  let region := analyzeField Samples.refRuntime Samples.typedTable "region" in
  let sales := analyzeField Samples.refRuntime Samples.typedTable "sales" in
  (forall d v, In d [region] -> In v (uniqueValues d) -> notNullish v = true)
  /\ exists s,
       In s (suggestionsOf (applyTableauRules Samples.refRuntime [region] [sales] [] 4))
       /\ Suggestion.type s = "map".
Proof.
  intros region sales.
  assert (H : forall d v, In d [region] -> In v (uniqueValues d) -> notNullish v = true).
  { intros d v [<-|[]] Hv. vm_compute in Hv.
    repeat (destruct Hv as [<-|Hv]; [reflexivity|]). destruct Hv. }
  split; [exact H|].
  apply (proj1 (map_suggestion Samples.refRuntime [region] [sales] [] 4 H)).
  split; [simpl; lia|]. exists region. split; [now left|].
  left. exists "region", "", "". split; [|reflexivity].
  simpl. tauto.
Defined.

End RuleFacts.

(** ** Facts about the analysis of a field *)

Module FieldFacts.
Import Js Engine Spec JsFacts RuleNotions RuleFacts.

Lemma partition_by_type (l : list FieldAnalysis) :
  Permutation
    (List.filter (fun f => isDIMENSION (type f)) l
     ++ List.filter (fun f => isMEASURE (type f)) l
     ++ List.filter (fun f => isDATE (type f)) l) l.
Proof.
  induction l as [|a l IH]; simpl; [constructor|].
  destruct (type a); simpl.
  - now constructor.
  - rewrite <- Permutation_middle. now constructor.
  - rewrite app_assoc, <- Permutation_middle, <- app_assoc. now constructor.
Qed.

(** X4.  On a non-empty selection and present data, [suggestCharts]
    analyses every selected field once and hands [applyTableauRules] three
    lists that partition the analyses by type: together a permutation of
    them, each holding exactly those of its type.  The list of suggestions
    is not empty.  With absent data the call throws. *)
Theorem suggestCharts_partitions_fields (rt : JsRuntime)
  (rows : list (gmap string JsValue)) (field : string) (fields : list string) :
  let analysis := List.map (analyzeField rt rows) (field :: fields) in
  (exists suggestions dimensions measures dates,
     suggestCharts rt (Some rows) (Some (field :: fields))
     = Ruled suggestions dimensions measures dates
     /\ Permutation (dimensions ++ measures ++ dates) analysis
     /\ length dimensions + length measures + length dates = S (length fields)
     /\ (forall a, In a dimensions <-> In a analysis /\ type a = DIMENSION)
     /\ (forall a, In a measures <-> In a analysis /\ type a = MEASURE)
     /\ (forall a, In a dates <-> In a analysis /\ type a = DATE)
     /\ 1 <= length suggestions)
  /\ suggestCharts rt None (Some (field :: fields)) = Threw.
Proof.
  intros analysis. split; [|reflexivity].
  eexists _, _, _, _. split; [reflexivity|].
  fold analysis.
  pose proof (partition_by_type analysis) as P.
  split; [exact P|]. split.
  - apply Permutation_length in P. rewrite !length_app in P.
    assert (L : length analysis = S (length fields))
      by (unfold analysis; rewrite length_map; reflexivity).
    lia.
  - repeat split.
    + now apply filter_In in H.
    + apply filter_In in H. destruct H as [_ H]. now destruct (type a).
    + intros [H1 H2]. apply filter_In. split; [assumption|]. now rewrite H2.
    + now apply filter_In in H.
    + apply filter_In in H. destruct H as [_ H]. now destruct (type a).
    + intros [H1 H2]. apply filter_In. split; [assumption|]. now rewrite H2.
    + now apply filter_In in H.
    + apply filter_In in H. destruct H as [_ H]. now destruct (type a).
    + intros [H1 H2]. apply filter_In. split; [assumption|]. now rewrite H2.
    + apply RuleFacts.returned_suggestions.
Qed.


Lemma columnValues_absent (data : list (gmap string JsValue)) (fieldName : string) :
  (forall row, In row data -> notNullish (getProp row fieldName) = false) ->
  columnValues data fieldName = [].
Proof.
  intros H. unfold columnValues. apply filter_none.
  intros v Hv. apply in_map_iff in Hv. destruct Hv as [row [<- Hrow]]. now apply H.
Qed.

(** X5.  A field that no row has, or that is [null] or [undefined] in
    every row, analyses to a DIMENSION of cardinality 0 and tier LOW with
    no unique and no sample values, [hasNulls] being true as soon as there
    is a row; selected alone it gets the bar chart of a single categorical
    dimension. *)
Theorem analyzeField_absent_column (rt : JsRuntime)
  (data : list (gmap string JsValue)) (fieldName : string) :
  (forall row, In row data -> notNullish (getProp row fieldName) = false) ->
  analyzeField rt data fieldName
  = {| name := fieldName; type := DIMENSION; cardinality := 0;
       cardinalityLevel := LOW; uniqueValues := [];
       hasNulls := 0 <? length data; sampleValues := [] |}
  /\ suggestionsOf (suggestCharts rt (Some data) (Some [fieldName]))
     = [sug "bar" 1 "Single categorical dimension - show frequency"].
Proof.
  intros H.
  assert (E : analyzeField rt data fieldName
              = {| name := fieldName; type := DIMENSION; cardinality := 0;
                   cardinalityLevel := LOW; uniqueValues := [];
                   hasNulls := 0 <? length data; sampleValues := [] |}).
  { unfold analyzeField. rewrite (columnValues_absent data fieldName H). reflexivity. }
  split; [exact E|].
  unfold suggestCharts. cbn [List.map]. rewrite E. cbn.
  unfold collected, pushedByRules, ruleGeographic, ruleLargeDataset. cbn.
  rewrite andb_false_r. destruct (_ <? _)%Z; reflexivity.
Qed.

Lemma analyzeField_absent_column_witness :
  analyzeField Samples.refRuntime Samples.followers "Region"
  = {| name := "Region"; type := DIMENSION; cardinality := 0;
       cardinalityLevel := LOW; uniqueValues := [];
       hasNulls := true; sampleValues := [] |}
  /\ suggestionsOf (suggestCharts Samples.refRuntime (Some Samples.followers)
                                  (Some ["Region"]))
     = [sug "bar" 1 "Single categorical dimension - show frequency"].
Proof.
  apply (analyzeField_absent_column Samples.refRuntime Samples.followers "Region").
  intros row Hrow. simpl in Hrow.
  repeat (destruct Hrow as [<-|Hrow]; [vm_compute; reflexivity|]). destruct Hrow.
Defined.

(** *** Row order *)

Lemma forallb_permutation {A : Type} (p : A -> bool) (l l' : list A) :
  Permutation l l' -> forallb p l = forallb p l'.
Proof.
  intros P.
  destruct (forallb p l) eqn:E; symmetry.
  - rewrite forallb_forall in *. intros x Hx. apply E.
    eapply Permutation_in; [symmetry|]; eauto.
  - destruct (forallb p l') eqn:E'; [|reflexivity].
    rewrite forallb_forall in E'.
    assert (forallb p l = true); [|congruence].
    apply forallb_forall. intros x Hx. apply E'. eapply Permutation_in; eauto.
Qed.

Lemma setFromList_length_le (l l' : list JsValue) :
  (forall x, In x l -> In x l') ->
  length (setFromList l) <= length (setFromList l').
Proof.
  intros H. apply EngineFacts.pairwiseDistinct_length_le.
  - apply setFromList_distinct.
  - intros x Hx. apply setFromList_from in Hx. apply setFromList_covers. now apply H.
Qed.

Lemma setFromList_length_permutation (l l' : list JsValue) :
  Permutation l l' -> length (setFromList l) = length (setFromList l').
Proof.
  intros P. apply Nat.le_antisymm; apply setFromList_length_le; intros x Hx.
  - eapply Permutation_in; eauto.
  - eapply Permutation_in; [symmetry|]; eauto.
Qed.

Lemma determineDataType_permutation (rt : JsRuntime) (l l' : list JsValue) :
  Permutation l l' -> determineDataType rt l = determineDataType rt l'.
Proof.
  intros P. unfold determineDataType.
  rewrite (Permutation_length P).
  rewrite (Permutation_length (filter_permutation (isDateValue rt) l l' P)).
  pose proof (filter_permutation isNumericValue l l' P) as PN.
  rewrite (Permutation_length PN).
  rewrite (setFromList_length_permutation _ _ PN).
  rewrite (forallb_permutation isIntegerValue _ _ PN).
  reflexivity.
Qed.

Lemma columnValues_permutation (data data' : list (gmap string JsValue))
  (fieldName : string) :
  Permutation data data' ->
  Permutation (columnValues data fieldName) (columnValues data' fieldName).
Proof.
  intros P. unfold columnValues. apply filter_permutation. now apply Permutation_map.
Qed.

(** X6.  The type, the cardinality, the cardinality tier and [hasNulls]
    of [analyzeField] do not depend on the order of the rows. *)
Theorem analyzeField_row_order (rt : JsRuntime)
  (data data' : list (gmap string JsValue)) (fieldName : string) :
  Permutation data data' ->
  let field := analyzeField rt data fieldName in
  let field' := analyzeField rt data' fieldName in
  type field = type field'
  /\ cardinality field = cardinality field'
  /\ cardinalityLevel field = cardinalityLevel field'
  /\ hasNulls field = hasNulls field'
  /\ Permutation (columnValues data fieldName) (columnValues data' fieldName).
Proof.
  intros P field field'.
  pose proof (columnValues_permutation data data' fieldName P) as PV.
  unfold field, field', analyzeField. cbn [type cardinality cardinalityLevel hasNulls].
  rewrite (determineDataType_permutation rt _ _ PV).
  rewrite (setFromList_length_permutation _ _ PV).
  rewrite (Permutation_length PV), (Permutation_length P).
  repeat split; try reflexivity. exact PV.
Qed.

Lemma analyzeField_row_order_witness :
  let field := analyzeField Samples.refRuntime Samples.typedTable "region" in
  let field' := analyzeField Samples.refRuntime (rev Samples.typedTable) "region" in
  type field = type field'
  /\ cardinality field = cardinality field'
  /\ cardinalityLevel field = cardinalityLevel field'
  /\ hasNulls field = hasNulls field'
  /\ Permutation (columnValues Samples.typedTable "region")
                 (columnValues (rev Samples.typedTable) "region").
Proof.
  apply (analyzeField_row_order Samples.refRuntime Samples.typedTable
           (rev Samples.typedTable) "region").
  apply Permutation_rev.
Defined.

(** *** Bounds *)

Lemma columnValues_length (data : list (gmap string JsValue)) (fieldName : string) :
  length (columnValues data fieldName) <= length data.
Proof.
  unfold columnValues.
  etransitivity; [apply List.filter_length_le|]. now rewrite length_map.
Qed.

Lemma columnValues_In (data : list (gmap string JsValue)) (fieldName : string)
  (v : JsValue) :
  In v (columnValues data fieldName) ->
  notNullish v = true /\ exists row, In row data /\ v = getProp row fieldName.
Proof.
  unfold columnValues. intros H. apply filter_In in H. destruct H as [H1 H2].
  split; [assumption|]. apply in_map_iff in H1. destruct H1 as [row [<- Hrow]]. eauto.
Qed.

Lemma In_firstn {A : Type} (n : nat) (l : list A) (x : A) :
  In x (firstn n l) -> In x l.
Proof.
  revert l. induction n as [|n IH]; intros [|a l]; simpl; try tauto.
  intros [H|H]; [now left|right; now apply IH].
Qed.

Lemma getCardinalityLevel_tiers (count : nat) :
  (getCardinalityLevel count = LOW <-> count <= 20)
  /\ (getCardinalityLevel count = MEDIUM <-> 20 < count <= 100)
  /\ (getCardinalityLevel count = HIGH <-> 100 < count).
Proof.
  unfold getCardinalityLevel. cbn [T_LOW T_MEDIUM CARDINALITY_THRESHOLDS].
  destruct (Nat.leb_spec count 20); [|destruct (Nat.leb_spec count 100)];
    repeat split; intros; try discriminate; try lia; reflexivity.
Qed.

(** X7.  Bounds of [analyzeField]: the cardinality is at most the number
    of rows, [uniqueValues] holds at most 10 and [sampleValues] at most 5
    values, all of them values of the column other than [null] and
    [undefined].  The tier is LOW up to 20 distinct values, MEDIUM from 21
    to 100, and HIGH from 101 on (the threshold 1000 of the table is not
    consulted); a table of at most 20 rows has LOW fields only. *)
Theorem analyzeField_bounds (rt : JsRuntime)
  (data : list (gmap string JsValue)) (fieldName : string) :
  let field := analyzeField rt data fieldName in
  cardinality field <= length data
  /\ length (uniqueValues field) <= 10
  /\ length (sampleValues field) <= 5
  /\ (forall v, In v (uniqueValues field) \/ In v (sampleValues field) ->
        notNullish v = true /\ exists row, In row data /\ v = getProp row fieldName)
  /\ (cardinalityLevel field = LOW <-> cardinality field <= 20)
  /\ (cardinalityLevel field = MEDIUM <-> 20 < cardinality field <= 100)
  /\ (cardinalityLevel field = HIGH <-> 100 < cardinality field)
  /\ (length data <= 20 -> cardinalityLevel field = LOW).
Proof.
  intros field. unfold field, analyzeField.
  cbn [cardinality uniqueValues sampleValues cardinalityLevel].
  set (values := columnValues data fieldName).
  assert (L : length (setFromList values) <= length data).
  { etransitivity; [apply setFromList_length|apply columnValues_length]. }
  split; [exact L|].
  split; [rewrite length_firstn; lia|].
  split; [rewrite length_firstn; lia|].
  split.
  { intros v [H|H]; apply In_firstn in H.
    - apply setFromList_from in H. now apply columnValues_In in H.
    - now apply columnValues_In in H. }
  destruct (getCardinalityLevel_tiers (length (setFromList values))) as (T1 & T2 & T3).
  split; [exact T1|]. split; [exact T2|]. split; [exact T3|].
  intros H. apply T1. lia.
Qed.


Lemma analyzeField_not_HIGH (rt : JsRuntime) (rows : list (gmap string JsValue))
  (fieldName : string) :
  length rows <= 100 ->
  isHIGH (cardinalityLevel (analyzeField rt rows fieldName)) = false.
Proof.
  intros H.
  assert (L : length (setFromList (columnValues rows fieldName)) <= length rows).
  { etransitivity; [apply setFromList_length|apply columnValues_length]. }
  unfold analyzeField. cbn [cardinalityLevel]. unfold getCardinalityLevel.
  cbn [T_LOW T_MEDIUM CARDINALITY_THRESHOLDS].
  destruct (Nat.leb_spec (length (setFromList (columnValues rows fieldName))) 20);
    [reflexivity|].
  destruct (Nat.leb_spec (length (setFromList (columnValues rows fieldName))) 100);
    [reflexivity|lia].
Qed.

(** X8.  [applyTableauRules] returns one [treemap] per dimension of HIGH
    cardinality when there is a measure, and none otherwise; it returns one
    [density] when there are more than 10000 records and at least two
    measures, and none otherwise.  Hence [suggestCharts] suggests neither
    on a table of at most 100 rows. *)
Theorem treemap_and_density (rt : JsRuntime) :
  (forall (dimensions measures dates : list FieldAnalysis) (recordCount : nat),
     let returned :=
       suggestionsOf (applyTableauRules rt dimensions measures dates recordCount) in
     length (List.filter (isOfType "treemap") returned)
     = (if 1 <=? length measures
        then length (List.filter (fun d => isHIGH (cardinalityLevel d)) dimensions)
        else 0)
     /\ length (List.filter (isOfType "density") returned)
        = if (10000 <? Z.of_nat recordCount)%Z && (2 <=? length measures)
          then 1 else 0)
  /\ (forall (rows : list (gmap string JsValue)) (fields : list string),
        length rows <= 100 ->
        let returned := suggestionsOf (suggestCharts rt (Some rows) (Some fields)) in
        List.filter (isOfType "treemap") returned = []
        /\ List.filter (isOfType "density") returned = []).
Proof.
  assert (G : forall (dimensions measures dates : list FieldAnalysis) (recordCount : nat),
     let returned :=
       suggestionsOf (applyTableauRules rt dimensions measures dates recordCount) in
     length (List.filter (isOfType "treemap") returned)
     = (if 1 <=? length measures
        then length (List.filter (fun d => isHIGH (cardinalityLevel d)) dimensions)
        else 0)
     /\ length (List.filter (isOfType "density") returned)
        = if (10000 <? Z.of_nat recordCount)%Z && (2 <=? length measures)
          then 1 else 0).
  { intros dimensions measures dates recordCount returned. split.
    - unfold returned.
      rewrite (Permutation_length
                 (filter_returned rt (isOfType "treemap") dimensions measures dates
                    recordCount eq_refl)).
      apply pushed_treemap.
    - unfold returned.
      rewrite (Permutation_length
                 (filter_returned rt (isOfType "density") dimensions measures dates
                    recordCount eq_refl)).
      apply pushed_density. }
  split; [exact G|].
  intros rows [|field fields] Hrows returned; [split; reflexivity|].
  unfold returned, suggestCharts.
  set (analysis := List.map (analyzeField rt rows) (field :: fields)).
  destruct (G (List.filter (fun f => isDIMENSION (type f)) analysis)
              (List.filter (fun f => isMEASURE (type f)) analysis)
              (List.filter (fun f => isDATE (type f)) analysis)
              (length rows)) as [G1 G2].
  split; apply length_zero_iff_nil.
  - rewrite G1. destruct (1 <=? _); [|reflexivity].
    rewrite filter_none; [reflexivity|].
    intros d Hd. apply filter_In in Hd. destruct Hd as [Hd _].
    apply in_map_iff in Hd. destruct Hd as [name [<- _]].
    now apply analyzeField_not_HIGH.
  - rewrite G2.
    replace (10000 <? Z.of_nat (length rows))%Z with false; [reflexivity|].
    symmetry. apply Z.ltb_ge. lia.
Qed.


(** *** A single selected field *)

Lemma ruleLargeDataset_few_measures (measures : list FieldAnalysis) (n : nat) :
  length measures <= 1 -> ruleLargeDataset measures n = [].
Proof.
  intros H. unfold ruleLargeDataset. destruct (_ <? _)%Z; [|reflexivity].
  destruct (Nat.leb_spec 2 (length measures)); [lia|reflexivity].
Qed.

(** X9.  What [suggestCharts] answers when a single field is selected: a
    histogram for a MEASURE, a bar chart for a DIMENSION of LOW
    cardinality, and the [table] fallback for a DATE and for a DIMENSION
    of MEDIUM or HIGH cardinality. *)
Theorem suggestCharts_single_field (rt : JsRuntime)
  (rows : list (gmap string JsValue)) (fieldName : string) :
  let field := analyzeField rt rows fieldName in
  suggestionsOf (suggestCharts rt (Some rows) (Some [fieldName]))
  = match type field with
    | MEASURE => [sug "histogram" 1 "Single continuous measure - show distribution"]
    | DATE => [tableFallback]
    | DIMENSION =>
        if isLOW (cardinalityLevel field)
        then [sug "bar" 1 "Single categorical dimension - show frequency"]
        else [tableFallback]
    end.
Proof.
  intros field. unfold suggestCharts. cbn [List.map]. fold field. clearbody field.
  destruct (type field) eqn:T; cbn [List.filter isDIMENSION isMEASURE isDATE];
    rewrite ?T; cbn [isDIMENSION isMEASURE isDATE applyTableauRules suggestionsOf];
    unfold collected, pushedByRules; rewrite ruleLargeDataset_few_measures by (simpl; lia).
  - unfold ruleGeographic, ruleHighCardinality. cbn.
    rewrite andb_false_r.
    destruct (isLOW (cardinalityLevel field)), (isHIGH (cardinalityLevel field));
      reflexivity.
  - reflexivity.
  - reflexivity.
Qed.

End FieldFacts.

(** ** Facts about the column selector *)

Module SelectionFacts.
Import Js Charts Spec Selection SelectionNotions.

(** *** [combinations] *)

Lemma choose_one (n : nat) : choose n 1 = n.
Proof. induction n as [|n IH]; simpl; [reflexivity|]. destruct n; simpl in *; lia. Qed.

Lemma combinations_count {A : Type} (arr : list A) (k : nat) :
  length (combinations arr (S k)) = choose (length arr) (S k).
Proof.
  revert arr. induction k as [|k IHk]; intros arr.
  - rewrite TableFacts.combinations_one, length_map, choose_one. reflexivity.
  - induction arr as [|x arr IH].
    + now rewrite TableFacts.combinations_nil.
    + rewrite TableFacts.combinations_cons, length_app, length_map, IHk, IH.
      reflexivity.
Qed.

Lemma combinations_sublist {A : Type} (arr : list A) (k : nat) (c : list A) :
  In c (combinations arr k) -> length c = k /\ sublist c arr.
Proof.
  destruct k as [|k]; [intros []|].
  revert arr c. induction k as [|k IHk]; intros arr c.
  - rewrite TableFacts.combinations_one. intros H. apply in_map_iff in H.
    destruct H as [x [<- Hx]]. split; [reflexivity|].
    apply singleton_sublist_l. now apply list_elem_of_In.
  - induction arr as [|x arr IH].
    + rewrite TableFacts.combinations_nil. intros [].
    + rewrite TableFacts.combinations_cons. intros H. apply in_app_or in H.
      destruct H as [H|H].
      * apply in_map_iff in H. destruct H as [tail [<- Ht]].
        apply IHk in Ht. destruct Ht as [L Hsub]. split; [simpl; now rewrite L|].
        now apply sublist_skip.
      * apply IH in H. destruct H as [L Hsub]. split; [assumption|].
        now apply sublist_cons.
Qed.

Lemma sublist_combinations {A : Type} (arr c : list A) :
  sublist c arr -> 1 <= length c -> In c (combinations arr (length c)).
Proof.
  induction 1 as [|x c arr Hsub IH|x c arr Hsub IH]; intros L.
  - simpl in L. lia.
  - destruct c as [|y c].
    + cbn [length]. rewrite TableFacts.combinations_one. now left.
    + change (length (x :: y :: c)) with (S (S (length c))).
      rewrite TableFacts.combinations_cons. apply in_or_app. left.
      apply in_map. apply IH. simpl. lia.
  - specialize (IH L). destruct c as [|y c]; [simpl in L; lia|].
    destruct c as [|z c].
    + cbn [length] in *. rewrite TableFacts.combinations_one in *. now right.
    + change (length (y :: z :: c)) with (S (S (length c))) in *.
      rewrite TableFacts.combinations_cons. apply in_or_app. now right.
Qed.

(** X10.  [combinations(arr, k)] returns, for [k >= 1], exactly the
    sublists of [arr] of length [k] (the elements of [arr] in their order),
    [choose (length arr) k] of them; it returns nothing for [k = 0] and
    for [k] greater than the length of [arr]. *)
Theorem combinations_sublists (arr : list string) (k : nat) :
  length (combinations arr k) = (if k =? 0 then 0 else choose (length arr) k)
  /\ (forall c, In c (combinations arr k) <-> 1 <= k /\ length c = k /\ sublist c arr)
  /\ (length arr < k -> combinations arr k = []).
Proof.
  split; [|split].
  - destruct k as [|k]; [reflexivity|]. apply combinations_count.
  - intros c. split.
    + intros H. destruct k as [|k]; [destruct H|].
      split; [lia|]. now apply combinations_sublist.
    + intros (L1 & L2 & Hsub). subst k. now apply sublist_combinations.
  - intros H. destruct (combinations arr k) as [|c rest] eqn:E; [reflexivity|].
    assert (Hc : In c (combinations arr k)) by (rewrite E; now left).
    destruct k as [|k]; [destruct Hc|].
    apply combinations_sublist in Hc. destruct Hc as [L Hsub].
    apply sublist_length in Hsub. lia.
Qed.


(** *** The variant table by the size of the selection *)

Ltac each_variant H :=
  cbn [CHART_VARIANTS flat_map snd app In] in H;
  repeat (destruct H as [H|H]; [try subst|]); try destruct H.

Lemma long_selection (cols : list string) :
  4 <= length cols -> exists a b c d rest, cols = a :: b :: c :: d :: rest.
Proof.
  destruct cols as [|a [|b [|c [|d rest]]]]; simpl; try lia. intros _. eauto 6.
Qed.

Lemma selection_sizes (rt : JsRuntime) (types : gmap string string)
  (rows : option (list (gmap string JsValue))) :
  (forall v, In v (flat_map snd (CHART_VARIANTS rt)) ->
     isCompatible v [] types rows = false)
  /\ (forall family variants v cols,
        In (family, variants) (CHART_VARIANTS rt) -> In v variants ->
        4 <= length cols -> isCompatible v cols types rows = true ->
        (family = "Line"
         /\ (hasType types (colAt cols 0) "date" = true
             \/ hasType types (colAt cols 0) "numeric" = true))
        \/ (family = "Bar"
            /\ In (key v) ["grouped"; "stacked"; "proportional"]
            /\ (hasType types (colAt cols 0) "categorical" = true
                \/ hasType types (colAt cols 0) "date" = true)
            /\ forallb (fun c => hasType types c "numeric") (skipn 1 cols) = true)).
Proof.
  split.
  - intros v Hv. each_variant Hv; reflexivity.
  - intros family variants v cols Hf Hv Hlen Hc.
    destruct (long_selection cols Hlen) as (a & b & c & d & rest & ->).
    cbn [CHART_VARIANTS In] in Hf.
    repeat (destruct Hf as [Hf|Hf]; [injection Hf as <- <-|]); try destruct Hf;
      cbn [In] in Hv;
      repeat (destruct Hv as [Hv|Hv]; [subst v|]); try destruct Hv;
      try discriminate Hc.
    + right. cbn in Hc. apply andb_prop in Hc. destruct Hc as [Hc1 Hc2].
      split; [reflexivity|]. split; [cbn; tauto|].
      split; [exact (orb_prop _ _ Hc1)|exact Hc2].
    + right. cbn in Hc. apply andb_prop in Hc. destruct Hc as [Hc1 Hc2].
      split; [reflexivity|]. split; [cbn; tauto|].
      split; [exact (orb_prop _ _ Hc1)|exact Hc2].
    + right. cbn in Hc. apply andb_prop in Hc. destruct Hc as [Hc1 Hc2].
      split; [reflexivity|]. split; [cbn; tauto|].
      split; [exact (orb_prop _ _ Hc1)|exact Hc2].
    + left. split; [reflexivity|]. cbn in Hc.
      change (colAt (a :: b :: c :: d :: rest) 0) with a.
      destruct (hasType types a "date"); [now left|]. right.
      destruct (hasType types a "numeric"); [reflexivity|discriminate].
    + left. split; [reflexivity|]. cbn in Hc.
      change (colAt (a :: b :: c :: d :: rest) 0) with a.
      destruct (hasType types a "date"); [now left|]. right.
      destruct (hasType types a "numeric"); [reflexivity|discriminate].
    + left. split; [reflexivity|]. cbn in Hc.
      change (colAt (a :: b :: c :: d :: rest) 0) with a.
      destruct (hasType types a "date"); [now left|]. right.
      destruct (hasType types a "numeric"); [reflexivity|discriminate].
Qed.


(** X11.  No variant of [CHART_VARIANTS] accepts the empty selection.  A
    selection of four or more columns is accepted only by the Line
    variants, where its first column is typed date or numeric, and by the
    grouped, stacked and proportional Bar variants, where its first column
    is typed categorical or date and all others numeric: Pie, Scatter and
    Histogram never accept it. *)
Theorem variants_by_selection_size (rt : JsRuntime) (types : gmap string string)
  (rows : option (list (gmap string JsValue))) :
  (forall v, In v (flat_map snd (CHART_VARIANTS rt)) ->
     isCompatible v [] types rows = false)
  /\ (forall family variants v cols,
        In (family, variants) (CHART_VARIANTS rt) -> In v variants ->
        4 <= length cols -> isCompatible v cols types rows = true ->
        (family = "Line"
         /\ (hasType types (colAt cols 0) "date" = true
             \/ hasType types (colAt cols 0) "numeric" = true))
        \/ (family = "Bar"
            /\ In (key v) ["grouped"; "stacked"; "proportional"]
            /\ (hasType types (colAt cols 0) "categorical" = true
                \/ hasType types (colAt cols 0) "date" = true)
            /\ forallb (fun c => hasType types c "numeric") (skipn 1 cols) = true)).
Proof. apply selection_sizes. Qed.

(** *** Variants that accept whatever another one accepts *)

Ltac bool_cases :=
  repeat match goal with
  | |- context [hasType ?t ?c ?n] => destruct (hasType t c n)
  | |- context [uniqueCount ?r ?c <=? ?n] => destruct (uniqueCount r c <=? n)
  end; cbn; try tauto; try discriminate; try reflexivity.

Lemma hasType_exclusive (types : gmap string string) (c t t' : string) :
  hasType types c t = true -> t <> t' -> hasType types c t' = false.
Proof.
  unfold hasType. destruct (types !! c) as [ty|]; [|reflexivity].
  intros H Hne. apply String.eqb_eq in H. subst ty. now apply String.eqb_neq.
Qed.

(** X12.  Variants that accept whatever another one accepts: the
    horizontal count bar implies the count bar; the multi colour bar
    implies the single colour horizontal bar, which implies the single
    colour bar, the standard pie and the simple scatter; the count pie
    implies the standard pie; the multi-series line implies the simple
    line.  A selection the bubble chart accepts is never accepted by the
    grouped bar.  The horizontal multi colour bar agrees with the multi
    colour bar, [stacked] and [proportional] with [grouped], [area] with
    [simple], and [donut] with the standard pie. *)
Theorem variant_subsumption (rt : JsRuntime) (cols : list string)
  (types : gmap string string) (rows : option (list (gmap string JsValue))) :
  (isCompatible Bar_count_horizontal cols types rows = true ->
   isCompatible Bar_count cols types rows = true)
  /\ (isCompatible Bar_multi cols types rows = true ->
      isCompatible Bar_single_horizontal cols types rows = true)
  /\ (isCompatible Bar_single_horizontal cols types rows = true ->
      isCompatible Bar_single cols types rows = true
      /\ isCompatible Pie_standard cols types rows = true
      /\ isCompatible Scatter_simple cols types rows = true)
  /\ (isCompatible Pie_count cols types rows = true ->
      isCompatible Pie_standard cols types rows = true)
  /\ (isCompatible (Line_multi rt) cols types rows = true ->
      isCompatible (Line_simple rt) cols types rows = true)
  /\ (isCompatible Scatter_bubble cols types rows = true ->
      isCompatible Bar_grouped cols types rows = false)
  /\ isCompatible Bar_multi_horizontal cols types rows
     = isCompatible Bar_multi cols types rows
  /\ isCompatible Bar_stacked cols types rows
     = isCompatible Bar_grouped cols types rows
  /\ isCompatible Bar_proportional cols types rows
     = isCompatible Bar_grouped cols types rows
  /\ isCompatible (Line_area rt) cols types rows
     = isCompatible (Line_simple rt) cols types rows
  /\ isCompatible Pie_donut cols types rows
     = isCompatible Pie_standard cols types rows.
Proof.
  repeat apply conj; try reflexivity; intros H; repeat apply conj; revert H.
  - cbn. destruct (length cols =? 1); cbn; [|discriminate].
    destruct rows; bool_cases.
  - cbn. unfold multiColourCompatible.
    destruct cols as [|a [|b [|c rest]]]; cbn; try discriminate.
    change (colAt [a; b] 0) with a. change (colAt [a; b] 1) with b.
    destruct (hasType types a "categorical") eqn:Ea; cbn.
    + change (colAt [a; b] (Z.to_nat 0)) with a.
      change (colAt [a; b] (Z.to_nat 1)) with b. rewrite Ea.
      destruct (hasType types b "numeric"); cbn; [reflexivity|discriminate].
    + destruct (hasType types b "categorical") eqn:Eb; cbn; [|discriminate].
      change (colAt [a; b] (Z.to_nat 0)) with a.
      change (colAt [a; b] (Z.to_nat 1)) with b. rewrite Eb.
      destruct (hasType types a "numeric"); cbn; [reflexivity|discriminate].
  - cbn. destruct (length cols =? 2); cbn; [|discriminate]. bool_cases.
  - cbn. unfold pieCompatible.
    destruct (length cols =? 2); cbn; [|discriminate]. bool_cases.
  - cbn. destruct (length cols =? 2); cbn; [|discriminate]. bool_cases.
  - cbn. unfold pieCompatible. intros ->. apply orb_true_r.
  - cbn. unfold lineCompatible.
    destruct (Nat.ltb_spec (length cols) 3); [discriminate|].
    destruct (Nat.ltb_spec (length cols) 2); [lia|]. tauto.
  - cbn. unfold groupedCompatible.
    destruct cols as [|a [|b [|c [|d rest]]]]; cbn; try discriminate.
    change (colAt [a; b; c] 0) with a.
    destruct (hasType types a "numeric") eqn:Ea; cbn; [|discriminate].
    rewrite (hasType_exclusive types a "numeric" "categorical" Ea) by discriminate.
    rewrite (hasType_exclusive types a "numeric" "date" Ea) by discriminate.
    reflexivity.
Qed.


(** *** Chart types that need a single column *)

Section SingleColumn.
Variables (variants : list ChartVariant) (types : gmap string string)
          (rows : list (gmap string JsValue)) (p : string -> bool).
Hypothesis one_column :
  forall c, someVariantAccepts variants types rows [c] = p c.
Hypothesis more_columns :
  forall combo, 2 <= length combo -> (forall x, In x combo -> p x = false) ->
    someVariantAccepts variants types rows combo = false.

Lemma tryCombos_singletons (columns : list string) :
  tryCombos variants (List.map (fun x => [x]) columns) types rows
  = (fun c => [c]) <$> List.find p columns.
Proof.
  induction columns as [|c columns IH]; simpl; [reflexivity|].
  rewrite TableFacts.tryVariants_accepts, one_column.
  destruct (p c); [reflexivity|exact IH].
Qed.

Lemma tryCombos_rejected (combos : list (list string)) :
  (forall combo, In combo combos ->
     someVariantAccepts variants types rows combo = false) ->
  tryCombos variants combos types rows = None.
Proof.
  induction combos as [|combo combos IH]; intros H; simpl; [reflexivity|].
  rewrite TableFacts.tryVariants_accepts, (H combo (or_introl eq_refl)).
  apply IH. intros c Hc. apply H. now right.
Qed.

Lemma trySizes_rejected (columns : list string) (ks : list nat) :
  (forall x, In x columns -> p x = false) ->
  (forall k, In k ks -> 2 <= k) ->
  trySizes variants columns ks types rows = None.
Proof.
  intros Hp. induction ks as [|k ks IH]; intros Hk; simpl; [reflexivity|].
  rewrite tryCombos_rejected.
  - apply IH. intros k' Hk'. apply Hk. now right.
  - intros combo Hc. apply combinations_sublist in Hc. destruct Hc as [L Hsub].
    apply more_columns.
    + rewrite L. apply Hk. now left.
    + intros x Hx. apply Hp. apply list_elem_of_In.
      eapply elem_of_sublist; [|exact Hsub]. now apply list_elem_of_In.
Qed.

Lemma search_single_column (columns : list string) :
  trySizes variants columns (seq 1 (Nat.min 4 (length columns))) types rows
  = (fun c => [c]) <$> List.find p columns.
Proof.
  destruct columns as [|c columns]; [reflexivity|].
  change (Nat.min 4 (length (c :: columns))) with (S (Nat.min 3 (length columns))).
  cbn [seq trySizes]. rewrite TableFacts.combinations_one, tryCombos_singletons.
  destruct (List.find p (c :: columns)) eqn:E; [reflexivity|].
  cbn [fmap option_fmap option_map]. apply trySizes_rejected.
  - intros x Hx. now apply (find_none _ _ E).
  - intros k Hk. apply in_seq in Hk. lia.
Qed.

End SingleColumn.

(** X13.  For the chart type Histogram, [getAutoSelectColumns] returns
    the first column typed numeric, alone, and [null] when there is none;
    for Pie it returns the first column typed categorical, alone, and
    [null] when there is none. *)
Theorem getAutoSelectColumns_single_column (rt : JsRuntime) (columns : list string)
  (types : gmap string string) (rows : list (gmap string JsValue)) :
  getAutoSelectColumns rt "Histogram" columns types rows
  = (fun c => [c]) <$> List.find (fun c => hasType types c "numeric") columns
  /\ getAutoSelectColumns rt "Pie" columns types rows
     = (fun c => [c]) <$> List.find (fun c => hasType types c "categorical") columns.
Proof.
  split; unfold getAutoSelectColumns; apply search_single_column.
  - intros c. cbn. now rewrite orb_false_r.
  - intros combo L H. cbn. rewrite orb_false_r.
    destruct combo as [|a [|b rest]]; simpl in L; try lia. reflexivity.
  - intros c. cbn. unfold pieCompatible. cbn.
    change (colAt [c] 0) with c. destruct (hasType types c "categorical"); reflexivity.
  - intros combo L H. cbn. unfold pieCompatible.
    destruct combo as [|a [|b [|c rest]]]; simpl in L; try lia; cbn; [|reflexivity].
    change (colAt [a; b] 0) with a. change (colAt [a; b] 1) with b.
    rewrite (H a), (H b) by (simpl; tauto). reflexivity.
Qed.


(** *** Clicks on the column buttons *)

Lemma isSelected_In (c : string) (selection : list string) :
  isSelected c selection = true <-> In c selection.
Proof. apply RuleFacts.existsb_eqb_In. Qed.

Lemma isSelected_app (c : string) (l1 l2 : list string) :
  isSelected c (l1 ++ l2) = isSelected c l1 || isSelected c l2.
Proof. apply existsb_app. Qed.

Lemma isSelected_filter (c col : string) (l : list string) :
  isSelected c (List.filter (fun x => negb (String.eqb x col)) l)
  = negb (String.eqb c col) && isSelected c l.
Proof.
  induction l as [|x l IH]; simpl; [now rewrite andb_false_r|].
  destruct (String.eqb_spec x col) as [->|Hx]; simpl.
  - rewrite IH. destruct (String.eqb_spec c col); simpl; [reflexivity|].
    reflexivity.
  - rewrite IH. destruct (String.eqb_spec c x) as [->|Hc]; simpl; [|reflexivity].
    destruct (String.eqb_spec x col); [contradiction|reflexivity].
Qed.

Lemma isSelected_toggle (c col : string) (prev : list string) :
  isSelected c (handleColumnToggle col prev)
  = if String.eqb c col then negb (isSelected c prev) else isSelected c prev.
Proof.
  unfold handleColumnToggle. fold (isSelected col prev).
  destruct (String.eqb_spec c col) as [->|Hc].
  - destruct (isSelected col prev) eqn:E.
    + rewrite isSelected_filter, String.eqb_refl. reflexivity.
    + rewrite isSelected_app, E. simpl. now rewrite String.eqb_refl.
  - destruct (isSelected col prev) eqn:E.
    + rewrite isSelected_filter. destruct (String.eqb_spec c col); [contradiction|].
      reflexivity.
    + rewrite isSelected_app. simpl.
      destruct (String.eqb_spec c col); [contradiction|]. now rewrite !orb_false_r.
Qed.

Lemma NoDup_toggle (col : string) (prev : list string) :
  List.NoDup prev -> List.NoDup (handleColumnToggle col prev).
Proof.
  intros H. unfold handleColumnToggle.
  destruct (existsb (String.eqb col) prev) eqn:E.
  - now apply List.NoDup_filter.
  - apply List.NoDup_app; [assumption|constructor; [intros []|constructor]|].
    intros x Hx [<-|[]]. apply isSelected_In in Hx. unfold isSelected in Hx. congruence.
Qed.


Lemma isSelected_fold (c : string) (clicks selection : list string) :
  isSelected c (fold_left (fun sel col => handleColumnToggle col sel) clicks selection)
  = xorb (isSelected c selection) (Nat.odd (count_occ string_dec clicks c)).
Proof.
  revert selection. induction clicks as [|col clicks IH]; intros selection; simpl.
  - now rewrite xorb_false_r.
  - rewrite IH, isSelected_toggle.
    destruct (string_dec col c) as [->|Hc].
    + rewrite String.eqb_refl, Nat.odd_succ, <- Nat.negb_odd.
      now destruct (isSelected c selection), (Nat.odd _).
    + destruct (String.eqb_spec c col); [congruence|reflexivity].
Qed.

Lemma NoDup_fold (clicks selection : list string) :
  List.NoDup selection ->
  List.NoDup (fold_left (fun sel col => handleColumnToggle col sel) clicks selection).
Proof.
  revert selection. induction clicks as [|col clicks IH]; intros selection H; simpl.
  - assumption.
  - apply IH. now apply NoDup_toggle.
Qed.

Lemma filter_absent (col : string) (l : list string) :
  ~ In col l -> List.filter (fun c => negb (String.eqb c col)) l = l.
Proof.
  induction l as [|x l IH]; intros H; simpl; [reflexivity|].
  destruct (String.eqb_spec x col) as [->|Hx]; simpl.
  - contradiction H. now left.
  - rewrite IH; [reflexivity|]. intros Hin. apply H. now right.
Qed.

(** X14.  After any sequence of [handleColumnToggle] calls from the empty
    selection, the selection holds no column twice, and a column is
    selected exactly when it was clicked an odd number of times.  A click
    on a selected column removes it; a click on an unselected column
    appends it, and a second click restores the selection. *)
Theorem column_selected_after_odd_clicks (clicks : list string) (col : string) :
  let selection := afterClicks clicks in
  List.NoDup selection
  /\ (forall c, In c selection <-> Nat.odd (count_occ string_dec clicks c) = true)
  /\ (In col selection ->
      afterClicks (clicks ++ [col])
      = List.filter (fun c => negb (String.eqb c col)) selection)
  /\ (~ In col selection ->
      afterClicks (clicks ++ [col]) = selection ++ [col]
      /\ afterClicks (clicks ++ [col; col]) = selection).
Proof.
  intros selection. unfold selection, afterClicks.
  split; [apply NoDup_fold; constructor|].
  split; [intros c; rewrite <- isSelected_In, isSelected_fold; reflexivity|].
  rewrite !fold_left_app. cbn [fold_left].
  set (sel := fold_left _ clicks []).
  split.
  - intros H. apply isSelected_In in H. unfold handleColumnToggle.
    unfold isSelected in H. now rewrite H.
  - intros H.
    assert (E : existsb (String.eqb col) sel = false).
    { destruct (existsb (String.eqb col) sel) eqn:E; [|reflexivity].
      contradiction H. now apply isSelected_In. }
    assert (T : handleColumnToggle col sel = sel ++ [col]).
    { unfold handleColumnToggle. now rewrite E. }
    split; [exact T|]. rewrite T. unfold handleColumnToggle.
    rewrite existsb_app. simpl. rewrite String.eqb_refl, orb_true_r.
    rewrite List.filter_app, filter_absent by assumption.
    simpl. rewrite String.eqb_refl. simpl. apply app_nil_r.
Qed.

(** *** Columns that can be added *)

(** X15.  [isColumnAddable] is true of a selected column.  Of an
    unselected column it is true exactly when some variant of
    [CHART_VARIANTS] accepts the selection [handleColumnToggle] produces.
    When three or more columns are selected, an unselected column is
    addable only if the first selected column is typed date or numeric
    (Line), or it is typed categorical or date, all other selected columns
    are numeric and the new column is numeric (grouped bars). *)
Theorem isColumnAddable_click (rt : JsRuntime) (col : string)
  (selected columns : list string) (types : gmap string string)
  (rows : list (gmap string JsValue)) :
  (In col selected -> isColumnAddable rt col selected columns types rows = true)
  /\ (~ In col selected ->
      (isColumnAddable rt col selected columns types rows = true
       <-> exists family variants variant,
             In (family, variants) (CHART_VARIANTS rt) /\ In variant variants
             /\ isCompatible variant (handleColumnToggle col selected) types
                             (Some rows) = true))
  /\ (~ In col selected -> 3 <= length selected ->
      isColumnAddable rt col selected columns types rows = true ->
      (hasType types (colAt selected 0) "date" = true
       \/ hasType types (colAt selected 0) "numeric" = true)
      \/ ((hasType types (colAt selected 0) "categorical" = true
           \/ hasType types (colAt selected 0) "date" = true)
          /\ forallb (fun c => hasType types c "numeric") (skipn 1 selected) = true
          /\ hasType types col "numeric" = true)).
Proof.
  assert (A : ~ In col selected ->
      (isColumnAddable rt col selected columns types rows = true
       <-> exists family variants variant,
             In (family, variants) (CHART_VARIANTS rt) /\ In variant variants
             /\ isCompatible variant (handleColumnToggle col selected) types
                             (Some rows) = true)).
  { intros H.
    assert (E : existsb (String.eqb col) selected = false).
    { destruct (existsb (String.eqb col) selected) eqn:E; [|reflexivity].
      contradiction H. now apply isSelected_In. }
    unfold isColumnAddable, handleColumnToggle. rewrite E.
    rewrite existsb_exists. split.
    - intros [variant [Hv Hc]]. apply in_flat_map in Hv.
      destruct Hv as [[family variants] [Hf Hv]]. now exists family, variants, variant.
    - intros (family & variants & variant & Hf & Hv & Hc). exists variant.
      split; [|assumption]. apply in_flat_map. now exists (family, variants). }
  split; [|split; [exact A|]].
  - intros H. apply isSelected_In in H. unfold isColumnAddable.
    unfold isSelected in H. now rewrite H.
  - intros H L Hadd. apply (A H) in Hadd.
    destruct Hadd as (family & variants & variant & Hf & Hv & Hc).
    assert (T : handleColumnToggle col selected = selected ++ [col]).
    { unfold handleColumnToggle.
      destruct (existsb (String.eqb col) selected) eqn:E; [|reflexivity].
      contradiction H. now apply isSelected_In. }
    rewrite T in Hc.
    destruct (selection_sizes rt types (Some rows)) as [_ V].
    destruct selected as [|a [|b [|c rest]]]; simpl in L; try lia.
    assert (L4 : 4 <= length ((a :: b :: c :: rest) ++ [col]))
      by (rewrite length_app; simpl; lia).
    specialize (V family variants variant ((a :: b :: c :: rest) ++ [col]) Hf Hv L4 Hc).
    destruct V as [[_ V]|(_ & _ & V1 & V2)]; [left; exact V|].
    right. split; [exact V1|].
    change (skipn 1 ((a :: b :: c :: rest) ++ [col])) with ((b :: c :: rest) ++ [col])
      in V2.
    rewrite forallb_app in V2. apply andb_prop in V2. destruct V2 as [V2 V3].
    split; [exact V2|]. simpl in V3. now rewrite andb_true_r in V3.
Qed.


(** *** [getSampleChartBindings] *)

Section Bindings.
Variables (columns : list string) (types : gmap string string)
          (rows : list (gmap string JsValue)).

Lemma pushFirstCompatible_find (ty : string) (variant : ChartVariant)
  (combos : list (list string)) (result : list Binding) :
  pushFirstCompatible ty variant combos types rows result
  = result ++ match List.find (fun combo => isCompatible variant combo types (Some rows))
                              combos with
              | Some combo => [{| bindingType := ty; bindingVariant := variant;
                                  bindingColumns := combo |}]
              | None => []
              end.
Proof.
  induction combos as [|combo combos IH]; simpl; [now rewrite app_nil_r|].
  destruct (isCompatible variant combo types (Some rows)); [reflexivity|exact IH].
Qed.

Lemma hasBindingOf_snoc (ty : string) (result : list Binding) (b : Binding) :
  bindingType b = ty -> hasBindingOf ty (result ++ [b]) = true.
Proof.
  intros H. unfold hasBindingOf. rewrite existsb_app. simpl.
  rewrite H, String.eqb_refl. now rewrite orb_true_r.
Qed.

Lemma bindSizes_first (ty : string) (variant : ChartVariant) (ks : list nat)
  (result : list Binding) :
  hasBindingOf ty result = false ->
  bindSizes ty variant columns ks types rows result
  = result ++ match firstOfSizes (fun combo => isCompatible variant combo types (Some rows))
                                 columns ks with
              | Some combo => [{| bindingType := ty; bindingVariant := variant;
                                  bindingColumns := combo |}]
              | None => []
              end.
Proof.
  intros H. induction ks as [|k ks IH]; simpl; [now rewrite app_nil_r|].
  rewrite pushFirstCompatible_find.
  destruct (List.find _ (combinations columns k)) as [combo|].
  - now rewrite hasBindingOf_snoc.
  - rewrite app_nil_r, H. exact IH.
Qed.

Lemma bindVariants_first (ty : string) (variants : list ChartVariant)
  (result : list Binding) :
  hasBindingOf ty result = false ->
  bindVariants ty variants columns types rows result
  = result ++ match firstBinding ty variants columns types rows with
              | Some b => [b]
              | None => []
              end.
Proof.
  intros H. induction variants as [|variant variants IH];
    cbn [bindVariants firstBinding]; [now rewrite app_nil_r|].
  rewrite bindSizes_first by assumption.
  destruct (firstOfSizes _ columns [1; 2; 3]) as [combo|].
  - now rewrite hasBindingOf_snoc.
  - rewrite app_nil_r, H. exact IH.
Qed.

Lemma firstBinding_type (ty : string) (variants : list ChartVariant) (b : Binding) :
  firstBinding ty variants columns types rows = Some b -> bindingType b = ty.
Proof.
  induction variants as [|variant variants IH]; cbn [firstBinding]; [discriminate|].
  destruct (firstOfSizes _ columns [1; 2; 3]); [|exact IH].
  intros H. injection H as <-. reflexivity.
Qed.

Lemma hasBindingOf_other (ty : string) (result : list Binding) :
  (forall b, In b result -> bindingType b <> ty) -> hasBindingOf ty result = false.
Proof.
  intros H. unfold hasBindingOf.
  destruct (existsb _ result) eqn:E; [|reflexivity].
  apply existsb_exists in E. destruct E as [b [Hb E]].
  apply String.eqb_eq in E. now apply H in Hb.
Qed.

Lemma bindTypes_first (table : list (string * list ChartVariant))
  (result : list Binding) :
  List.NoDup (List.map fst table) ->
  (forall b, In b result -> ~ In (bindingType b) (List.map fst table)) ->
  fold_left (fun result family =>
               bindVariants (fst family) (snd family) columns types rows result)
            table result
  = result ++ flat_map (fun family =>
                 match firstBinding (fst family) (snd family) columns types rows with
                 | Some b => [b]
                 | None => []
                 end) table.
Proof.
  revert result. induction table as [|[ty variants] table IH]; intros result N H.
  - simpl. now rewrite app_nil_r.
  - cbn [fold_left flat_map fst snd]. inversion N as [|x l Hx N']; subst.
    rewrite bindVariants_first.
    + rewrite IH; [now rewrite <- app_assoc|assumption|].
      intros b Hb Hin. apply in_app_or in Hb. destruct Hb as [Hb|Hb].
      * apply (H b Hb). now right.
      * destruct (firstBinding ty variants columns types rows) as [b'|] eqn:E;
          [|destruct Hb].
        destruct Hb as [<-|[]]. apply firstBinding_type in E.
        rewrite E in Hin. contradiction.
    + apply hasBindingOf_other. intros b Hb E. apply (H b Hb). now left.
Qed.

Lemma firstOfSizes_Some (accepts : list string -> bool) (ks : list nat)
  (combo : list string) :
  firstOfSizes accepts columns ks = Some combo ->
  exists k, In k ks /\ In combo (combinations columns k) /\ accepts combo = true.
Proof.
  induction ks as [|k ks IH]; simpl; [discriminate|].
  destruct (List.find accepts (combinations columns k)) as [c|] eqn:E.
  - intros H. injection H as <-. apply find_some in E. exists k. tauto.
  - intros H. apply IH in H. destruct H as [k' H]. exists k'. tauto.
Qed.

Lemma firstOfSizes_None (accepts : list string -> bool) (ks : list nat) :
  firstOfSizes accepts columns ks = None ->
  forall k combo, In k ks -> In combo (combinations columns k) ->
    accepts combo = false.
Proof.
  induction ks as [|k ks IH]; simpl; [intros _ k combo []|].
  destruct (List.find accepts (combinations columns k)) as [c|] eqn:E; [discriminate|].
  intros H k' combo [<-|Hk] Hc.
  - now apply (find_none _ _ E).
  - now apply (IH H k').
Qed.

Lemma offers_sizes (variant : ChartVariant) :
  offers variant columns types rows
  <-> exists k combo, In k [1; 2; 3] /\ In combo (combinations columns k)
                      /\ isCompatible variant combo types (Some rows) = true.
Proof.
  split.
  - intros (combo & L & Hsub & Hc). exists (length combo), combo.
    split; [simpl; lia|]. split; [|assumption].
    apply sublist_combinations; [assumption|lia].
  - intros (k & combo & Hk & Hin & Hc). exists combo.
    apply combinations_sublist in Hin. destruct Hin as [L Hsub].
    split; [simpl in Hk; lia|]. tauto.
Qed.

Lemma firstBinding_Some (ty : string) (variants : list ChartVariant) (b : Binding) :
  firstBinding ty variants columns types rows = Some b ->
  exists before after,
    variants = before ++ bindingVariant b :: after
    /\ (forall v, In v before -> ~ offers v columns types rows)
    /\ 1 <= length (bindingColumns b) <= 3
    /\ sublist (bindingColumns b) columns
    /\ isCompatible (bindingVariant b) (bindingColumns b) types (Some rows) = true.
Proof.
  induction variants as [|variant variants IH]; cbn [firstBinding]; [discriminate|].
  destruct (firstOfSizes _ columns [1; 2; 3]) as [combo|] eqn:E.
  - intros H. injection H as <-. cbn [bindingVariant bindingColumns].
    apply firstOfSizes_Some in E. destruct E as (k & Hk & Hin & Hc).
    apply combinations_sublist in Hin. destruct Hin as [L Hsub].
    exists [], variants. split; [reflexivity|]. split; [intros v []|].
    split; [simpl in Hk; lia|]. tauto.
  - intros H. apply IH in H. destruct H as (before & after & -> & Hb & H).
    exists (variant :: before), after. split; [reflexivity|]. split; [|exact H].
    intros v [<-|Hv]; [|now apply Hb].
    intros Ho. apply offers_sizes in Ho. destruct Ho as (k & combo & Hk & Hin & Hc).
    rewrite (firstOfSizes_None _ _ E k combo Hk Hin) in Hc. discriminate.
Qed.

Lemma firstBinding_None (ty : string) (variants : list ChartVariant) :
  firstBinding ty variants columns types rows = None ->
  forall v, In v variants -> ~ offers v columns types rows.
Proof.
  induction variants as [|variant variants IH]; cbn [firstBinding];
    [intros _ v []|].
  destruct (firstOfSizes _ columns [1; 2; 3]) as [combo|] eqn:E; [discriminate|].
  intros H v [<-|Hv]; [|now apply IH].
  intros Ho. apply offers_sizes in Ho. destruct Ho as (k & combo & Hk & Hin & Hc).
  rewrite (firstOfSizes_None _ _ E k combo Hk Hin) in Hc. discriminate.
Qed.

End Bindings.

Lemma bound_types (columns : list string) (types : gmap string string)
  (rows : list (gmap string JsValue)) (table : list (string * list ChartVariant)) :
  sublist
    (List.map bindingType
       (flat_map (fun family : string * list ChartVariant =>
                    match firstBinding (fst family) (snd family) columns types rows with
                    | Some b => [b]
                    | None => []
                    end) table))
    (List.map fst table).
Proof.
  induction table as [|[ty variants] table IH]; cbn [flat_map List.map fst snd];
    [constructor|].
  destruct (firstBinding ty variants columns types rows) as [b|] eqn:E.
  - cbn [app List.map]. rewrite (firstBinding_type _ _ _ _ _ _ E).
    now apply sublist_skip.
  - now apply sublist_cons.
Qed.

(** X16.  [getSampleChartBindings] returns at most one binding per chart
    type, in the order Bar, Line, Pie, Scatter, Histogram, so at most five
    and never cut by [slice(0, 9)].  A binding of a type holds the first
    variant of that type that accepts a combination of one to three
    columns, with such a combination; a type has a binding as soon as one
    of its variants accepts one. *)
Theorem getSampleChartBindings_one_per_type (rt : JsRuntime) (columns : list string)
  (types : gmap string string) (rows : list (gmap string JsValue)) :
  let result := getSampleChartBindings rt columns types rows in
  length result <= 5
  /\ sublist (List.map bindingType result) ["Bar"; "Line"; "Pie"; "Scatter"; "Histogram"]
  /\ (forall b, In b result ->
        exists variants before after,
          In (bindingType b, variants) (CHART_VARIANTS rt)
          /\ variants = before ++ bindingVariant b :: after
          /\ (forall v, In v before -> ~ offers v columns types rows)
          /\ 1 <= length (bindingColumns b) <= 3
          /\ sublist (bindingColumns b) columns
          /\ isCompatible (bindingVariant b) (bindingColumns b) types (Some rows) = true)
  /\ (forall family variants variant,
        In (family, variants) (CHART_VARIANTS rt) -> In variant variants ->
        offers variant columns types rows ->
        exists b, In b result /\ bindingType b = family).
Proof.
  intros result.
  set (bound := flat_map (fun family : string * list ChartVariant =>
                  match firstBinding (fst family) (snd family) columns types rows with
                  | Some b => [b]
                  | None => []
                  end) (CHART_VARIANTS rt)).
  assert (T : sublist (List.map bindingType bound)
                      ["Bar"; "Line"; "Pie"; "Scatter"; "Histogram"])
    by apply (bound_types columns types rows (CHART_VARIANTS rt)).
  assert (L : length bound <= 5).
  { apply sublist_length in T. now rewrite length_map in T. }
  assert (R : result = bound).
  { unfold result, getSampleChartBindings, bindTypes.
    rewrite bindTypes_first.
    - cbn [app]. fold bound. apply firstn_all2. lia.
    - cbn. repeat constructor; cbn; intuition discriminate.
    - intros b []. }
  rewrite R. split; [exact L|]. split; [exact T|]. split.
  - intros b Hb. apply in_flat_map in Hb. destruct Hb as [[ty variants] [Hf Hb]].
    cbn [fst snd] in Hb.
    destruct (firstBinding ty variants columns types rows) as [b'|] eqn:E; [|destruct Hb].
    destruct Hb as [<-|[]].
    pose proof (firstBinding_type _ _ _ _ _ _ E) as Ty.
    apply firstBinding_Some in E. destruct E as (before & after & E).
    exists variants, before, after. rewrite Ty. tauto.
  - intros family variants variant Hf Hv Ho.
    destruct (firstBinding family variants columns types rows) as [b|] eqn:E.
    + exists b. split; [|now apply firstBinding_type in E].
      apply in_flat_map. exists (family, variants). split; [assumption|].
      cbn [fst snd]. rewrite E. now left.
    + exfalso. now apply (firstBinding_None _ _ _ _ _ E variant Hv).
Qed.


(** *** [columnsByUniqueness] *)

Section Uniqueness.
Variable rows : list (gmap string JsValue).

Lemma insertByUniqueness_perm (c : string) (l : list string) :
  Permutation (insertByUniqueness rows c l) (c :: l).
Proof.
  induction l as [|x l IH]; simpl; [reflexivity|].
  destruct (uniqueCount rows c <=? uniqueCount rows x); [reflexivity|].
  rewrite IH. apply perm_swap.
Qed.

Lemma insertByUniqueness_sorted (c : string) (l : list string) :
  StronglySorted (fun a b => uniqueCount rows a <= uniqueCount rows b) l ->
  StronglySorted (fun a b => uniqueCount rows a <= uniqueCount rows b)
                 (insertByUniqueness rows c l).
Proof.
  induction 1 as [|x l Hl IH Hx]; simpl.
  - repeat constructor.
  - destruct (Nat.leb_spec (uniqueCount rows c) (uniqueCount rows x)) as [Hc|Hc].
    + constructor; [now constructor|]. constructor; [assumption|].
      eapply List.Forall_impl; [|exact Hx]. intros a Ha. simpl in Ha. lia.
    + constructor; [assumption|].
      eapply Permutation_Forall; [symmetry; apply insertByUniqueness_perm|].
      constructor; [lia|assumption].
Qed.

Lemma insertByUniqueness_stable (n : nat) (c : string) (l : list string) :
  List.filter (fun x => uniqueCount rows x =? n) (insertByUniqueness rows c l)
  = List.filter (fun x => uniqueCount rows x =? n) (c :: l).
Proof.
  induction l as [|x l IH]; [reflexivity|].
  cbn [insertByUniqueness].
  destruct (Nat.leb_spec (uniqueCount rows c) (uniqueCount rows x)) as [Hc|Hc];
    [reflexivity|].
  cbn [List.filter] in *. rewrite IH.
  destruct (Nat.eqb_spec (uniqueCount rows x) n), (Nat.eqb_spec (uniqueCount rows c) n);
    try reflexivity. lia.
Qed.

End Uniqueness.

(** X17.  [columnsByUniqueness] is a permutation of the columns in
    ascending order of their number of distinct values, columns with the
    same number keeping their order; that number is at most the number of
    rows. *)
Theorem columnsByUniqueness_sorted (columns : list string)
  (rows : list (gmap string JsValue)) :
  let sorted := columnsByUniqueness columns rows in
  Permutation sorted columns
  /\ StronglySorted (fun a b => uniqueCount rows a <= uniqueCount rows b) sorted
  /\ (forall n, List.filter (fun c => uniqueCount rows c =? n) sorted
                = List.filter (fun c => uniqueCount rows c =? n) columns)
  /\ (forall c, In c columns -> uniqueCount rows c <= length rows).
Proof.
  intros sorted. unfold sorted, columnsByUniqueness.
  split; [|split; [|split]].
  - induction columns as [|c l IH]; simpl; [constructor|].
    rewrite insertByUniqueness_perm. now constructor.
  - induction columns as [|c l IH]; simpl; [constructor|].
    now apply insertByUniqueness_sorted.
  - intros n. induction columns as [|c l IH]; [reflexivity|].
    cbn [fold_right]. rewrite insertByUniqueness_stable.
    cbn [List.filter]. now rewrite IH.
  - intros c _. unfold uniqueCount.
    etransitivity; [apply JsFacts.setFromList_length|]. now rewrite length_map.
Qed.

(** *** [inferColumnType] *)

Lemma inferColumnType_nonEmpty (rt : JsRuntime) (values : list JsValue) :
  inferColumnType rt values = inferColumnType rt (List.filter nonEmptyValue values).
Proof.
  unfold inferColumnType.
  assert (E : List.filter nonEmptyValue (List.filter nonEmptyValue values)
              = List.filter nonEmptyValue values).
  { induction values as [|v l IH]; simpl; [reflexivity|].
    destruct (nonEmptyValue v) eqn:Ev; simpl; [|exact IH]. now rewrite Ev, IH. }
  now rewrite E.
Qed.

Lemma inferColumnTypes_lookup (rt : JsRuntime) (fields : list string)
  (rows : list (gmap string JsValue)) (field : string) :
  inferColumnTypes rt fields rows !! field
  = if existsb (String.eqb field) fields && negb (String.eqb field "__proto__")
    then Some (inferColumnType rt (List.map (fun row => getProp row field) rows))
    else None.
Proof.
  unfold inferColumnTypes.
  assert (G : forall (types : gmap string string),
    fold_left (fun types f =>
                 if String.eqb f "__proto__" then types
                 else
                   <[f := inferColumnType rt (List.map (fun row => getProp row f) rows)]>
                     types)
              fields types !! field
    = if existsb (String.eqb field) fields && negb (String.eqb field "__proto__")
      then Some (inferColumnType rt (List.map (fun row => getProp row field) rows))
      else types !! field).
  { induction fields as [|f l IH]; intros types0; cbn [fold_left existsb];
      [reflexivity|].
    rewrite IH.
    destruct (String.eqb field "__proto__") eqn:Hp; cbn [negb].
    - rewrite !andb_false_r. destruct (String.eqb_spec f "__proto__") as [Hf|Hf];
        [reflexivity|].
      apply lookup_insert_ne. intros Ef. subst f.
      apply String.eqb_eq in Hp. contradiction.
    - rewrite !andb_true_r. destruct (existsb (String.eqb field) l).
      + now rewrite orb_true_r.
      + rewrite orb_false_r. destruct (String.eqb_spec field f) as [Ef|Hf].
        * subst f. rewrite Hp. now rewrite lookup_insert_eq.
        * destruct (String.eqb f "__proto__"); [reflexivity|].
          now rewrite lookup_insert_ne. }
  rewrite G. now rewrite lookup_empty.
Qed.

(** X18.  [inferColumnType] depends only on the cells that are neither
    [undefined], [null] nor the empty string, whatever their order: two
    columns with the same such cells up to order get the same type, and an
    empty cell added to a column changes nothing.  The type is numeric,
    date or categorical, and categorical when no such cell is left. *)
Theorem inferColumnType_ignores_empty_cells (rt : JsRuntime)
  (values values' : list JsValue) :
  Permutation (List.filter nonEmptyValue values) (List.filter nonEmptyValue values') ->
  inferColumnType rt values = inferColumnType rt values'
  /\ In (inferColumnType rt values) ["numeric"; "date"; "categorical"]
  /\ (List.filter nonEmptyValue values = [] -> inferColumnType rt values = "categorical")
  /\ (forall v, nonEmptyValue v = false ->
        inferColumnType rt (v :: values) = inferColumnType rt values).
Proof.
  intros P. split; [|split; [|split]].
  - unfold inferColumnType. rewrite (Permutation_length P).
    rewrite (Permutation_length
               (RuleFacts.filter_permutation
                  (fun v => negb (isNaN (ToNumber rt v))) _ _ P)).
    rewrite (Permutation_length
               (RuleFacts.filter_permutation
                  (fun v => dateStringValid rt (ToString rt v)) _ _ P)).
    reflexivity.
  - unfold inferColumnType. simpl.
    destruct (_ =? 0); [tauto|]. destruct (atLeast80 _ _); [tauto|].
    destruct (atLeast80 _ _); tauto.
  - intros E. unfold inferColumnType. now rewrite E.
  - intros v Hv. rewrite (inferColumnType_nonEmpty rt (v :: values)).
    rewrite (inferColumnType_nonEmpty rt values). simpl. now rewrite Hv.
Qed.

Lemma inferColumnType_ignores_empty_cells_witness :
  let values := [JStr "3"; JStr ""; JStr "4.5"; JNull] in
  let values' := [JStr "4.5"; JStr "3"] in
  inferColumnType Samples.refRuntime values = inferColumnType Samples.refRuntime values'
  /\ In (inferColumnType Samples.refRuntime values) ["numeric"; "date"; "categorical"]
  /\ (List.filter nonEmptyValue values = [] ->
      inferColumnType Samples.refRuntime values = "categorical")
  /\ (forall v, nonEmptyValue v = false ->
        inferColumnType Samples.refRuntime (v :: values)
        = inferColumnType Samples.refRuntime values).
Proof.
  apply (inferColumnType_ignores_empty_cells Samples.refRuntime
           [JStr "3"; JStr ""; JStr "4.5"; JNull] [JStr "4.5"; JStr "3"]).
  vm_compute. apply perm_swap.
Defined.

(** X19.  The types the upload handlers store: every field of the header
    that is not named like a member of [Object.prototype] has the type
    [inferColumnType] gives its column, exactly one of numeric, date and
    categorical, and categorical when there is no row.  A name outside the
    header has no type, and neither has a header field named [__proto__],
    whose assignment stores nothing: no type test holds of them. *)
Theorem inferColumnTypes_one_type (rt : JsRuntime) (fields : list string)
  (rows : list (gmap string JsValue)) (field : string) :
  let types := inferColumnTypes rt fields rows in
  let column := List.map (fun row => getProp row field) rows in
  (In field fields -> JsObject.inherited field = false ->
     types !! field = Some (inferColumnType rt column)
     /\ (forall t, hasType types field t = String.eqb (inferColumnType rt column) t)
     /\ (hasType types field "numeric" = true
         \/ hasType types field "date" = true
         \/ hasType types field "categorical" = true)
     /\ (rows = [] -> hasType types field "categorical" = true))
  /\ (~ In field fields \/ field = "__proto__" ->
      types !! field = None /\ forall t, hasType types field t = false).
Proof.
  intros types column.
  pose proof (inferColumnTypes_lookup rt fields rows field) as E. fold types column in E.
  split.
  - intros H Hi. apply isSelected_In in H. unfold isSelected in H. rewrite H in E.
    assert (Hp : String.eqb field "__proto__" = false).
    { destruct (String.eqb_spec field "__proto__") as [Ep|_]; [|reflexivity].
      rewrite Ep in Hi. discriminate Hi. }
    rewrite Hp in E. cbn [andb negb] in E.
    assert (Y : forall t, hasType types field t = String.eqb (inferColumnType rt column) t).
    { intros t. unfold hasType. now rewrite E. }
    split; [exact E|]. split; [exact Y|]. split.
    + rewrite !Y. unfold inferColumnType.
      destruct (_ =? 0); [tauto|]. destruct (atLeast80 _ _); [tauto|].
      destruct (atLeast80 _ _); tauto.
    + intros R. rewrite Y. unfold column. rewrite R. reflexivity.
  - intros H.
    assert (N : existsb (String.eqb field) fields && negb (String.eqb field "__proto__")
                = false).
    { destruct H as [H|H]; [|rewrite H; now rewrite andb_false_r].
      destruct (existsb (String.eqb field) fields) eqn:N; [|reflexivity].
      contradiction H. now apply isSelected_In. }
    rewrite N in E. split; [exact E|]. intros t. unfold hasType. now rewrite E.
Qed.

End SelectionFacts.

(** ** Facts about the aggregation by category *)

Module AggregationFacts.
Import Js Charts Spec Aggregation AggregationNotions.

(** *** The dictionary *)

Lemma keys_set (o : Dictionary) (k : string) (v : JsNum) :
  List.map fst (set o k v) = addName (List.map fst o) k.
Proof.
  unfold addName. induction o as [|[k' v'] o IH]; simpl; [reflexivity|].
  rewrite (String.eqb_sym k k').
  destruct (String.eqb k' k); simpl; [reflexivity|].
  rewrite IH. now destruct (existsb (String.eqb k) (List.map fst o)).
Qed.

Lemma get_set_eq (o : Dictionary) (k : string) (v : JsNum) :
  get (set o k v) k = Some v.
Proof.
  induction o as [|[k' v'] o IH]; simpl.
  - now rewrite String.eqb_refl.
  - destruct (String.eqb k' k) eqn:E; simpl; rewrite E; [reflexivity|exact IH].
Qed.

Lemma get_set_ne (o : Dictionary) (k k' : string) (v : JsNum) :
  k' <> k -> get (set o k v) k' = get o k'.
Proof.
  intros H. induction o as [|[k0 v0] o IH]; simpl.
  - destruct (String.eqb_spec k k'); [congruence|reflexivity].
  - destruct (String.eqb_spec k0 k) as [->|E]; simpl.
    + destruct (String.eqb_spec k k'); [congruence|reflexivity].
    + now rewrite IH.
Qed.

Lemma get_In (o : Dictionary) (k : string) (v : JsNum) :
  List.NoDup (List.map fst o) -> In (k, v) o -> get o k = Some v.
Proof.
  induction o as [|[k' v'] o IH]; simpl; intros N H; [destruct H|].
  inversion N as [|x l Hx N']; subst.
  destruct H as [H|H].
  - injection H as E1 E2. subst. now rewrite String.eqb_refl.
  - destruct (String.eqb_spec k' k) as [->|E]; [|now apply IH].
    contradiction Hx. apply in_map_iff. now exists (k, v).
Qed.

(** *** Names in the order of their first occurrence *)

Lemma addName_In (acc : list string) (k x : string) :
  In x (addName acc k) <-> In x acc \/ x = k.
Proof.
  unfold addName. destruct (existsb (String.eqb k) acc) eqn:E.
  - split; [now left|]. intros [H | ->]; [assumption|].
    now apply RuleFacts.existsb_eqb_In.
  - rewrite in_app_iff. simpl. intuition.
Qed.

Lemma addName_NoDup (acc : list string) (k : string) :
  List.NoDup acc -> List.NoDup (addName acc k).
Proof.
  intros H. unfold addName. destruct (existsb (String.eqb k) acc) eqn:E; [assumption|].
  apply List.NoDup_app; [assumption|constructor; [intros []|constructor]|].
  intros x Hx [<-|[]]. apply RuleFacts.existsb_eqb_In in Hx. congruence.
Qed.

Lemma fold_addName_In (keys acc : list string) (x : string) :
  In x (fold_left addName keys acc) <-> In x acc \/ In x keys.
Proof.
  revert acc. induction keys as [|k keys IH]; intros acc; simpl; [tauto|].
  rewrite IH, addName_In. intuition.
Qed.

Lemma fold_addName_NoDup (keys acc : list string) :
  List.NoDup acc -> List.NoDup (fold_left addName keys acc).
Proof.
  revert acc. induction keys as [|k keys IH]; intros acc H; simpl; [assumption|].
  apply IH. now apply addName_NoDup.
Qed.

Lemma firstOccurrences_In (keys : list string) (x : string) :
  In x (firstOccurrences keys) <-> In x keys.
Proof. unfold firstOccurrences. rewrite fold_addName_In. simpl. tauto. Qed.

Lemma firstOccurrences_NoDup (keys : list string) :
  List.NoDup (firstOccurrences keys).
Proof. apply fold_addName_NoDup. constructor. Qed.

Lemma firstOccurrences_snoc (keys : list string) (k : string) :
  firstOccurrences (keys ++ [k]) = addName (firstOccurrences keys) k.
Proof. unfold firstOccurrences. now rewrite fold_left_app. Qed.

(** *** Sums *)

Lemma sumQ_app (l1 l2 : list Q) : sumQ (l1 ++ l2) == sumQ l1 + sumQ l2.
Proof.
  induction l1 as [|x l1 IH]; simpl; [ring|]. rewrite IH. ring.
Qed.

Lemma amountsOf_snoc (k : string) (cs : list (string * JsNum)) (c : string * JsNum) :
  amountsOf k (cs ++ [c])
  = amountsOf k cs ++ (if String.eqb (fst c) k then [finiteValue (snd c)] else []).
Proof.
  unfold amountsOf. rewrite List.filter_app, List.map_app. simpl.
  now destruct (String.eqb (fst c) k).
Qed.

Lemma amountsOf_absent (k : string) (cs : list (string * JsNum)) :
  existsb (String.eqb k) (List.map fst cs) = false -> amountsOf k cs = [].
Proof.
  intros H. unfold amountsOf. rewrite RuleFacts.filter_none; [reflexivity|].
  intros c Hc. destruct (String.eqb_spec (fst c) k) as [E|E]; [|reflexivity].
  assert (existsb (String.eqb k) (List.map fst cs) = true); [|congruence].
  apply RuleFacts.existsb_eqb_In. rewrite <- E. now apply in_map.
Qed.

Lemma numberOrZero_fin (q : Q) :
  exists x, numberOrZero (fin q) = Fin x /\ x == q.
Proof.
  unfold numberOrZero, fin. simpl.
  destruct (Qeq_bool (Qred q) 0) eqn:E; simpl.
  - exists 0%Q. split; [reflexivity|]. apply Qeq_bool_iff in E.
    rewrite <- E. apply Qred_correct.
  - exists (Qred q). split; [reflexivity|apply Qred_correct].
Qed.

(** *** The loop *)

Lemma holds_nil : holds [] [].
Proof. split; [reflexivity|]. intros k. reflexivity. Qed.

Lemma addTo_holds (o : Dictionary) (cs : list (string * JsNum)) (k : string) (a : Q) :
  holds o cs -> JsObject.inherited k = false ->
  exists o', addTo o k (Fin a) = Some o' /\ holds o' (cs ++ [(k, Fin a)]).
Proof.
  intros [H1 H2] Hk. unfold addTo. rewrite Hk. eexists. split; [reflexivity|].
  split.
  - rewrite keys_set, H1, List.map_app. simpl. now rewrite firstOccurrences_snoc.
  - intros k'. rewrite List.map_app, existsb_app. cbn [List.map existsb fst].
    rewrite orb_false_r, amountsOf_snoc. cbn [fst snd finiteValue].
    destruct (String.eqb_spec k' k) as [->|E].
    + rewrite String.eqb_refl, orb_true_r, get_set_eq. f_equal.
      rewrite (H2 k).
      destruct (existsb (String.eqb k) (List.map fst cs)) eqn:Ek.
      * destruct (numberOrZero_fin (sumQ (amountsOf k cs))) as [x [-> Hx]].
        cbn [jsAdd]. unfold fin. f_equal. apply Qred_complete.
        rewrite sumQ_app, Hx. simpl. ring.
      * rewrite (amountsOf_absent k cs Ek). cbn [jsAdd app]. unfold fin. f_equal.
        apply Qred_complete. simpl. ring.
    + rewrite get_set_ne by assumption. rewrite (H2 k'), orb_false_r.
      destruct (String.eqb_spec k k'); [congruence|]. now rewrite app_nil_r.
Qed.

Lemma addRow_contributions (rt : JsRuntime) (categoryCol : string)
  (valueCol : option string) (rows : list (gmap string JsValue))
  (o : Dictionary) (done : list (string * JsNum)) :
  holds o done ->
  (forall c, In c (contributions rt rows categoryCol valueCol) ->
     JsObject.inherited (fst c) = false /\ isFinite (snd c) = true) ->
  exists o',
    fold_left (addRow rt categoryCol valueCol) rows (Some o) = Some o'
    /\ holds o' (done ++ contributions rt rows categoryCol valueCol).
Proof.
  revert o done. induction rows as [|row rows IH]; intros o done Ho Hc.
  - exists o. split; [reflexivity|]. simpl. now rewrite app_nil_r.
  - cbn [fold_left addRow]. unfold contributions in *. cbn [flat_map] in *.
    destruct (given valueCol).
    + destruct (isNaN (ToNumber rt (getProp row (default "" valueCol)))) eqn:En;
        cbn [negb].
      * apply IH; [assumption|]. intros c H. apply Hc. simpl. exact H.
      * destruct (Hc (ToString rt (getProp row categoryCol),
                      ToNumber rt (getProp row (default "" valueCol))))
          as [Hk Hf]; [now left|]. cbn [fst snd] in Hk, Hf.
        destruct (ToNumber rt (getProp row (default "" valueCol))) as [| | |a];
          try discriminate.
        destruct (addTo_holds o done _ a Ho Hk) as [o' [-> Ho']].
        destruct (IH o' _ Ho') as [o2 [E H2]].
        { intros c H. apply Hc. now right. }
        exists o2. split; [exact E|]. now rewrite <- app_assoc in H2.
    + destruct (Hc (ToString rt (getProp row categoryCol), Fin 1))
        as [Hk _]; [now left|]. cbn [fst] in Hk.
      destruct (addTo_holds o done _ 1%Q Ho Hk) as [o' [-> Ho']].
      destruct (IH o' _ Ho') as [o2 [E H2]].
      { intros c H. apply Hc. now right. }
      exists o2. split; [exact E|]. now rewrite <- app_assoc in H2.
Qed.


(** *** The order of the own properties *)

Lemma insertByIndex_perm (e : string * JsNum) (l : Dictionary) :
  Permutation (insertByIndex e l) (e :: l).
Proof.
  induction l as [|x l IH]; simpl; [reflexivity|].
  destruct (_ <=? _)%N; [reflexivity|]. rewrite IH. apply perm_swap.
Qed.

Lemma sortByIndex_perm (l : Dictionary) :
  Permutation (fold_right insertByIndex [] l) l.
Proof.
  induction l as [|e l IH]; simpl; [constructor|].
  rewrite insertByIndex_perm. now constructor.
Qed.

Lemma insertByIndex_sorted (e : string * JsNum) (l : Dictionary) :
  StronglySorted (fun a b => (indexOf (fst a) <= indexOf (fst b))%N) l ->
  StronglySorted (fun a b => (indexOf (fst a) <= indexOf (fst b))%N)
                 (insertByIndex e l).
Proof.
  induction 1 as [|x l Hl IH Hx]; simpl.
  - repeat constructor.
  - destruct (N.leb_spec (indexOf (fst e)) (indexOf (fst x))) as [He|He].
    + constructor; [now constructor|]. constructor; [assumption|].
      eapply List.Forall_impl; [|exact Hx]. intros a Ha. simpl in Ha. lia.
    + constructor; [assumption|].
      eapply Permutation_Forall; [symmetry; apply insertByIndex_perm|].
      constructor; [lia|assumption].
Qed.

Lemma sortByIndex_sorted (l : Dictionary) :
  StronglySorted (fun a b => (indexOf (fst a) <= indexOf (fst b))%N)
                 (fold_right insertByIndex [] l).
Proof.
  induction l as [|e l IH]; simpl; [constructor|]. now apply insertByIndex_sorted.
Qed.

Lemma filter_partition {A : Type} (p : A -> bool) (l : list A) :
  Permutation (List.filter p l ++ List.filter (fun x => negb (p x)) l) l.
Proof.
  induction l as [|x l IH]; simpl; [constructor|].
  destruct (p x); simpl.
  - now constructor.
  - rewrite <- Permutation_middle. now constructor.
Qed.

Lemma ownEntries_perm (o : Dictionary) : Permutation (ownEntries o) o.
Proof.
  unfold ownEntries. rewrite sortByIndex_perm.
  apply (filter_partition (fun e => isArrayIndex (fst e))).
Qed.

Lemma filter_map_fst (p : string -> bool) (o : Dictionary) :
  List.map fst (List.filter (fun e => p (fst e)) o) = List.filter p (List.map fst o).
Proof.
  induction o as [|e o IH]; simpl; [reflexivity|].
  destruct (p (fst e)); simpl; now rewrite IH.
Qed.

Lemma StronglySorted_map {A B : Type} (R : B -> B -> Prop) (f : A -> B) (l : list A) :
  StronglySorted (fun a b => R (f a) (f b)) l -> StronglySorted R (List.map f l).
Proof.
  induction 1 as [|x l Hl IH Hx]; simpl; constructor; [assumption|].
  apply List.Forall_map. exact Hx.
Qed.

(** *** Totals *)

Lemma sumQ_perm (l l' : list Q) : Permutation l l' -> sumQ l == sumQ l'.
Proof.
  induction 1; simpl.
  - reflexivity.
  - now rewrite IHPermutation.
  - ring.
  - etransitivity; eassumption.
Qed.

Lemma sumQ_map_ext {A : Type} (f g : A -> Q) (l : list A) :
  (forall x, In x l -> f x == g x) -> sumQ (List.map f l) == sumQ (List.map g l).
Proof.
  induction l as [|x l IH]; intros H; simpl; [reflexivity|].
  rewrite (H x (or_introl eq_refl)), IH; [reflexivity|].
  intros y Hy. apply H. now right.
Qed.

Lemma sumQ_indicator (x : string) (a : Q) (names : list string) :
  List.NoDup names ->
  sumQ (List.map (fun k => sumQ (if String.eqb x k then [a] else [])) names)
  == if existsb (String.eqb x) names then a else 0.
Proof.
  induction 1 as [|k names Hk N IH]; simpl; [reflexivity|].
  rewrite IH. destruct (String.eqb_spec x k) as [->|E]; simpl.
  - destruct (existsb (String.eqb k) names) eqn:Ex; [|ring].
    apply RuleFacts.existsb_eqb_In in Ex. contradiction.
  - ring.
Qed.

Lemma sumQ_groups (names : list string) (cs : list (string * JsNum)) :
  List.NoDup names ->
  (forall c, In c cs -> In (fst c) names) ->
  sumQ (List.map (fun k => sumQ (amountsOf k cs)) names)
  == sumQ (List.map (fun c => finiteValue (snd c)) cs).
Proof.
  intros N. induction cs as [|c cs IH]; intros H.
  - simpl. clear. induction names as [|k names IHn]; simpl; [reflexivity|].
    rewrite IHn. ring.
  - assert (E : sumQ (List.map (fun k => sumQ (amountsOf k (c :: cs))) names)
                == sumQ (List.map (fun k => sumQ (if String.eqb (fst c) k
                                                   then [finiteValue (snd c)] else []))
                                  names)
                   + sumQ (List.map (fun k => sumQ (amountsOf k cs)) names)).
    { clear. induction names as [|k names IHn]; simpl; [ring|].
      rewrite IHn. unfold amountsOf at 1. simpl.
      destruct (String.eqb (fst c) k); simpl; fold (amountsOf k cs); ring. }
    rewrite E, sumQ_indicator by assumption.
    rewrite IH by (intros c' Hc'; apply H; now right).
    assert (Hin : existsb (String.eqb (fst c)) names = true).
    { apply RuleFacts.existsb_eqb_In. apply H. now left. }
    rewrite Hin. simpl. reflexivity.
Qed.

(** What [aggregateByCategory] returns when no category is named like a
    member of [Object.prototype] and every amount is finite. *)
Lemma aggregate_sums (rt : JsRuntime) (rows : list (gmap string JsValue))
  (categoryCol : string) (valueCol : option string) :
  let cs := contributions rt rows categoryCol valueCol in
  (forall c, In c cs ->
     JsObject.inherited (fst c) = false /\ isFinite (snd c) = true) ->
  exists labels values,
    aggregateByCategory rt rows categoryCol valueCol = Some (labels, values)
    /\ List.NoDup labels
    /\ (forall k, In k labels <-> In k (List.map fst cs))
    /\ length values = length labels
    /\ (forall i k, labels !! i = Some k ->
          values !! i = Some (fin (sumQ (amountsOf k cs))))
    /\ sumQ (List.map finiteValue values)
       == sumQ (List.map (fun c => finiteValue (snd c)) cs)
    /\ exists indexed others,
         labels = indexed ++ others
         /\ others = List.filter (fun k => negb (isArrayIndex k))
                                 (firstOccurrences (List.map fst cs))
         /\ List.Forall (fun k => isArrayIndex k = true) indexed
         /\ StronglySorted (fun a b => (indexOf a <= indexOf b)%N) indexed.
Proof.
  intros cs Hcs.
  destruct (addRow_contributions rt categoryCol valueCol rows [] [] holds_nil Hcs)
    as [o [E [H1 H2]]].
  cbn [app] in H1, H2. fold cs in H1, H2.
  exists (List.map fst (ownEntries o)), (List.map snd (ownEntries o)).
  unfold aggregateByCategory. unfold Dictionary in *. rewrite E.
  pose proof (ownEntries_perm o) as P.
  assert (N : List.NoDup (List.map fst o)) by (rewrite H1; apply firstOccurrences_NoDup).
  assert (V : forall k v, In (k, v) o -> v = fin (sumQ (amountsOf k cs))).
  { intros k v Hin. pose proof (get_In o k v N Hin) as G. rewrite H2 in G.
    destruct (existsb _ _); congruence. }
  split; [reflexivity|]. split; [|split; [|split; [|split; [|split]]]].
  - eapply Permutation_NoDup; [|exact N]. symmetry. now apply Permutation_map.
  - intros k. rewrite <- (firstOccurrences_In (List.map fst cs) k), <- H1.
    split; apply Permutation_in.
    + now apply Permutation_map.
    + symmetry. now apply Permutation_map.
  - now rewrite !length_map.
  - intros i k Hi. rewrite PivotFacts.lookup_map in Hi. rewrite PivotFacts.lookup_map.
    remember (ownEntries o !! i) as found eqn:Ei. unfold Dictionary in *.
    rewrite <- Ei in Hi. symmetry in Ei.
    destruct found as [[k' v]|]; cbn in Hi; [|discriminate].
    injection Hi as E'. subst k'. rewrite Ei. cbn. f_equal. apply V.
    eapply Permutation_in; [exact P|]. apply list_elem_of_In.
    eapply list_elem_of_lookup_2. exact Ei.
  - rewrite List.map_map.
    rewrite (sumQ_perm _ _ (Permutation_map (fun e => finiteValue (snd e)) P)).
    rewrite (sumQ_map_ext (fun e => finiteValue (snd e))
                          (fun e => sumQ (amountsOf (fst e) cs))).
    + rewrite <- (List.map_map fst (fun k => sumQ (amountsOf k cs))).
      apply sumQ_groups; [assumption|].
      intros c Hc. rewrite H1. apply firstOccurrences_In. now apply in_map.
    + intros [k v] Hin. rewrite (V k v Hin). simpl. apply Qred_correct.
  - exists (List.map fst (fold_right insertByIndex []
                           (List.filter (fun e => isArrayIndex (fst e)) o))),
           (List.map fst (List.filter (fun e => negb (isArrayIndex (fst e))) o)).
    split; [unfold ownEntries; now rewrite List.map_app|].
    split; [now rewrite (filter_map_fst (fun k => negb (isArrayIndex k))), H1|].
    split.
    + apply List.Forall_map.
      eapply Permutation_Forall; [symmetry; apply sortByIndex_perm|].
      apply List.Forall_forall. intros e He. now apply filter_In in He.
    + apply StronglySorted_map. apply sortByIndex_sorted.
Qed.


(** *** Integer amounts *)

Lemma isInteger_whole (n : JsNum) :
  isInteger n = true -> isFinite n = true /\ finiteValue n == inject_Z (wholeAmount n).
Proof.
  destruct n as [| | |q]; try discriminate. unfold isInteger. intros H.
  split; [reflexivity|]. apply Pos.eqb_eq in H. cbn [finiteValue wholeAmount].
  rewrite <- (Qfloor_comp _ _ (Qred_correct q)).
  rewrite <- (Qred_correct q) at 1.
  destruct (Qred q) as [a d]. cbn [Qden] in H. subst d.
  unfold Qfloor. now rewrite Z.div_1_r.
Qed.

Lemma sumQ_whole (k : string) (cs : list (string * JsNum)) :
  (forall c, In c cs -> isInteger (snd c) = true) ->
  sumQ (amountsOf k cs) == inject_Z (sumZ (wholeAmountsOf k cs)).
Proof.
  unfold amountsOf, wholeAmountsOf.
  induction cs as [|c cs IH]; intros H; simpl; [reflexivity|].
  destruct (String.eqb (fst c) k); simpl.
  - rewrite IH by (intros c' Hc'; apply H; now right).
    destruct (isInteger_whole (snd c) (H c (or_introl eq_refl))) as [_ E].
    rewrite E, <- inject_Z_plus. reflexivity.
  - apply IH. intros c' Hc'. apply H. now right.
Qed.

Lemma sumQ_all_whole (cs : list (string * JsNum)) :
  (forall c, In c cs -> isInteger (snd c) = true) ->
  sumQ (List.map (fun c => finiteValue (snd c)) cs)
  == inject_Z (sumZ (List.map (fun c => wholeAmount (snd c)) cs)).
Proof.
  induction cs as [|c cs IH]; intros H; simpl; [reflexivity|].
  rewrite IH by (intros c' Hc'; apply H; now right).
  destruct (isInteger_whole (snd c) (H c (or_introl eq_refl))) as [_ E].
  rewrite E, <- inject_Z_plus. reflexivity.
Qed.

Lemma wholeAmountsOf_magnitude (k : string) (cs : list (string * JsNum)) :
  (Z.abs (sumZ (wholeAmountsOf k cs)) <= magnitude cs)%Z.
Proof.
  unfold wholeAmountsOf, magnitude.
  induction cs as [|c cs IH]; simpl; [lia|].
  destruct (String.eqb (fst c) k); simpl; lia.
Qed.

Lemma fin_whole (q : Q) (z : Z) : q == inject_Z z -> fin q = ofZ z.
Proof.
  intros H. unfold fin, ofZ. f_equal.
  rewrite <- (inject_Z_Qred z). now apply Qred_complete.
Qed.

(** X20.  Where no category is named like a member of [Object.prototype]
    and the counted amounts are integers whose magnitudes add up to at
    most 2^53, so that every addition of the source is exact in double
    precision, [aggregateByCategory] returns one label per category of the
    counted rows, without repetition, and at the same position the sum of
    the amounts of that category, an integer of magnitude at most 2^53;
    the values add up to the sum of all amounts.  The labels that are
    array indices come first, in ascending numeric order, followed by the
    other labels in the order of their first row. *)
Theorem aggregateByCategory_sums (rt : JsRuntime) (rows : list (gmap string JsValue))
  (categoryCol : string) (valueCol : option string) :
  let cs := contributions rt rows categoryCol valueCol in
  (forall c, In c cs ->
     JsObject.inherited (fst c) = false /\ isInteger (snd c) = true) ->
  (magnitude cs <= 2 ^ 53)%Z ->
  exists labels values,
    aggregateByCategory rt rows categoryCol valueCol = Some (labels, values)
    /\ List.NoDup labels
    /\ (forall k, In k labels <-> In k (List.map fst cs))
    /\ length values = length labels
    /\ (forall i k, labels !! i = Some k ->
          values !! i = Some (ofZ (sumZ (wholeAmountsOf k cs)))
          /\ (Z.abs (sumZ (wholeAmountsOf k cs)) <= 2 ^ 53)%Z)
    /\ sumZ (List.map wholeAmount values)
       = sumZ (List.map (fun c => wholeAmount (snd c)) cs)
    /\ exists indexed others,
         labels = indexed ++ others
         /\ others = List.filter (fun k => negb (isArrayIndex k))
                                 (firstOccurrences (List.map fst cs))
         /\ List.Forall (fun k => isArrayIndex k = true) indexed
         /\ StronglySorted (fun a b => (indexOf a <= indexOf b)%N) indexed.
Proof.
  intros cs Hcs Hbound.
  assert (Hint : forall c, In c cs -> isInteger (snd c) = true)
    by (intros c Hc; now apply Hcs).
  destruct (aggregate_sums rt rows categoryCol valueCol)
    as (labels & values & E & N & M & L & V & T & O).
  { intros c Hc. destruct (Hcs c Hc) as [Hk Hi]. split; [exact Hk|].
    now apply isInteger_whole. }
  fold cs in V, T, O, M.
  assert (V' : forall i k, labels !! i = Some k ->
                 values !! i = Some (ofZ (sumZ (wholeAmountsOf k cs)))).
  { intros i k Hi. rewrite (V i k Hi). f_equal. apply fin_whole.
    now apply sumQ_whole. }
  exists labels, values. split; [exact E|]. split; [exact N|]. split; [exact M|].
  split; [exact L|]. split; [|split; [|exact O]].
  - intros i k Hi. split; [now apply V'|].
    pose proof (wholeAmountsOf_magnitude k cs). lia.
  - assert (W : List.Forall (fun v => finiteValue v == inject_Z (wholeAmount v)) values).
    { apply List.Forall_forall. intros v Hv. apply list_elem_of_In in Hv.
      apply list_elem_of_lookup_1 in Hv. destruct Hv as [i Hi].
      assert (Hlt : i < length labels).
      { rewrite <- L. now apply lookup_lt_Some in Hi. }
      apply lookup_lt_is_Some_2 in Hlt. destruct Hlt as [k Hk].
      rewrite (V' i k Hk) in Hi. injection Hi as <-.
      unfold ofZ. cbn [finiteValue wholeAmount]. rewrite Qfloor_Z. reflexivity. }
    assert (S1 : sumQ (List.map finiteValue values)
                 == inject_Z (sumZ (List.map wholeAmount values))).
    { clear - W. induction W as [|v l Hv _ IH]; simpl; [reflexivity|].
      rewrite IH, Hv, <- inject_Z_plus. reflexivity. }
    rewrite S1, (sumQ_all_whole cs Hint) in T.
    unfold Qeq in T. simpl in T. lia.
Qed.

Lemma aggregateByCategory_sums_witness :
  let cs := contributions Samples.refRuntime Samples.followers "Platform"
                          (Some "Followers") in
  magnitude cs = 55600%Z
  /\ exists labels values,
       aggregateByCategory Samples.refRuntime Samples.followers "Platform"
                           (Some "Followers") = Some (labels, values)
       /\ labels = ["Instagram"; "TikTok"; "LinkedIn"]
       /\ values = [ofZ 25300; ofZ 27100; ofZ 3200]
       /\ values !! 1 = Some (ofZ (sumZ (wholeAmountsOf "TikTok" cs)))
       /\ sumZ (List.map wholeAmount values) = 55600%Z.
Proof.
  intros cs. split; [vm_compute; reflexivity|].
  destruct (aggregateByCategory_sums Samples.refRuntime Samples.followers "Platform"
              (Some "Followers"))
    as (labels & values & E & _ & _ & _ & V & T & _).
  - intros c Hc. vm_compute in Hc.
    repeat (destruct Hc as [<-|Hc]; [split; reflexivity|]). destruct Hc.
  - apply Z.leb_le. vm_compute. reflexivity.
  - exists labels, values. split; [exact E|].
    assert (E' := E). vm_compute in E'. injection E' as El Ev.
    split; [now rewrite <- El|]. split; [now rewrite <- Ev|]. split.
    + apply (V 1 "TikTok"). now rewrite <- El.
    + rewrite T. vm_compute. reflexivity.
Defined.

Example aggregateByCategory_followers :
  aggregateByCategory Samples.refRuntime Samples.followers "Platform" (Some "Followers")
  = Some (["Instagram"; "TikTok"; "LinkedIn"], [Fin 25300; Fin 27100; Fin 3200])
  /\ aggregateByCategory Samples.refRuntime Samples.followers "Followers" None
     = Some (["3200"; "8500"; "9200"; "9400"; "12500"; "12800"],
             [Fin 1; Fin 1; Fin 1; Fin 1; Fin 1; Fin 1]).
Proof. split; vm_compute; reflexivity. Qed.

(** *** Counting *)

Lemma counting_contributions (rt : JsRuntime) (rows : list (gmap string JsValue))
  (categoryCol : string) :
  contributions rt rows categoryCol None
  = List.map (fun row => (ToString rt (getProp row categoryCol), Fin 1)) rows.
Proof.
  unfold contributions. induction rows as [|row rows IH]; simpl; [reflexivity|].
  f_equal.
Qed.

Lemma counting_amounts (k : string) (keys : list string) :
  sumQ (amountsOf k (List.map (fun key => (key, Fin 1)) keys))
  == inject_Z (Z.of_nat (count_occ string_dec keys k)).
Proof.
  unfold amountsOf. induction keys as [|key keys IH]; simpl; [reflexivity|].
  destruct (String.eqb_spec key k) as [->|E].
  - destruct (string_dec k k) as [_|C]; [|contradiction]. simpl. rewrite IH.
    rewrite Nat2Z.inj_succ, <- Z.add_1_l, inject_Z_plus. reflexivity.
  - destruct (string_dec key k) as [C|_]; [contradiction|]. exact IH.
Qed.

Lemma counting_total (keys : list string) :
  sumQ (List.map (fun c : string * JsNum => finiteValue (snd c))
                 (List.map (fun key => (key, Fin 1)) keys))
  == inject_Z (Z.of_nat (length keys)).
Proof.
  induction keys as [|key keys IH]; [reflexivity|].
  cbn [length]. rewrite Nat2Z.inj_succ, <- Z.add_1_l, inject_Z_plus, <- IH.
  reflexivity.
Qed.

(** X21.  Without a value column, and where no category is named like a
    member of [Object.prototype], [aggregateByCategory] returns every
    category of the rows once, with the number of rows that have it; the
    counts add up to the number of rows. *)
Theorem aggregateByCategory_counts (rt : JsRuntime)
  (rows : list (gmap string JsValue)) (categoryCol : string) :
  let keys := List.map (fun row => ToString rt (getProp row categoryCol)) rows in
  (forall k, In k keys -> JsObject.inherited k = false) ->
  exists labels values,
    aggregateByCategory rt rows categoryCol None = Some (labels, values)
    /\ List.NoDup labels
    /\ (forall k, In k labels <-> In k keys)
    /\ length values = length labels
    /\ (forall i k, labels !! i = Some k ->
          values !! i = Some (ofNat (count_occ string_dec keys k)))
    /\ sumQ (List.map finiteValue values) == inject_Z (Z.of_nat (length rows)).
Proof.
  intros keys Hk.
  assert (C : contributions rt rows categoryCol None
              = List.map (fun key => (key, Fin 1)) keys).
  { rewrite counting_contributions. unfold keys. now rewrite List.map_map. }
  assert (K : List.map fst (contributions rt rows categoryCol None) = keys).
  { rewrite C, List.map_map. simpl. apply List.map_id. }
  destruct (aggregate_sums rt rows categoryCol None)
    as (labels & values & E & N & M & L & V & T & _).
  { intros c Hc. split.
    - apply Hk. rewrite <- K. now apply in_map.
    - rewrite C in Hc. apply in_map_iff in Hc. now destruct Hc as [key [<- _]]. }
  exists labels, values. split; [exact E|]. split; [exact N|].
  split; [intros k; rewrite M, K; reflexivity|]. split; [exact L|]. split.
  - intros i k Hi. rewrite (V i k Hi), C. f_equal. unfold fin, ofNat, ofZ. f_equal.
    rewrite <- inject_Z_Qred. apply Qred_complete. apply counting_amounts.
  - rewrite T, C, counting_total. unfold keys. now rewrite length_map.
Qed.

Lemma aggregateByCategory_counts_witness :
  let keys :=
    List.map (fun row => ToString Samples.refRuntime (getProp row "Platform"))
             Samples.followers in
  exists labels values,
    aggregateByCategory Samples.refRuntime Samples.followers "Platform" None
    = Some (labels, values)
    /\ List.NoDup labels
    /\ (forall k, In k labels <-> In k keys)
    /\ length values = length labels
    /\ (forall i k, labels !! i = Some k ->
          values !! i = Some (ofNat (count_occ string_dec keys k)))
    /\ sumQ (List.map finiteValue values) == inject_Z (Z.of_nat (length Samples.followers)).
Proof.
  apply (aggregateByCategory_counts Samples.refRuntime Samples.followers "Platform").
  intros k Hk. vm_compute in Hk.
  repeat (destruct Hk as [<-|Hk]; [reflexivity|]). destruct Hk.
Defined.

End AggregationFacts.

(** ** Facts about the axis units *)

Module AxisFacts.
Import Js Axis.

Local Open Scope Q_scope.

Lemma jsGe_finite (a b : Q) : jsGe (Fin a) (Fin b) = Qle_bool b a.
Proof. unfold jsGe, jsLt. now rewrite negb_involutive. Qed.

(** X23.  [getUnit] on a finite maximum: the divisor and suffix are 1 and
    none below 1000, and otherwise one of 1000 [k], 1000000 [m] and
    1000000000 [b] such that the scaled maximum is at least 1, and below
    1000 for a maximum under 10^12.  NaN and minus Infinity are not
    scaled; Infinity gets [b]. *)
Theorem getUnit_scaled_maximum (maxValue : Q) :
  let unit := getUnit (Fin maxValue) in
  exists d,
    divisor unit = Fin d
    /\ In (d, suffix unit)
          [(1, ""%string); (1000, "k"%string); (1000000, "m"%string);
           (1000000000, "b"%string)]
    /\ (maxValue < 1000 -> d = 1)
    /\ (1000 <= maxValue -> 1 <= maxValue / d)
    /\ (1000 <= maxValue -> maxValue < 1000000000000 -> maxValue / d < 1000)
    /\ getUnit NaN = {| divisor := Fin 1; suffix := "" |}
    /\ getUnit NegInf = {| divisor := Fin 1; suffix := "" |}
    /\ getUnit PosInf = {| divisor := Fin 1000000000; suffix := "b" |}.
Proof.
  intros unit. unfold unit, getUnit. rewrite !jsGe_finite.
  destruct (Qle_bool 1000000000 maxValue) eqn:E9.
  { apply Qle_bool_iff in E9. exists 1000000000. cbn [divisor suffix].
    split; [reflexivity|]. split; [simpl; tauto|].
    split; [intros H; lra|].
    split; [intros _; apply Qle_shift_div_l; lra|].
    split; [intros _ H; apply Qlt_shift_div_r; lra|].
    repeat split; reflexivity. }
  assert (H9 : maxValue < 1000000000).
  { apply Qnot_le_lt. intros H. apply Qle_bool_iff in H. congruence. }
  destruct (Qle_bool 1000000 maxValue) eqn:E6.
  { apply Qle_bool_iff in E6. exists 1000000. cbn [divisor suffix].
    split; [reflexivity|]. split; [simpl; tauto|].
    split; [intros H; lra|].
    split; [intros _; apply Qle_shift_div_l; lra|].
    split; [intros _ H; apply Qlt_shift_div_r; lra|].
    repeat split; reflexivity. }
  assert (H6 : maxValue < 1000000).
  { apply Qnot_le_lt. intros H. apply Qle_bool_iff in H. congruence. }
  destruct (Qle_bool 1000 maxValue) eqn:E3.
  { apply Qle_bool_iff in E3. exists 1000. cbn [divisor suffix].
    split; [reflexivity|]. split; [simpl; tauto|].
    split; [intros H; lra|].
    split; [intros _; apply Qle_shift_div_l; lra|].
    split; [intros _ H; apply Qlt_shift_div_r; lra|].
    repeat split; reflexivity. }
  assert (H3 : maxValue < 1000).
  { apply Qnot_le_lt. intros H. apply Qle_bool_iff in H. congruence. }
  exists 1. cbn [divisor suffix].
  split; [reflexivity|]. split; [simpl; tauto|].
  split; [reflexivity|]. split; [intros H; lra|]. split; [intros H; lra|].
  repeat split; reflexivity.
Qed.

End AxisFacts.

(** ** Facts about the grouped, stacked and proportional bars *)

Module GroupedBarsFacts.
Import Js Charts Spec GroupedBars GroupedBarsNotions.

Lemma normalizeProportional_length (n : nat) (datasets : list (list JsNum)) :
  length (normalizeProportional n datasets) = length datasets.
Proof.
  unfold normalizeProportional.
  rewrite StackingFacts.normalize_fold_map by apply List.seq_NoDup.
  apply length_map.
Qed.

Lemma normalizeIfProportional_length (variantKey : string) (n : nat)
  (datasets : list BarSeries) :
  length (normalizeIfProportional variantKey n datasets) = length datasets.
Proof.
  unfold normalizeIfProportional. destruct (String.eqb variantKey "proportional");
    [|reflexivity].
  rewrite length_map, length_combine, normalizeProportional_length, length_map. lia.
Qed.


Lemma normalizeIfProportional_labels (variantKey : string) (n : nat)
  (datasets : list BarSeries) :
  List.map barLabel (normalizeIfProportional variantKey n datasets)
  = List.map barLabel datasets.
Proof.
  unfold normalizeIfProportional. destruct (String.eqb variantKey "proportional");
    [|reflexivity].
  rewrite List.map_map. cbn [barLabel].
  assert (L : length (normalizeProportional n (List.map barData datasets))
              = length datasets)
    by (now rewrite normalizeProportional_length, length_map).
  revert L. generalize (normalizeProportional n (List.map barData datasets)).
  induction datasets as [|d datasets IH]; intros [|x l] L; simpl in *;
    try discriminate; [reflexivity|].
  f_equal. apply IH. lia.
Qed.









Example groupedBars_followers :
  groupedBars Samples.refRuntime "stacked" ["Date"; "Platform"; "Followers"]
              Samples.followersTypes Samples.followers
  = Some {| barGroups := [JStr "2024-01-01"; JStr "2024-01-15"];
            barDatasets :=
              [ {| barLabel := JStr "Instagram"; barData := [Fin 12500; Fin 12800] |};
                {| barLabel := JStr "TikTok"; barData := [Fin 8500; Fin 18600] |};
                {| barLabel := JStr "LinkedIn"; barData := [Fin 3200; Fin 0] |} ] |}.
Proof. vm_compute. reflexivity. Qed.

(** *** Two categorical columns *)

Lemma jsAdd_NaN_r (a : JsNum) : jsAdd a NaN = NaN.
Proof. now destruct a. Qed.

Lemma sum_from_NaN {A : Type} (f : A -> JsNum) (l : list A) :
  fold_left (fun acc r => jsAdd acc (f r)) l NaN = NaN.
Proof. induction l as [|x l IH]; simpl; [reflexivity|exact IH]. Qed.

Lemma sum_with_NaN {A : Type} (f : A -> JsNum) (l : list A) (a : JsNum) (r : A) :
  In r l -> isNaN (f r) = true ->
  fold_left (fun acc r => jsAdd acc (f r)) l a = NaN.
Proof.
  revert a. induction l as [|x l IH]; intros a Hin Hr; [destruct Hin|].
  simpl. destruct Hin as [->|Hin].
  - destruct (f r); try discriminate. rewrite jsAdd_NaN_r. apply sum_from_NaN.
  - now apply IH.
Qed.

(** X25.  For the grouped and the stacked bars over a categorical, a second
    categorical and a numeric column, the renderer takes the case written
    for numeric columns: the second categorical column becomes a dataset of
    its own, summed like a number, and its entry for a group is NaN as soon
    as a row of the group holds a category that does not read as a
    number. *)
Theorem groupedBars_two_categories (rt : JsRuntime) (variantKey : string)
  (first second value : string) (types : gmap string string)
  (rows : list (gmap string JsValue)) :
  variantKey = "grouped" \/ variantKey = "stacked" ->
  hasType types first "categorical" = true ->
  hasType types second "categorical" = true ->
  hasType types value "numeric" = true ->
  groupedBars rt variantKey [first; second; value] types rows
  = Some {| barGroups := stackGroups rows first;
            barDatasets :=
              [ {| barLabel := JStr second;
                   barData := stackSeries rt rows first second |};
                {| barLabel := JStr value;
                   barData := stackSeries rt rows first value |} ] |}
  /\ forall i g,
       stackGroups rows first !! i = Some g ->
       (exists r, In r rows /\ strictEquals (getProp r first) g = true
                  /\ isNaN (numericCell rt r second) = true) ->
       stackSeries rt rows first second !! i = Some NaN.
Proof.
  intros Hkey H1 H2 H3. split.
  - unfold groupedBars.
    assert (K : String.eqb variantKey "grouped" || String.eqb variantKey "stacked"
                || String.eqb variantKey "proportional" = true)
      by (destruct Hkey as [-> | ->]; reflexivity).
    rewrite K. cbn [length Nat.leb andb skipn forallb].
    change (colAt [first; second; value] 0) with first.
    change (colAt [first; second; value] 1) with second.
    change (colAt [first; second; value] 2) with value.
    rewrite H1, H2, H3.
    rewrite (SelectionFacts.hasType_exclusive types second "categorical" "numeric" H2)
      by discriminate.
    rewrite (SelectionFacts.hasType_exclusive types first "categorical" "date" H1)
      by discriminate.
    cbn [andb orb]. unfold seriesByColumn, normalizeIfProportional.
    destruct Hkey as [-> | ->]; reflexivity.
  - intros i g Hg (r & Hr & Hrg & Hnan). unfold stackSeries.
    rewrite PivotFacts.lookup_map, Hg. cbn. f_equal.
    unfold sumColumn. apply (sum_with_NaN _ _ _ r); [|exact Hnan].
    apply filter_In. now split.
Qed.

Lemma groupedBars_two_categories_witness :
  let rows := [ Samples.csvRow [("team", "a"); ("city", "Oslo"); ("sales", "5")] ] in
  let types : gmap string string :=
    list_to_map [("team", "categorical"); ("city", "categorical"); ("sales", "numeric")] in
  groupedBars Samples.refRuntime "grouped" ["team"; "city"; "sales"] types rows
  = Some {| barGroups := stackGroups rows "team";
            barDatasets :=
              [ {| barLabel := JStr "city";
                   barData := stackSeries Samples.refRuntime rows "team" "city" |};
                {| barLabel := JStr "sales";
                   barData := stackSeries Samples.refRuntime rows "team" "sales" |} ] |}
  /\ forall i g,
       stackGroups rows "team" !! i = Some g ->
       (exists r, In r rows /\ strictEquals (getProp r "team") g = true
                  /\ isNaN (numericCell Samples.refRuntime r "city") = true) ->
       stackSeries Samples.refRuntime rows "team" "city" !! i = Some NaN.
Proof.
  intros rows types.
  apply (groupedBars_two_categories Samples.refRuntime "grouped" "team" "city" "sales"
           types rows); [now left|reflexivity|reflexivity|reflexivity].
Defined.

Example groupedBars_city_series :
  groupedBars Samples.refRuntime "grouped" ["team"; "city"; "sales"]
    (list_to_map [("team", "categorical"); ("city", "categorical"); ("sales", "numeric")])
    [ Samples.csvRow [("team", "a"); ("city", "Oslo"); ("sales", "5")] ]
  = Some {| barGroups := [JStr "a"];
            barDatasets := [ {| barLabel := JStr "city"; barData := [NaN] |};
                             {| barLabel := JStr "sales"; barData := [Fin 5] |} ] |}.
Proof. vm_compute. reflexivity. Qed.

End GroupedBarsFacts.
